(** * Playlist state restoration and wallpaper-process reconciliation

    A shallow embedding of the state-restoration core of the wallpaper
    manager: the playlist manager ([core/playlist_manager.py]), the
    wallpaper engine ([core/wallpaper_engine.py]) and the controller of
    its settings ([core/wallpaper_controller.py]), the refactored playlist
    flow ([core_refactored.py]), the data side of the playlist panel
    ([ui/playlist_widget.py]), and the process probes, the startup
    reconciliation, the playlist handlers and the performance monitor of
    the main window ([ui/main_window.py]).

    Conventions of the embedding:
    - Python [str] is [string]; the text is taken to be ASCII, so that
      [\d], [\s], [\w], [str.lower], [str.isdigit] and [str.strip] are the
      ASCII restrictions of the Python operations.
    - Python [int] is [Z]; [%] is [Z.modulo] (both are floored).
    - [Optional[str]] is [option string]; the truth value of such a value
      (it is neither [None] nor the empty string) is [truthy_opt].
    - An exception is the [Raise] outcome of the [exc] monad; every
      [try/except] of the source is a [catch] or, where the handler
      depends on the exception, a [handle].  Calls of [logger.error] are
      recorded in an error log; other log levels and the debug prints are
      left out.
    - The settings file, the process table, the compositor and the Qt
      widgets the code talks to are fields of one [World] record that the
      operations pass along. *)

From Stdlib Require Import ZArith String Ascii.
From stdpp Require Import prelude strings gmap pretty.

Local Open Scope string_scope.
Local Open Scope Z_scope.

(** ** Text operations of the Python standard library *)

Module Text.

(** [bool(s)] for a string. *)
Definition truthy (s : string) : bool := negb (String.eqb s "").

(** [bool(o)] for an [Optional[str]]. *)
Definition truthy_opt (o : option string) : bool :=
  match o with
  | Some s => truthy s
  | None => false
  end.

(** [needle in hay]. *)
Fixpoint contains (needle hay : string) : bool :=
  String.prefix needle hay ||
  match hay with
  | EmptyString => false
  | String _ rest => contains needle rest
  end.

(** [sep.join(parts)]. *)
Definition join (sep : string) (parts : list string) : string :=
  String.concat sep parts.

Definition is_digit (c : ascii) : bool :=
  let n := nat_of_ascii c in (48 <=? n)%nat && (n <=? 57)%nat.

Definition is_upper (c : ascii) : bool :=
  let n := nat_of_ascii c in (65 <=? n)%nat && (n <=? 90)%nat.

Definition is_lower (c : ascii) : bool :=
  let n := nat_of_ascii c in (97 <=? n)%nat && (n <=? 122)%nat.

(** [\w]: letters, digits and the underscore. *)
Definition is_word (c : ascii) : bool :=
  is_digit c || is_upper c || is_lower c || Ascii.eqb c "_".

(** [\s] and [str.isspace]: tab, line feed, vertical tab, form feed,
    carriage return, the four separators 0x1c-0x1f and the space. *)
Definition is_space (c : ascii) : bool :=
  let n := nat_of_ascii c in
  ((9 <=? n)%nat && (n <=? 13)%nat) ||
  ((28 <=? n)%nat && (n <=? 31)%nat) ||
  (n =? 32)%nat.

Definition lower_char (c : ascii) : ascii :=
  if is_upper c then ascii_of_nat (nat_of_ascii c + 32) else c.

(** [s.lower()]. *)
Fixpoint lower (s : string) : string :=
  match s with
  | EmptyString => EmptyString
  | String c rest => String (lower_char c) (lower rest)
  end.

Fixpoint all_chars (f : ascii -> bool) (s : string) : bool :=
  match s with
  | EmptyString => true
  | String c rest => f c && all_chars f rest
  end.

(** [s.isdigit()]: false on the empty string. *)
Definition isdigit (s : string) : bool := truthy s && all_chars is_digit s.

(** [s.startswith(p)]. *)
Definition startswith (p s : string) : bool := String.prefix p s.

(** [s.split(c)] for a one-character separator: never empty. *)
Fixpoint split (c : ascii) (s : string) : list string :=
  match s with
  | EmptyString => [EmptyString]
  | String a rest =>
      if Ascii.eqb a c then EmptyString :: split c rest
      else match split c rest with
           | [] => [String a EmptyString]
           | w :: ws => String a w :: ws
           end
  end.

Fixpoint lstrip (s : string) : string :=
  match s with
  | EmptyString => EmptyString
  | String c rest => if is_space c then lstrip rest else s
  end.

Fixpoint rstrip (s : string) : string :=
  match s with
  | EmptyString => EmptyString
  | String c rest =>
      match rstrip rest with
      | EmptyString => if is_space c then EmptyString else String c EmptyString
      | kept => String c kept
      end
  end.

(** [s.strip()]. *)
Definition strip (s : string) : string := rstrip (lstrip s).

(** The first [n] characters of [s]. *)
Fixpoint take_chars (n : nat) (s : string) : string :=
  match n, s with
  | S m, String c rest => String c (take_chars m rest)
  | _, _ => EmptyString
  end.

End Text.

(** ** The fragment of [re] used by the probes

    A backtracking matcher in continuation-passing style, with the
    priorities of Python's engine: the left alternative first, greedy
    repetition first.  One capture group is tracked, the [group(1)] the
    probes read. *)

Module Re.

Inductive regex : Type :=
| Str (lit : string)              (* a literal string                *)
| Class (f : ascii -> bool)       (* one character of a class        *)
| Cat (r1 r2 : regex)             (* r1r2                            *)
| Alt (r1 r2 : regex)             (* r1|r2                           *)
| Opt (r : regex)                 (* r?   greedy                     *)
| Plus (r : regex)                (* r+   greedy                     *)
| Eos                             (* $                               *)
| Grp (r : regex).                (* (r), the capture group          *)

(** [$] without MULTILINE: the end of the string, or just before a line
    feed that ends the string. *)
Definition at_end (s : string) : bool :=
  match s with
  | EmptyString => true
  | String c EmptyString => Ascii.eqb c "010"
  | _ => false
  end.

Fixpoint strip_prefix (p s : string) : option string :=
  match p, s with
  | EmptyString, _ => Some s
  | String a p', String b s' => if Ascii.eqb a b then strip_prefix p' s' else None
  | String _ _, EmptyString => None
  end.

Definition or_else {R} (x : option R) (y : option R) : option R :=
  match x with
  | Some _ => x
  | None => y
  end.

Fixpoint run {R} (r : regex) (s : string) (cap : option string)
    (k : string -> option string -> option R) {struct r} : option R :=
  match r with
  | Str lit =>
      match strip_prefix lit s with
      | Some rest => k rest cap
      | None => None
      end
  | Class f =>
      match s with
      | String c rest => if f c then k rest cap else None
      | EmptyString => None
      end
  | Cat r1 r2 => run r1 s cap (fun s' cap' => run r2 s' cap' k)
  | Alt r1 r2 => or_else (run r1 s cap k) (run r2 s cap k)
  | Opt r1 => or_else (run r1 s cap k) (k s cap)
  | Plus r1 =>
      (fix more (fuel : nat) (s0 : string) (cap0 : option string) : option R :=
         match fuel with
         | O => None
         | S fuel' =>
             run r1 s0 cap0 (fun s' cap' =>
               or_else
                 (if (String.length s' <? String.length s0)%nat
                  then more fuel' s' cap' else None)
                 (k s' cap'))
         end) (S (String.length s)) s cap
  | Eos => if at_end s then k s cap else None
  | Grp r1 =>
      run r1 s cap (fun s' _ =>
        k s' (Some (Text.take_chars (String.length s - String.length s') s)))
  end.

(** [re.search(r, s)]: the leftmost match; the result is its
    [group(1)]. *)
Fixpoint search (r : regex) (s : string) : option (option string) :=
  or_else (run r s None (fun _ cap => Some cap))
          (match s with
           | EmptyString => None
           | String _ rest => search r rest
           end).

(** [m = re.search(r, s)] followed by [m.group(1)], for a pattern whose
    group takes part in every match. *)
Definition search_group (r : regex) (s : string) : option string :=
  match search r s with
  | Some (Some g) => Some g
  | _ => None
  end.

(** [r{n}]. *)
Fixpoint times (n : nat) (r : regex) (rest : regex) : regex :=
  match n with
  | O => rest
  | S m => Cat r (times m r rest)
  end.

(** [r{0,n}], greedy. *)
Fixpoint upto (n : nat) (r : regex) : regex :=
  match n with
  | O => Str ""
  | S m => Opt (Cat r (upto m r))
  end.

(** [r{lo,lo+extra}]. *)
Definition between (lo extra : nat) (r : regex) : regex :=
  times lo r (upto extra r).

Definition digit : regex := Class Text.is_digit.
Definition space : regex := Class Text.is_space.
Definition word : regex := Class Text.is_word.

End Re.

(** ** Exceptions *)

Module Exc.

(** The exceptions the modelled code can meet. *)
Inductive exception : Type :=
| FileNotFoundError
| OSError
| JSONDecodeError
| AttributeError
| TypeError
| IndexError
| ZeroDivisionError.

(** The outcome of a block that may raise. *)
Inductive exc (A : Type) : Type :=
| Ret (a : A)
| Raise (e : exception).
Global Arguments Ret {A} a.
Global Arguments Raise {A} e.

Definition bind {A B} (m : exc A) (f : A -> exc B) : exc B :=
  match m with
  | Ret a => f a
  | Raise e => Raise e
  end.

(** [try: m  except Exception: handler]. *)
Definition catch {A} (m : exc A) (handler : A) : A :=
  match m with
  | Ret a => a
  | Raise _ => handler
  end.

(** [try: m  except E1: ...  except Exception: ...], the handler chosen
    by the exception. *)
Definition handle {A} (m : exc A) (handler : exception -> A) : A :=
  match m with
  | Ret a => a
  | Raise e => handler e
  end.

(** A [for] loop whose body may [return] a value or raise. *)
Fixpoint first_hit {A B} (body : A -> exc (option B)) (l : list A)
    : exc (option B) :=
  match l with
  | [] => Ret None
  | x :: rest =>
      bind (body x) (fun r =>
        match r with
        | Some b => Ret (Some b)
        | None => first_hit body rest
        end)
  end.

End Exc.

Import Exc.

#[global] Instance exc_ret : MRet exc := fun _ a => Ret a.
#[global] Instance exc_bind : MBind exc := fun _ _ f m => Exc.bind m f.

(** ** Data model *)

(** A value of the [last_settings] dictionary. *)
Inductive setting_value : Type :=
| VStr (s : string)
| VInt (z : Z)
| VBool (b : bool).

(** The ["wallpaper_state"] entry of the settings file. *)
Record wallpaper_state : Type := {
  ws_current_wallpaper : option string;               (* absent or null: None *)
  ws_last_settings : option (gmap string setting_value)
}.

(** A JSON object in the settings file: every key may be absent.  The
    values follow the schema of the file, the values the application
    writes.  The loaders take the values as they come, so a file edited to
    hold a value of another type (a string or [null] where a number
    belongs) would put that value into the state; such files have no
    counterpart here, and what is proved about a loaded state is proved
    for files within the schema. *)
Record settings_obj : Type := {
  k_playlists : option (gmap string (list string));
  k_recent : option (list string);
  k_timer_interval : option Z;
  k_custom_timer_text : option (option string);       (* present and null: Some None *)
  k_is_random : option bool;
  k_current_playlist : option (list string);
  k_current_index : option Z;
  k_is_playing : option bool;
  k_wallpaper_state : option wallpaper_state;
  k_current_theme : option string
}.

(** What [json.load] makes of the file: an object, or another JSON value
    (array, string, number, boolean, null). *)
Inductive json_doc : Type :=
| JObject (o : settings_obj)
| JOther.

(** The settings file [SETTINGS_FILE]. *)
Inductive file : Type :=
| Missing                       (* SETTINGS_FILE.exists() is false        *)
| Inaccessible                  (* SETTINGS_FILE.exists() raises: a directory
                                   of the path may not be searched
                                   (PermissionError)                      *)
| Unreadable                    (* open or read raises: OSError, bad UTF-8 *)
| NotJson                       (* json.load raises JSONDecodeError: an
                                   empty or cut-off file among others     *)
| Json (d : json_doc).

(** How a write of the settings file fails, when it fails:
    [open(SETTINGS_FILE, 'w')] raises and the file is as it was, or the
    open has truncated the file and [json.dump] (or the close) raises,
    which leaves an empty or cut-off file. *)
Inductive WriteFailure : Type :=
| OpenFails
| DumpFails.

(** [core/playlist_manager.py], the attributes of [PlaylistManager]. *)
Record PlaylistManager : Type := {
  current_playlist : list string;
  current_index : Z;
  is_playing : bool;
  is_random : bool;
  timer_interval : Z;
  custom_timer_text : option string;
  recent_wallpapers : list string;
  playlists : gmap string (list string)
}.

(** [core/wallpaper_engine.py], the attributes of [WallpaperEngine];
    [current_process] holds the pid of a retained [Popen] handle. *)
Record WallpaperEngine : Type := {
  current_wallpaper : option string;
  current_process : option Z;
  last_settings : gmap string setting_value
}.

(** What the code reads and writes of [ui/playlist_widget.py]: the
    [UserRole] data of the list items, [_current_wallpaper],
    [_is_playing] and the random radio button. *)
Record PlaylistWidget : Type := {
  item_data : list string;
  shown_wallpaper : option string;
  shown_playing : bool;
  random_checked : bool
}.

(** One entry of [psutil.process_iter(['pid', 'name', 'cmdline', 'exe'])];
    psutil reports [None] for an attribute it may not read.  The probes
    ask for the first three attributes only. *)
Record ProcInfo : Type := {
  pid : Z;
  name : option string;
  cmdline : option (list string);
  exe : option string
}.

(** The outcome of [subprocess.run(['swww', 'query'], timeout=5)]. *)
Inductive SwwwRun : Type :=
| Completed (returncode : Z) (stdout : string)
| TimeoutExpired
| FileNotFound
| OtherError.

(** The calls of [logger.error] (and [logging.error]) of the modelled
    code. *)
Inductive LogRecord : Type :=
| LogSettingsNotJson            (* "Ayar dosyasi JSON formatinda degil"  *)
| LogSettingsLoadFailed         (* "Ayarlar yuklenirken hata"            *)
| LogSettingsSaveFailed         (* "Ayarlar kaydedilirken hata"          *)
| LogStateRestoreFailed         (* "State restore hatasi"                *)
| LogStateSaveFailed            (* "State kaydetme hatasi"               *)
| LogDetectionFailed            (* "Wallpaper detection hatasi"          *)
| LogFlowLoadFailed             (* "Failed to load playlist settings"    *)
| LogFlowSaveFailed.            (* "Failed to save playlist settings"    *)

(** The toast [_restore_app_state] ends with. *)
Inductive Toast : Type :=
| ToastPlaylistContinues        (* "Playlist devam ediyor"               *)
| ToastManualPlaylistStopped    (* "Manuel wallpaper (playlist durduruldu)" *)
| ToastManualFromPlaylist       (* "Manuel (playlist'ten)"               *)
| ToastManualGallery            (* "Manuel (galeri)"                     *)
| ToastNoActiveWallpaper.       (* "aktif wallpaper yok"                 *)

(** The application state together with the part of the system it reads
    and writes.  [processes] is in the order [psutil.process_iter] yields
    them; [playlist_timer] is [Some ms] while the QTimer is active;
    [settings_writable] says that a write of the settings file succeeds,
    and [write_failure] how it fails otherwise. *)
Record World : Type := {
  playlist_manager : PlaylistManager;
  wallpaper_engine : WallpaperEngine;
  playlist_widget : PlaylistWidget;
  playlist_timer : option Z;
  last_toast : option Toast;
  settings_file : file;
  settings_writable : bool;
  write_failure : WriteFailure;
  error_log : list LogRecord;
  processes : list ProcInfo;
  swww_query : SwwwRun
}.

Definition with_manager (w : World) (m : PlaylistManager) : World :=
  {| playlist_manager := m;
     wallpaper_engine := wallpaper_engine w;
     playlist_widget := playlist_widget w;
     playlist_timer := playlist_timer w;
     last_toast := last_toast w;
     settings_file := settings_file w;
     settings_writable := settings_writable w;
     write_failure := write_failure w;
     error_log := error_log w;
     processes := processes w;
     swww_query := swww_query w |}.

Definition with_engine (w : World) (e : WallpaperEngine) : World :=
  {| playlist_manager := playlist_manager w;
     wallpaper_engine := e;
     playlist_widget := playlist_widget w;
     playlist_timer := playlist_timer w;
     last_toast := last_toast w;
     settings_file := settings_file w;
     settings_writable := settings_writable w;
     write_failure := write_failure w;
     error_log := error_log w;
     processes := processes w;
     swww_query := swww_query w |}.

Definition with_widget (w : World) (g : PlaylistWidget) : World :=
  {| playlist_manager := playlist_manager w;
     wallpaper_engine := wallpaper_engine w;
     playlist_widget := g;
     playlist_timer := playlist_timer w;
     last_toast := last_toast w;
     settings_file := settings_file w;
     settings_writable := settings_writable w;
     write_failure := write_failure w;
     error_log := error_log w;
     processes := processes w;
     swww_query := swww_query w |}.

Definition with_timer (w : World) (t : option Z) : World :=
  {| playlist_manager := playlist_manager w;
     wallpaper_engine := wallpaper_engine w;
     playlist_widget := playlist_widget w;
     playlist_timer := t;
     last_toast := last_toast w;
     settings_file := settings_file w;
     settings_writable := settings_writable w;
     write_failure := write_failure w;
     error_log := error_log w;
     processes := processes w;
     swww_query := swww_query w |}.

Definition with_toast (w : World) (t : Toast) : World :=
  {| playlist_manager := playlist_manager w;
     wallpaper_engine := wallpaper_engine w;
     playlist_widget := playlist_widget w;
     playlist_timer := playlist_timer w;
     last_toast := Some t;
     settings_file := settings_file w;
     settings_writable := settings_writable w;
     write_failure := write_failure w;
     error_log := error_log w;
     processes := processes w;
     swww_query := swww_query w |}.

Definition with_file (w : World) (f : file) : World :=
  {| playlist_manager := playlist_manager w;
     wallpaper_engine := wallpaper_engine w;
     playlist_widget := playlist_widget w;
     playlist_timer := playlist_timer w;
     last_toast := last_toast w;
     settings_file := f;
     settings_writable := settings_writable w;
     write_failure := write_failure w;
     error_log := error_log w;
     processes := processes w;
     swww_query := swww_query w |}.

Definition log_error (w : World) (r : LogRecord) : World :=
  {| playlist_manager := playlist_manager w;
     wallpaper_engine := wallpaper_engine w;
     playlist_widget := playlist_widget w;
     playlist_timer := playlist_timer w;
     last_toast := last_toast w;
     settings_file := settings_file w;
     settings_writable := settings_writable w;
     write_failure := write_failure w;
     error_log := (error_log w ++ [r])%list;
     processes := processes w;
     swww_query := swww_query w |}.

(** ** The settings file *)

(** [SETTINGS_FILE.exists()]: pathlib answers [False] for a path that
    does not exist and lets the [PermissionError] of a directory that may
    not be searched through. *)
Definition path_exists (f : file) : exc bool :=
  match f with
  | Missing => Ret false
  | Inaccessible => Raise OSError
  | _ => Ret true
  end.

(** [open(SETTINGS_FILE, 'r')] followed by [json.load].  In the [try]
    blocks that test [SETTINGS_FILE.exists()] first, the test is what
    raises for an inaccessible path. *)
Definition read_json (f : file) : exc json_doc :=
  match f with
  | Missing => Raise FileNotFoundError
  | Inaccessible => Raise OSError
  | Unreadable => Raise OSError
  | NotJson => Raise JSONDecodeError
  | Json d => Ret d
  end.

(** The receiver of [data.get(...)] ([AttributeError]) and of
    [data[key] = value] ([TypeError]): anything but a dict raises. *)
Definition as_dict (e : exception) (d : json_doc) : exc settings_obj :=
  match d with
  | JObject o => Ret o
  | JOther => Raise e
  end.

(** The empty JSON object, the [data = {}] of [_save_state]. *)
Definition empty_obj : settings_obj :=
  {| k_playlists := None; k_recent := None; k_timer_interval := None;
     k_custom_timer_text := None; k_is_random := None;
     k_current_playlist := None; k_current_index := None;
     k_is_playing := None; k_wallpaper_state := None;
     k_current_theme := None |}.

(** [open(SETTINGS_FILE, 'w')] followed by [json.dump], with the state it
    leaves: the object in the file, or, when the write raises, the file
    untouched (the open failed) or truncated (the open succeeded). *)
Definition write_json (w : World) (o : settings_obj) : exc unit * World :=
  if settings_writable w then (Ret tt, with_file w (Json (JObject o)))
  else (Raise OSError,
        match write_failure w with
        | OpenFails => w
        | DumpFails => with_file w NotJson
        end).

(** [l[-n:]] for a positive [n]. *)
Definition last_n {A} (n : nat) (l : list A) : list A :=
  drop (length l - n) l.

(** ** [core/playlist_manager.py] *)

Definition DEFAULT_TIMER_INTERVAL : Z := 60.

(** The attribute values [__init__] assigns before it loads the file. *)
Definition fresh_manager : PlaylistManager :=
  {| current_playlist := [];
     current_index := 0;
     is_playing := false;
     is_random := false;
     timer_interval := DEFAULT_TIMER_INTERVAL;
     custom_timer_text := None;
     recent_wallpapers := [];
     playlists := ∅ |}.

Definition set_current_playlist (m : PlaylistManager) (l : list string) : PlaylistManager :=
  {| current_playlist := l;
     current_index := current_index m;
     is_playing := is_playing m;
     is_random := is_random m;
     timer_interval := timer_interval m;
     custom_timer_text := custom_timer_text m;
     recent_wallpapers := recent_wallpapers m;
     playlists := playlists m |}.

Definition set_current_index (m : PlaylistManager) (i : Z) : PlaylistManager :=
  {| current_playlist := current_playlist m;
     current_index := i;
     is_playing := is_playing m;
     is_random := is_random m;
     timer_interval := timer_interval m;
     custom_timer_text := custom_timer_text m;
     recent_wallpapers := recent_wallpapers m;
     playlists := playlists m |}.

Definition set_is_playing (m : PlaylistManager) (b : bool) : PlaylistManager :=
  {| current_playlist := current_playlist m;
     current_index := current_index m;
     is_playing := b;
     is_random := is_random m;
     timer_interval := timer_interval m;
     custom_timer_text := custom_timer_text m;
     recent_wallpapers := recent_wallpapers m;
     playlists := playlists m |}.

(** The assignments of [load_settings], from the parsed object. *)
Definition manager_of_settings (data : settings_obj) : PlaylistManager :=
  {| playlists := default ∅ (k_playlists data);
     recent_wallpapers := default [] (k_recent data);
     timer_interval := default DEFAULT_TIMER_INTERVAL (k_timer_interval data);
     custom_timer_text := default None (k_custom_timer_text data);
     is_random := default false (k_is_random data);
     current_playlist := default [] (k_current_playlist data);
     current_index := default 0 (k_current_index data);
     is_playing := default false (k_is_playing data) |}.

(** [PlaylistManager.load_settings]: what it returns or raises, and the
    state it leaves.  The test [SETTINGS_FILE.exists()] stands before the
    [try], so what it raises reaches the caller. *)
Definition load_settings (w : World) : exc bool * World :=
  match path_exists (settings_file w) with
  | Raise e => (Raise e, w)
  | Ret false => (Ret false, w)
  | Ret true =>
      handle (doc ← read_json (settings_file w);
              data ← as_dict AttributeError doc;
              mret (Ret true, with_manager w (manager_of_settings data)))
             (fun e => match e with
                       | JSONDecodeError => (Ret false, log_error w LogSettingsNotJson)
                       | _ => (Ret false, log_error w LogSettingsLoadFailed)
                       end)
  end.

(** [PlaylistManager.__init__]: [Ret tt] when the constructor returns,
    with the state it leaves. *)
Definition PlaylistManager__init__ (w : World) : exc unit * World :=
  let '(loaded, w') := load_settings (with_manager w fresh_manager) in
  (match loaded with
   | Ret _ => Ret tt
   | Raise e => Raise e
   end, w').

(** The [data] dictionary [save_settings] builds. *)
Definition settings_of_manager (m : PlaylistManager) : settings_obj :=
  {| k_playlists := Some (playlists m);
     k_recent := Some (last_n 20 (recent_wallpapers m));
     k_timer_interval := Some (timer_interval m);
     k_custom_timer_text := Some (custom_timer_text m);
     k_is_random := Some (is_random m);
     k_current_playlist := Some (current_playlist m);
     k_current_index := Some (current_index m);
     k_is_playing := Some (is_playing m);
     k_wallpaper_state := None;
     k_current_theme := None |}.

(** [PlaylistManager.save_settings]. *)
Definition save_settings (w : World) : bool * World :=
  match write_json w (settings_of_manager (playlist_manager w)) with
  | (Ret _, w') => (true, w')
  | (Raise _, w') => (false, log_error w' LogSettingsSaveFailed)
  end.

(** [PlaylistManager.add_to_current_playlist]. *)
Definition add_to_current_playlist (wallpaper_id : string) (w : World) : bool * World :=
  let m := playlist_manager w in
  if negb (Text.truthy wallpaper_id) then (false, w)
  else if negb (bool_decide (wallpaper_id ∈ current_playlist m))
  then (true, with_manager w (set_current_playlist m (current_playlist m ++ [wallpaper_id])))
  else (false, w).

(** [PlaylistManager.remove_from_current_playlist]. *)
Definition remove_from_current_playlist (index : Z) (w : World) : bool * World :=
  let m := playlist_manager w in
  if (0 <=? index) && (index <? Z.of_nat (length (current_playlist m))) then
    let popped := delete (Z.to_nat index) (current_playlist m) in
    let m1 := set_current_playlist m popped in
    let m2 :=
      if (index <=? current_index m1) && (0 <? current_index m1)
      then set_current_index m1 (current_index m1 - 1)
      else if (Z.of_nat (length popped) <=? current_index m1)
              && negb (bool_decide (popped = []))
      then set_current_index m1 0
      else m1 in
    (true, with_manager w m2)
  else (false, w).

(** [PlaylistManager.clear_current_playlist]. *)
Definition clear_current_playlist (w : World) : World :=
  with_manager w
    (set_is_playing (set_current_index (set_current_playlist (playlist_manager w) []) 0) false).

(** [PlaylistManager.clear_current_wallpaper]. *)
Definition clear_current_wallpaper (w : World) : World :=
  with_manager w (set_is_playing (set_current_index (playlist_manager w) 0) false).

(** [PlaylistManager.get_current_wallpaper]. *)
Definition get_current_wallpaper (m : PlaylistManager) : option string :=
  if negb (bool_decide (current_playlist m = []))
     && (0 <=? current_index m)
     && (current_index m <? Z.of_nat (length (current_playlist m)))
  then current_playlist m !! Z.to_nat (current_index m)
  else None.

(** [random.randint(a, b)], the outcome chosen by [draw]. *)
Definition randint (a b : Z) (draw : nat) : Z :=
  a + Z.of_nat draw mod (b - a + 1).

(** [PlaylistManager.get_next_wallpaper]; [draw] is the outcome of the
    random source. *)
Definition get_next_wallpaper (random_mode : bool) (draw : nat) (w : World)
    : option string * World :=
  let m := playlist_manager w in
  if bool_decide (current_playlist m = []) then (None, w)
  else
    let n := Z.of_nat (length (current_playlist m)) in
    let i := if random_mode then randint 0 (n - 1) draw
             else (current_index m + 1) mod n in
    let w' := snd (save_settings (with_manager w (set_current_index m i))) in
    (get_current_wallpaper (playlist_manager w'), w').

(** [PlaylistManager.get_previous_wallpaper]. *)
Definition get_previous_wallpaper (w : World) : option string * World :=
  let m := playlist_manager w in
  if bool_decide (current_playlist m = []) then (None, w)
  else
    let n := Z.of_nat (length (current_playlist m)) in
    let w' := snd (save_settings (with_manager w (set_current_index m ((current_index m - 1) mod n)))) in
    (get_current_wallpaper (playlist_manager w'), w').

(** ** [core/wallpaper_engine.py] *)

Definition set_current_wallpaper_ref (e : WallpaperEngine) (c : option string) : WallpaperEngine :=
  {| current_wallpaper := c;
     current_process := current_process e;
     last_settings := last_settings e |}.

(** [WallpaperEngine.stop_current_wallpaper]. *)
Definition stop_current_wallpaper (w : World) : bool * World :=
  let e := wallpaper_engine w in
  if Text.truthy_opt (current_wallpaper e)
  then (true, with_engine w (set_current_wallpaper_ref e None))
  else (true, w).

(** [WallpaperEngine.is_running]. *)
Definition is_running (e : WallpaperEngine) : bool :=
  bool_decide (current_wallpaper e ≠ None).

(** [WallpaperEngine._load_state]. *)
Definition _load_state (w : World) : World :=
  catch
    (match settings_file w with
     | Missing => mret w
     | present =>
         doc ← read_json present;
         data ← as_dict AttributeError doc;
         let state := default {| ws_current_wallpaper := None; ws_last_settings := None |}
                              (k_wallpaper_state data) in
         mret (with_engine w
                 {| current_wallpaper := ws_current_wallpaper state;
                    current_process := current_process (wallpaper_engine w);
                    last_settings := default ∅ (ws_last_settings state) |})
     end)
    (log_error w LogStateRestoreFailed).

(** [data['wallpaper_state'] = ...] on the object read from the file. *)
Definition put_wallpaper_state (data : settings_obj) (s : wallpaper_state) : settings_obj :=
  {| k_playlists := k_playlists data;
     k_recent := k_recent data;
     k_timer_interval := k_timer_interval data;
     k_custom_timer_text := k_custom_timer_text data;
     k_is_random := k_is_random data;
     k_current_playlist := k_current_playlist data;
     k_current_index := k_current_index data;
     k_is_playing := k_is_playing data;
     k_wallpaper_state := Some s;
     k_current_theme := k_current_theme data |}.

(** [WallpaperEngine._save_state]: reads the file, sets one key, writes
    the object back. *)
Definition _save_state (w : World) : World :=
  match (match settings_file w with
         | Missing => mret empty_obj
         | present => doc ← read_json present; as_dict TypeError doc
         end) with
  | Raise _ => log_error w LogStateSaveFailed
  | Ret data =>
      match write_json w
              (put_wallpaper_state data
                 {| ws_current_wallpaper := current_wallpaper (wallpaper_engine w);
                    ws_last_settings := Some (last_settings (wallpaper_engine w)) |}) with
      | (Ret _, w') => w'
      | (Raise _, w') => log_error w' LogStateSaveFailed
      end
  end.

(** ** [pathlib.PurePosixPath], as far as the probes use it *)

Module PosixPath.

(** The path components: empty ones and ["."] are dropped by the
    parser, [".."] is kept. *)
Definition components (p : string) : list string :=
  List.filter (fun c => negb (String.eqb c "") && negb (String.eqb c "."))
              (Text.split "/" p).

(** The root: ["//"] for exactly two leading slashes, ["/"] for one or
    for three and more. *)
Definition root (p : string) : string :=
  if String.prefix "///" p then "/"
  else if String.prefix "//" p then "//"
  else if String.prefix "/" p then "/"
  else "".

(** [path.parts]. *)
Definition parts (p : string) : list string :=
  (if Text.truthy (root p) then [root p] else []) ++ components p.

(** [str(path)]. *)
Definition str (p : string) : string :=
  match components p with
  | [] => if Text.truthy (root p) then root p else "."
  | cs => root p ++ Text.join "/" cs
  end.

(** [path.name]. *)
Definition name (p : string) : string :=
  default "" (last (components p)).

(** [path.parent.name]. *)
Definition parent_name (p : string) : string :=
  default "" (last (removelast (components p))).

End PosixPath.

(** The element after the first [key] that has a successor:
    [for i, part in enumerate(parts): if part == key and i + 1 < len(parts)]. *)
Fixpoint next_after (key : string) (parts : list string) : option string :=
  match parts with
  | part :: (following :: _) as rest =>
      if String.eqb part key then Some following else next_after key rest
  | _ => None
  end.

(** A [for] loop that returns the first value its body yields. *)
Fixpoint first_some {A B} (body : A -> option B) (l : list A) : option B :=
  match l with
  | [] => None
  | x :: rest =>
      match body x with
      | Some b => Some b
      | None => first_some body rest
      end
  end.

(** [l.index(x)], for an [x] that occurs in [l]. *)
Fixpoint index_of (x : string) (l : list string) : nat :=
  match l with
  | [] => O
  | y :: rest => if String.eqb y x then O else S (index_of x rest)
  end.

(** [WallpaperEngine._extract_folder_id_from_path]. *)
Definition _extract_folder_id_from_path (wallpaper_path : string) : option string :=
  let steam :=
    if Text.contains "431960" (PosixPath.str wallpaper_path)
    then next_after "431960" (PosixPath.parts wallpaper_path)
    else None in
  match steam with
  | Some folder_id => Some folder_id
  | None =>
      let folder_name := PosixPath.name wallpaper_path in
      if Text.truthy folder_name
         && negb (String.eqb folder_name ".")
         && negb (String.eqb folder_name "..")
      then Some folder_name
      else None
  end.

(** [proc_name.lower()] ([AttributeError]) and ['x' in proc_name]
    ([TypeError]) raise on [None]. *)
Definition proc_name_of (e : exception) (p : ProcInfo) : exc string :=
  match name p with
  | Some n => Ret n
  | None => Raise e
  end.

(** Iterating over a [None] command line raises. *)
Definition cmdline_of (p : ProcInfo) : exc (list string) :=
  match cmdline p with
  | Some args => Ret args
  | None => Raise TypeError
  end.

(** The body of the loop of [_detect_running_wallpaper]: [Some arg] is the
    [break] with [detected_wallpaper = arg]. *)
Definition engine_scan (p : ProcInfo) : exc (option string) :=
  proc_name ← proc_name_of AttributeError p;
  if Text.contains "wallpaperengine" (Text.lower proc_name)
     || Text.contains "wallpaper-engine" (Text.lower proc_name)
  then
    match cmdline p with
    | Some args =>
        if bool_decide ("--bg" ∈ args)
        then mret (args !! S (index_of "--bg" args))
        else mret None
    | None => mret None
    end
  else mret None.

(** [WallpaperEngine._detect_running_wallpaper]. *)
Definition _detect_running_wallpaper (w : World) : World :=
  catch
    (detected_wallpaper ← first_hit engine_scan (processes w);
     match detected_wallpaper with
     | Some path =>
         if Text.truthy path then
           match _extract_folder_id_from_path path with
           | Some detected_id =>
               if Text.truthy detected_id
               then mret (_save_state
                            (with_engine w
                               (set_current_wallpaper_ref (wallpaper_engine w) (Some detected_id))))
               else mret w
           | None => mret w
           end
         else mret w
     | None => mret w
     end)
    (log_error w LogDetectionFailed).

(** [WallpaperEngine.__init__]. *)
Definition WallpaperEngine__init__ (w : World) : World :=
  _detect_running_wallpaper
    (_load_state
       (with_engine w
          {| current_wallpaper := None; current_process := None; last_settings := ∅ |})).

(** ** The process probes of [ui/main_window.py] *)

(** [(?:--dir\s+|/)(\d{8,12})(?:/|\s|$)] *)
Definition workshop_pattern : Re.regex :=
  Re.Cat (Re.Alt (Re.Cat (Re.Str "--dir") (Re.Plus Re.space)) (Re.Str "/"))
    (Re.Cat (Re.Grp (Re.between 8 4 Re.digit))
       (Re.Alt (Re.Str "/") (Re.Alt Re.space Re.Eos))).

(** [(?:--dir\s+|/)(custom_\d+|gif_\d+)(?:/|\s|$)] *)
Definition custom_pattern : Re.regex :=
  Re.Cat (Re.Alt (Re.Cat (Re.Str "--dir") (Re.Plus Re.space)) (Re.Str "/"))
    (Re.Cat (Re.Grp (Re.Alt (Re.Cat (Re.Str "custom_") (Re.Plus Re.digit))
                            (Re.Cat (Re.Str "gif_") (Re.Plus Re.digit))))
       (Re.Alt (Re.Str "/") (Re.Alt Re.space Re.Eos))).

(** [/steamapps/workshop/content/431960/(\w+)/] *)
Definition content_pattern : Re.regex :=
  Re.Cat (Re.Str "/steamapps/workshop/content/431960/")
    (Re.Cat (Re.Grp (Re.Plus Re.word)) (Re.Str "/")).

(** [' '.join(cmdline) if cmdline else '']. *)
Definition cmdline_str (p : ProcInfo) : string :=
  match cmdline p with
  | Some (arg :: args) => Text.join " " (arg :: args)
  | _ => ""
  end.

(** ['linux-wallpaperengine' in proc_name or
     any('linux-wallpaperengine' in str(cmd) for cmd in cmdline)]. *)
Definition is_renderer_process (p : ProcInfo) : exc bool :=
  proc_name ← proc_name_of TypeError p;
  if Text.contains "linux-wallpaperengine" proc_name then mret true
  else args ← cmdline_of p;
       mret (existsb (Text.contains "linux-wallpaperengine") args).

(** ['mpvpaper' in proc_name or any('mpvpaper' in str(cmd) for cmd in cmdline)
     or (proc_name == 'mpv' and
         any('wallpaper' in str(cmd).lower() for cmd in cmdline))]. *)
Definition is_video_process (p : ProcInfo) : exc bool :=
  proc_name ← proc_name_of TypeError p;
  if Text.contains "mpvpaper" proc_name then mret true
  else args ← cmdline_of p;
       if existsb (Text.contains "mpvpaper") args then mret true
       else mret (String.eqb proc_name "mpv"
                  && existsb (fun cmd => Text.contains "wallpaper" (Text.lower cmd)) args).

(** The body of the loop of [_detect_from_linux_wallpaperengine_process]. *)
Definition renderer_scan (p : ProcInfo) : exc (option string) :=
  matched ← is_renderer_process p;
  if (matched : bool) then
    match Re.search_group workshop_pattern (cmdline_str p) with
    | Some wallpaper_id => Ret (Some wallpaper_id)
    | None => mret (Re.search_group custom_pattern (cmdline_str p))
    end
  else mret None.

(** [_detect_from_linux_wallpaperengine_process]. *)
Definition _detect_from_linux_wallpaperengine_process (w : World) : option string :=
  catch (first_hit renderer_scan (processes w)) None.

(** [potential_id and (potential_id.isdigit() or
     potential_id.startswith('custom_'))]. *)
Definition plausible_id (potential_id : string) : bool :=
  Text.truthy potential_id
  && (Text.isdigit potential_id || Text.startswith "custom_" potential_id).

(** The inner loop over the arguments of a video process. *)
Definition video_arg_id (arg : string) : option string :=
  if Text.contains "/431960/" arg && plausible_id (PosixPath.parent_name arg)
  then Some (PosixPath.parent_name arg)
  else None.

(** The body of the loop of [_detect_from_video_wallpaper_process]. *)
Definition video_scan (p : ProcInfo) : exc (option string) :=
  matched ← is_video_process p;
  if (matched : bool) then
    match Re.search_group content_pattern (cmdline_str p) with
    | Some wallpaper_id => Ret (Some wallpaper_id)
    | None => args ← cmdline_of p; mret (first_some video_arg_id args)
    end
  else mret None.

(** [_detect_from_video_wallpaper_process]. *)
Definition _detect_from_video_wallpaper_process (w : World) : option string :=
  catch (first_hit video_scan (processes w)) None.

(** The inner loop of [_detect_from_swww] over [line.split('/')]. *)
Fixpoint id_after_content_dir (path_parts : list string) : option string :=
  match path_parts with
  | part :: (potential_id :: _) as rest =>
      if String.eqb part "431960" && plausible_id potential_id
      then Some potential_id
      else id_after_content_dir rest
  | _ => None
  end.

(** The body of the loop of [_detect_from_swww] over the output lines. *)
Definition swww_line_id (line : string) : option string :=
  if Text.contains ":" line && Text.contains "/431960/" line then
    match Re.search_group content_pattern line with
    | Some wallpaper_id => Some wallpaper_id
    | None => id_after_content_dir (Text.split "/" line)
    end
  else None.

(** [_detect_from_swww]. *)
Definition _detect_from_swww (w : World) : option string :=
  match swww_query w with
  | Completed returncode stdout =>
      if returncode =? 0
      then first_some swww_line_id (Text.split "010" (Text.strip stdout))
      else None
  | TimeoutExpired => None
  | FileNotFound => None
  | OtherError => None
  end.

(** [_is_swww_wallpaper_active]. *)
Definition _is_swww_wallpaper_active (wallpaper_id : string) (w : World) : bool :=
  bool_decide (_detect_from_swww w = Some wallpaper_id).

(** A [for] loop that returns [True] as soon as its test holds. *)
Fixpoint any_hit {A} (test : A -> exc bool) (l : list A) : exc bool :=
  match l with
  | [] => Ret false
  | x :: rest => hit ← test x; if (hit : bool) then mret true else any_hit test rest
  end.

(** The test of the first loop of [_verify_wallpaper_process_running]. *)
Definition renderer_runs (wallpaper_id : string) (p : ProcInfo) : exc bool :=
  matched ← is_renderer_process p;
  mret (matched && Text.contains wallpaper_id (cmdline_str p)).

(** The test of its second loop. *)
Definition video_runs (wallpaper_id : string) (p : ProcInfo) : exc bool :=
  matched ← is_video_process p;
  mret (matched && Text.contains wallpaper_id (cmdline_str p)).

(** [_verify_wallpaper_process_running]. *)
Definition _verify_wallpaper_process_running (wallpaper_id : string) (w : World) : bool :=
  catch
    (renderer ← any_hit (renderer_runs wallpaper_id) (processes w);
     if (renderer : bool) then mret true
     else
       video ← any_hit (video_runs wallpaper_id) (processes w);
       if (video : bool) then mret true
       else mret (_is_swww_wallpaper_active wallpaper_id w))
    false.

(** ** The performance monitor of [ui/main_window.py] *)

(** The test of [PerformanceMonitor._find_wallpaper_process] for a
    renderer process. *)
Definition monitor_matches (p : ProcInfo) : exc bool :=
  proc_name ← proc_name_of AttributeError p;
  mret (String.eqb proc_name "linux-wallpaperengine"
        || String.eqb proc_name "wallpaperengine"
        || String.eqb proc_name "wallpaper-engine"
        || existsb (fun cmd => Text.contains "wallpaperengine" (Text.lower cmd))
                   (default [] (cmdline p))
        || existsb (fun cmd => Text.contains "wallpaper-engine" (Text.lower cmd))
                   (default [] (cmdline p))
        || match exe p with
           | Some path => Text.truthy path && Text.contains "wallpaperengine" (Text.lower path)
           | None => false
           end).

(** The loop that collects [found_processes]. *)
Fixpoint monitor_found (ps : list ProcInfo) : exc (list Z) :=
  match ps with
  | [] => Ret []
  | p :: rest =>
      hit ← monitor_matches p;
      found ← monitor_found rest;
      mret (if (hit : bool) then pid p :: found else found)
  end.

(** [max(found_processes, key=lambda x: x[0])[0]]. *)
Definition latest_pid (found : list Z) : option Z :=
  match found with
  | [] => None
  | first :: rest => Some (foldl Z.max first rest)
  end.

(** [PerformanceMonitor._find_wallpaper_process]: the PID of the process
    it keeps in [wallpaper_process], the one to measure. *)
Definition _find_wallpaper_process (ps : list ProcInfo) : option Z :=
  catch (found ← monitor_found ps; mret (latest_pid found)) None.

(** ** [ui/playlist_widget.py] *)

(** [PlaylistWidget.get_playlist_items]. *)
Definition get_playlist_items (g : PlaylistWidget) : list string :=
  List.filter Text.truthy (item_data g).

(** [PlaylistWidget.add_wallpaper_to_playlist]. *)
Definition add_wallpaper_to_playlist (wallpaper_id : string) (g : PlaylistWidget)
    : bool * PlaylistWidget :=
  if negb (Text.truthy wallpaper_id) then (false, g)
  else if bool_decide (wallpaper_id ∈ get_playlist_items g) then (false, g)
  else (true,
        {| item_data := item_data g ++ [wallpaper_id];
           shown_wallpaper := shown_wallpaper g;
           shown_playing := shown_playing g;
           random_checked := random_checked g |}).

(** [PlaylistWidget.set_current_wallpaper]. *)
Definition set_current_wallpaper (wallpaper_id : option string) (g : PlaylistWidget)
    : PlaylistWidget :=
  {| item_data := item_data g;
     shown_wallpaper := wallpaper_id;
     shown_playing := shown_playing g;
     random_checked := random_checked g |}.

(** [PlaylistWidget.set_playing_state]. *)
Definition set_playing_state (playing : bool) (g : PlaylistWidget) : PlaylistWidget :=
  {| item_data := item_data g;
     shown_wallpaper := shown_wallpaper g;
     shown_playing := playing;
     random_checked := random_checked g |}.

(** [PlaylistWidget.set_random_mode]. *)
Definition set_random_mode (random : bool) (g : PlaylistWidget) : PlaylistWidget :=
  {| item_data := item_data g;
     shown_wallpaper := shown_wallpaper g;
     shown_playing := shown_playing g;
     random_checked := random |}.

(** ** Startup reconciliation, [ui/main_window.py] *)

(** [MainWindow._load_current_playlist]. *)
Definition _load_current_playlist (w : World) : World :=
  match playlists (playlist_manager w) !! "current" with
  | Some saved_playlist =>
      if negb (bool_decide (saved_playlist = [])) then
        let g := foldl (fun g wallpaper_id => snd (add_wallpaper_to_playlist wallpaper_id g))
                       (playlist_widget w) saved_playlist in
        with_manager (with_widget w g)
          (set_current_playlist (playlist_manager w) saved_playlist)
      else w
  | None => w
  end.

(** Step 1 of [_detect_active_wallpaper]: the identifier cached by the
    engine counts only if a process backs it; otherwise the cache is
    cleared. *)
Definition verified_engine_wallpaper (w : World) : option string * World :=
  match current_wallpaper (wallpaper_engine w) with
  | Some engine_wallpaper =>
      if Text.truthy engine_wallpaper then
        if _verify_wallpaper_process_running engine_wallpaper w
        then (Some engine_wallpaper, w)
        else (None, with_engine w (set_current_wallpaper_ref (wallpaper_engine w) None))
      else (None, w)
  | None => (None, w)
  end.

(** Step 5 of [_detect_active_wallpaper], the last resort: the current
    entry of the playlist, only with a process; otherwise the manager's
    cached state is cleared and saved. *)
Definition verified_playlist_wallpaper (w : World) : option string * World :=
  match get_current_wallpaper (playlist_manager w) with
  | Some playlist_current =>
      if Text.truthy playlist_current then
        if _verify_wallpaper_process_running playlist_current w
        then (Some playlist_current, w)
        else (None, snd (save_settings (clear_current_wallpaper w)))
      else (None, w)
  | None => (None, w)
  end.

(** [MainWindow._detect_active_wallpaper]. *)
Definition _detect_active_wallpaper (w : World) : option string * World :=
  match verified_engine_wallpaper w with
  | (Some engine_wallpaper, w1) => (Some engine_wallpaper, w1)
  | (None, w1) =>
      (* 2. the renderer processes *)
      if Text.truthy_opt (_detect_from_linux_wallpaperengine_process w1)
      then (_detect_from_linux_wallpaperengine_process w1, w1)
      (* 3. the video wallpaper processes *)
      else if Text.truthy_opt (_detect_from_video_wallpaper_process w1)
      then (_detect_from_video_wallpaper_process w1, w1)
      (* 4. swww *)
      else if Text.truthy_opt (_detect_from_swww w1)
      then (_detect_from_swww w1, w1)
      (* 5. the playlist manager *)
      else verified_playlist_wallpaper w1
  end.

(** The first part of [_restore_app_state]: "1. Playlist state'ini
    restore et". *)
Definition restore_playlist_state (w : World) : World :=
  let m := playlist_manager w in
  if negb (bool_decide (current_playlist m = [])) then
    let w1 :=
      if (Z.of_nat (length (current_playlist m)) <=? current_index m)
         || (current_index m <? 0)
      then snd (save_settings (with_manager w (set_current_index m 0)))
      else w in
    let w2 := with_widget w1
                (set_random_mode (is_random (playlist_manager w1)) (playlist_widget w1)) in
    if is_playing (playlist_manager w2) then
      let w3 := with_widget w2 (set_playing_state true (playlist_widget w2)) in
      let w4 := with_timer w3 (Some (timer_interval (playlist_manager w3) * 1000)) in
      match get_current_wallpaper (playlist_manager w4) with
      | Some current_in_playlist =>
          if Text.truthy current_in_playlist
          then with_widget w4 (set_current_wallpaper (Some current_in_playlist) (playlist_widget w4))
          else w4
      | None => w4
      end
    else with_widget w2 (set_playing_state false (playlist_widget w2))
  else w.

(** The second part of [_restore_app_state], for a detected wallpaper:
    the "smart sync" of the playlist with it. *)
Definition sync_with_detected (current : string) (w : World) : World :=
  let playlist_items := get_playlist_items (playlist_widget w) in
  let wallpaper_in_playlist := bool_decide (current ∈ playlist_items) in
  let w' :=
    if is_playing (playlist_manager w) && wallpaper_in_playlist then
      (* the playlist is active and the wallpaper belongs to it *)
      let correct_index := Z.of_nat (index_of current playlist_items) in
      let w1 := snd (save_settings
                       (with_manager w (set_current_index (playlist_manager w) correct_index))) in
      let w2 := with_widget w1 (set_playing_state true (playlist_widget w1)) in
      let w3 := with_timer w2 (Some (timer_interval (playlist_manager w2) * 1000)) in
      with_toast w3 ToastPlaylistContinues
    else if is_playing (playlist_manager w) && negb wallpaper_in_playlist then
      (* conflict: the playlist was active, the wallpaper is outside it *)
      let w1 := with_manager w (set_is_playing (playlist_manager w) false) in
      let w2 := with_widget w1 (set_playing_state false (playlist_widget w1)) in
      let w3 := with_timer w2 None in
      let w4 := snd (save_settings w3) in
      with_toast w4 ToastManualPlaylistStopped
    else
      (* manual mode: the playlist was stopped *)
      let w1 := with_widget w (set_playing_state false (playlist_widget w)) in
      let w2 := with_timer w1 None in
      let w3 := with_manager w2 (set_is_playing (playlist_manager w2) false) in
      let w4 := snd (save_settings w3) in
      with_toast w4 (if wallpaper_in_playlist then ToastManualFromPlaylist
                     else ToastManualGallery) in
  with_widget w' (set_current_wallpaper (Some current) (playlist_widget w')).

(** [MainWindow._restore_app_state]. *)
Definition _restore_app_state (w : World) : World :=
  let w1 := restore_playlist_state w in
  match _detect_active_wallpaper w1 with
  | (Some current, w2) =>
      if Text.truthy current then sync_with_detected current w2
      else with_toast w2 ToastNoActiveWallpaper
  | (None, w2) => with_toast w2 ToastNoActiveWallpaper
  end.

(** ** [core_refactored.py], the playlist flow *)

Module Flow.

(** [Alias.PlaylistState]. *)
Record PlaylistState : Type := {
  current_playlist : list string;
  timer_interval : Z;
  is_random : bool;
  is_playing : bool;
  current_index : Z;
  last_wallpaper : option string;
  shuffle_history : list string
}.

(** [Collect.PlaylistData], the persisted part. *)
Record PlaylistData : Type := {
  saved_playlists : gmap string (list string);
  recent_wallpapers : list string
}.

(** The class attributes together with the file
    [playlist_settings.json]; [writable] says that a write of the file
    succeeds, [failure] how it fails otherwise. *)
Record Store : Type := {
  state : PlaylistState;
  data : PlaylistData;
  settings : file;
  writable : bool;
  failure : WriteFailure;
  flow_log : list LogRecord
}.

Definition with_state (st : Store) (s : PlaylistState) : Store :=
  {| state := s; data := data st; settings := settings st; writable := writable st;
     failure := failure st; flow_log := flow_log st |}.

Definition set_index (s : PlaylistState) (i : Z) : PlaylistState :=
  {| current_playlist := current_playlist s;
     timer_interval := timer_interval s;
     is_random := is_random s;
     is_playing := is_playing s;
     current_index := i;
     last_wallpaper := last_wallpaper s;
     shuffle_history := shuffle_history s |}.

Definition set_playlist (s : PlaylistState) (l : list string) : PlaylistState :=
  {| current_playlist := l;
     timer_interval := timer_interval s;
     is_random := is_random s;
     is_playing := is_playing s;
     current_index := current_index s;
     last_wallpaper := last_wallpaper s;
     shuffle_history := shuffle_history s |}.

Definition set_history (s : PlaylistState) (h : list string) : PlaylistState :=
  {| current_playlist := current_playlist s;
     timer_interval := timer_interval s;
     is_random := is_random s;
     is_playing := is_playing s;
     current_index := current_index s;
     last_wallpaper := last_wallpaper s;
     shuffle_history := h |}.

(** [_Initialize_Default_Settings]. *)
Definition _Initialize_Default_Settings (st : Store) : Store :=
  {| state := {| timer_interval := 30;
                 is_random := false;
                 is_playing := false;
                 current_index := 0;
                 current_playlist := [];
                 last_wallpaper := last_wallpaper (state st);
                 shuffle_history := shuffle_history (state st) |};
     data := {| saved_playlists := ∅; recent_wallpapers := [] |};
     settings := settings st;
     writable := writable st;
     failure := failure st;
     flow_log := flow_log st |}.

(** The assignments of [Load_Settings], from the parsed object. *)
Definition loaded (st : Store) (_data : settings_obj) : Store :=
  {| state := {| timer_interval := default 30 (k_timer_interval _data);
                 is_random := default false (k_is_random _data);
                 is_playing := default false (k_is_playing _data);
                 current_index := default 0 (k_current_index _data);
                 current_playlist := default [] (k_current_playlist _data);
                 last_wallpaper := last_wallpaper (state st);
                 shuffle_history := shuffle_history (state st) |};
     data := {| saved_playlists := default ∅ (k_playlists _data);
                recent_wallpapers := default [] (k_recent _data) |};
     settings := settings st;
     writable := writable st;
     failure := failure st;
     flow_log := flow_log st |}.

Definition flow_error (st : Store) (r : LogRecord) : Store :=
  {| state := state st; data := data st; settings := settings st;
     writable := writable st; failure := failure st;
     flow_log := (flow_log st ++ [r])%list |}.

(** [Flow.PlaylistManager.Load_Settings]. *)
Definition Load_Settings (st : Store) : Store :=
  catch
    (match settings st with
     | Missing => mret (_Initialize_Default_Settings st)
     | present =>
         doc ← read_json present;
         _data ← as_dict AttributeError doc;
         mret (loaded st _data)
     end)
    (_Initialize_Default_Settings (flow_error st LogFlowLoadFailed)).

(** [Flow.PlaylistManager.Initialize_State]. *)
Definition Initialize_State (st : Store) : Store :=
  let s := state st in
  let s1 := if Z.of_nat (length (current_playlist s)) <=? current_index s
            then set_index s 0 else s in
  with_state st
    {| current_playlist := current_playlist s1;
       timer_interval := timer_interval s1;
       is_random := is_random s1;
       is_playing := is_playing s1;
       current_index := current_index s1;
       last_wallpaper := None;
       shuffle_history := [] |}.

(** The [_data] dictionary [_Save_Settings] builds. *)
Definition settings_of (st : Store) : settings_obj :=
  {| k_timer_interval := Some (timer_interval (state st));
     k_is_random := Some (is_random (state st));
     k_is_playing := Some (is_playing (state st));
     k_current_index := Some (current_index (state st));
     k_current_playlist := Some (current_playlist (state st));
     k_playlists := Some (saved_playlists (data st));
     k_recent := Some (recent_wallpapers (data st));
     k_custom_timer_text := None;
     k_wallpaper_state := None;
     k_current_theme := None |}.

(** The file after a write that raised. *)
Definition after_failed_write (st : Store) : Store :=
  {| state := state st; data := data st;
     settings := match failure st with
                 | OpenFails => settings st
                 | DumpFails => NotJson
                 end;
     writable := writable st; failure := failure st; flow_log := flow_log st |}.

(** [Flow.PlaylistManager._Save_Settings]. *)
Definition _Save_Settings (st : Store) : Store :=
  if writable st
  then {| state := state st; data := data st;
          settings := Json (JObject (settings_of st)); writable := writable st;
          failure := failure st; flow_log := flow_log st |}
  else flow_error (after_failed_write st) LogFlowSaveFailed.

(** [Flow.PlaylistManager.Add_To_Current_Playlist]. *)
Definition Add_To_Current_Playlist (_wallpaper_id : string) (st : Store) : bool * Store :=
  if bool_decide (_wallpaper_id ∈ current_playlist (state st)) then (false, st)
  else (true,
        _Save_Settings
          (with_state st
             (set_playlist (state st) (current_playlist (state st) ++ [_wallpaper_id])))).

(** [Flow.PlaylistManager.Remove_From_Current_Playlist]. *)
Definition Remove_From_Current_Playlist (_index : Z) (st : Store)
    : option string * Store :=
  let s := state st in
  if (0 <=? _index) && (_index <? Z.of_nat (length (current_playlist s))) then
    let s1 := set_playlist s (delete (Z.to_nat _index) (current_playlist s)) in
    let s2 := if _index <=? current_index s1
              then set_index s1 (Z.max 0 (current_index s1 - 1)) else s1 in
    (current_playlist s !! Z.to_nat _index, _Save_Settings (with_state st s2))
  else (None, st).

(** [random.choice(seq)], the outcome chosen by [draw]; raises
    [IndexError] on an empty sequence. *)
Definition choice (seq : list string) (draw : nat) : exc string :=
  match seq !! (draw mod length seq)%nat with
  | Some x => Ret x
  | None => Raise IndexError
  end.

(** [Flow.PlaylistManager._Get_Random_Wallpaper]. *)
Definition _Get_Random_Wallpaper (draw : nat) (st : Store) : exc (string * Store) :=
  let s := state st in
  let _playlist := current_playlist s in
  let _available :=
    List.filter (fun w => negb (bool_decide (w ∈ last_n 5 (shuffle_history s)))) _playlist in
  let '(_available, history) :=
    if bool_decide (_available = []) then (_playlist, [])
    else (_available, shuffle_history s) in
  _selected ← choice _available draw;
  let history := (history ++ [_selected])%list in
  let history := if (10 <? length history)%nat then drop 1 history else history in
  mret (_selected, _Save_Settings (with_state st (set_history s history))).

(** [Flow.PlaylistManager._Get_Sequential_Wallpaper]. *)
Definition _Get_Sequential_Wallpaper (st : Store) : exc (string * Store) :=
  let s := state st in
  let _playlist_length := Z.of_nat (length (current_playlist s)) in
  if _playlist_length =? 0 then Raise ZeroDivisionError
  else
    let i := (current_index s + 1) mod _playlist_length in
    match current_playlist s !! Z.to_nat i with
    | Some x => Ret (x, _Save_Settings (with_state st (set_index s i)))
    | None => Raise IndexError
    end.

(** [Flow.PlaylistManager.Get_Next_Wallpaper]. *)
Definition Get_Next_Wallpaper (_is_random : bool) (draw : nat) (st : Store)
    : exc (option string * Store) :=
  if bool_decide (current_playlist (state st) = []) then Ret (None, st)
  else
    '(x, st') ← (if _is_random then _Get_Random_Wallpaper draw st
                 else _Get_Sequential_Wallpaper st);
    mret (Some x, st').

(** Consecutive [Get_Next_Wallpaper(True)] calls, one per draw; the
    result lists the identifiers returned, in order. *)
Fixpoint random_run (draws : list nat) (st : Store) : exc (list string * Store) :=
  match draws with
  | [] => Ret ([], st)
  | draw :: rest =>
      '(x, st1) ← Get_Next_Wallpaper true draw st;
      '(xs, st2) ← random_run rest st1;
      mret ((from_option (fun y => [y]) [] x ++ xs)%list, st2)
  end.

End Flow.

(** ** Operation sequences and the properties stated about them *)

(** The playlist operations of the cursor invariant; an advance carries
    the outcome of its random draw. *)
Inductive playlist_op : Type :=
| OpAdd (wallpaper_id : string)
| OpRemoveAt (index : Z)
| OpAdvance (random_mode : bool) (draw : nat)
| OpRetreat.

Definition apply_op (w : World) (o : playlist_op) : World :=
  match o with
  | OpAdd wallpaper_id => snd (add_to_current_playlist wallpaper_id w)
  | OpRemoveAt index => snd (remove_from_current_playlist index w)
  | OpAdvance random_mode draw => snd (get_next_wallpaper random_mode draw w)
  | OpRetreat => snd (get_previous_wallpaper w)
  end.

Definition run_ops (ops : list playlist_op) (w : World) : World :=
  foldl apply_op w ops.

(** The cursor lies inside a non-empty playlist. *)
Definition cursor_in_range (m : PlaylistManager) : Prop :=
  current_playlist m ≠ [] ->
  0 <= current_index m < Z.of_nat (length (current_playlist m)).

(** An empty playlist is not playing. *)
Definition empty_not_playing (m : PlaylistManager) : Prop :=
  current_playlist m = [] -> is_playing m = false.

Definition cursor_invariant (m : PlaylistManager) : Prop :=
  cursor_in_range m /\ empty_not_playing m.

(** The bound on the cursor that every operation preserves: the cursor
    lies inside a non-empty playlist and rests at 0 in an empty one. *)
Definition cursor_rests (m : PlaylistManager) : Prop :=
  0 <= current_index m < Z.max 1 (Z.of_nat (length (current_playlist m))).

(** Consecutive [get_next_wallpaper(True)] calls of the playlist manager,
    one per draw. *)
Fixpoint manager_random_run (draws : list nat) (w : World) : list (option string) * World :=
  match draws with
  | [] => ([], w)
  | draw :: rest =>
      let '(x, w1) := get_next_wallpaper true draw w in
      let '(xs, w2) := manager_random_run rest w1 in
      (x :: xs, w2)
  end.

(** No pick of the run equals one of the five picks before it;
    [earlier] are the picks made before the run. *)
Definition avoids_recent (earlier picks : list string) : Prop :=
  forall (k : nat) (x : string),
    picks !! k = Some x -> x ∉ last_n 5 (earlier ++ take k picks).

(** The number of distinct identifiers of a playlist. *)
Definition distinct_count (l : list string) : nat := length (remove_dups l).

(** The selection rule in the words of the specification: of the
    processes that match the renderer, the one with the highest PID is
    selected, and the identifier is read from its command line. *)
Definition matches_renderer (p : ProcInfo) : bool :=
  catch (is_renderer_process p) false.

Definition highest_pid (l : list ProcInfo) : option ProcInfo :=
  foldr (fun p best =>
           match best with
           | Some q => if pid q <? pid p then Some p else Some q
           | None => Some p
           end) None l.

Definition renderer_id_of_highest_pid (w : World) : option string :=
  match highest_pid (List.filter matches_renderer (processes w)) with
  | Some p => catch (renderer_scan p) None
  | None => None
  end.

(** The verification rule in the words of the specification: one of the
    three probes extracts exactly the given identifier. *)
Definition some_probe_extracts (wallpaper_id : string) (w : World) : bool :=
  bool_decide (_detect_from_linux_wallpaperengine_process w = Some wallpaper_id)
  || bool_decide (_detect_from_video_wallpaper_process w = Some wallpaper_id)
  || bool_decide (_detect_from_swww w = Some wallpaper_id).

(** The live evidence in priority order: the renderer processes, the
    video wallpaper processes, the compositor. *)
Definition live_evidence (w : World) : option string :=
  if Text.truthy_opt (_detect_from_linux_wallpaperengine_process w)
  then _detect_from_linux_wallpaperengine_process w
  else if Text.truthy_opt (_detect_from_video_wallpaper_process w)
  then _detect_from_video_wallpaper_process w
  else if Text.truthy_opt (_detect_from_swww w)
  then _detect_from_swww w
  else None.

(** A process table in which psutil could read every name and command
    line. *)
Definition fully_reported (ps : list ProcInfo) : Prop :=
  Forall (fun p => name p <> None /\ cmdline p <> None) ps.

(** The process belongs to the video wallpaper family. *)
Definition matches_video (p : ProcInfo) : bool :=
  catch (is_video_process p) false.

(** A settings file that [json.load] cannot turn into an object: it is
    missing, unreadable or not JSON, or holds another JSON value. *)
Definition unusable (f : file) : Prop :=
  f = Missing \/ f = Unreadable \/ f = NotJson \/ f = Json JOther.

(** ** Sample states *)

Definition idle_widget : PlaylistWidget :=
  {| item_data := []; shown_wallpaper := None; shown_playing := false;
     random_checked := false |}.

Definition idle_engine : WallpaperEngine :=
  {| current_wallpaper := None; current_process := None; last_settings := ∅ |}.

(** A session with nothing on disk and nothing running. *)
Definition blank_world : World :=
  {| playlist_manager := fresh_manager;
     wallpaper_engine := idle_engine;
     playlist_widget := idle_widget;
     playlist_timer := None;
     last_toast := None;
     settings_file := Missing;
     settings_writable := true;
     write_failure := OpenFails;
     error_log := [];
     processes := [];
     swww_query := FileNotFound |}.

Definition with_processes (w : World) (ps : list ProcInfo) : World :=
  {| playlist_manager := playlist_manager w;
     wallpaper_engine := wallpaper_engine w;
     playlist_widget := playlist_widget w;
     playlist_timer := playlist_timer w;
     last_toast := last_toast w;
     settings_file := settings_file w;
     settings_writable := settings_writable w;
     write_failure := write_failure w;
     error_log := error_log w;
     processes := ps;
     swww_query := swww_query w |}.


Definition process (p : Z) (n : string) (args : list string) : ProcInfo :=
  {| pid := p; name := Some n; cmdline := Some args; exe := head args |}.

(** A manager holding the given playlist. *)
Definition manager_with (l : list string) (i : Z) (playing : bool) : PlaylistManager :=
  set_is_playing (set_current_index (set_current_playlist fresh_manager l) i) playing.

(** Two renderers, enumerated by ascending PID. *)
Definition two_renderers : World :=
  with_processes blank_world
    [ process 100 "linux-wallpaperengine"
        ["linux-wallpaperengine"; "--bg"; "/steam/workshop/content/431960/11111111"];
      process 200 "linux-wallpaperengine"
        ["linux-wallpaperengine"; "--bg"; "/steam/workshop/content/431960/22222222"] ].

(** A defunct process, of which psutil reports no command line,
    enumerated before a renderer. *)
Definition defunct_then_renderer : World :=
  with_processes blank_world
    [ {| pid := 50; name := Some "sh"; cmdline := None; exe := None |};
      process 100 "linux-wallpaperengine"
        ["linux-wallpaperengine"; "--bg"; "/steam/workshop/content/431960/11111111"] ].

(** One renderer showing wallpaper 1234567890. *)
Definition one_renderer : World :=
  with_processes blank_world
    [ process 4242 "linux-wallpaperengine"
        ["linux-wallpaperengine"; "--bg"; "/steam/workshop/content/431960/1234567890"] ].


(** A cached wallpaper A with no process left. *)
Definition stale_world : World :=
  with_engine
    (with_manager blank_world (manager_with ["A"; "B"] 0 false))
    {| current_wallpaper := Some "A"; current_process := None; last_settings := ∅ |}.

Definition sample_settings : gmap string setting_value :=
  {[ "screen" := VStr "eDP-1"; "volume" := VInt 50; "fps" := VInt 60 ]}.

(** A settings file written by a session that showed wallpaper A. *)
Definition saved_session : World :=
  with_file blank_world
    (Json (JObject
       (put_wallpaper_state (settings_of_manager (manager_with ["A"; "B"] 1 false))
          {| ws_current_wallpaper := Some "A";
             ws_last_settings := Some sample_settings |}))).

Definition flow_store (l : list string) : Flow.Store :=
  {| Flow.state := {| Flow.current_playlist := l; Flow.timer_interval := 30;
                      Flow.is_random := true; Flow.is_playing := true;
                      Flow.current_index := 0; Flow.last_wallpaper := None;
                      Flow.shuffle_history := [] |};
     Flow.data := {| Flow.saved_playlists := ∅; Flow.recent_wallpapers := [] |};
     Flow.settings := Missing;
     Flow.writable := true;
     Flow.failure := OpenFails;
     Flow.flow_log := [] |}.

(** ** The saved playlists, the recent list and the custom timer of
    [core/playlist_manager.py] *)

Definition set_recent_wallpapers (m : PlaylistManager) (l : list string) : PlaylistManager :=
  {| current_playlist := current_playlist m;
     current_index := current_index m;
     is_playing := is_playing m;
     is_random := is_random m;
     timer_interval := timer_interval m;
     custom_timer_text := custom_timer_text m;
     recent_wallpapers := l;
     playlists := playlists m |}.

Definition set_playlists (m : PlaylistManager) (p : gmap string (list string)) : PlaylistManager :=
  {| current_playlist := current_playlist m;
     current_index := current_index m;
     is_playing := is_playing m;
     is_random := is_random m;
     timer_interval := timer_interval m;
     custom_timer_text := custom_timer_text m;
     recent_wallpapers := recent_wallpapers m;
     playlists := p |}.

Definition set_timer (m : PlaylistManager) (interval : Z) (text : option string) : PlaylistManager :=
  {| current_playlist := current_playlist m;
     current_index := current_index m;
     is_playing := is_playing m;
     is_random := is_random m;
     timer_interval := interval;
     custom_timer_text := text;
     recent_wallpapers := recent_wallpapers m;
     playlists := playlists m |}.

Definition set_is_random (m : PlaylistManager) (b : bool) : PlaylistManager :=
  {| current_playlist := current_playlist m;
     current_index := current_index m;
     is_playing := is_playing m;
     is_random := b;
     timer_interval := timer_interval m;
     custom_timer_text := custom_timer_text m;
     recent_wallpapers := recent_wallpapers m;
     playlists := playlists m |}.

(** [l.remove(x)] for an [x] that occurs in [l]: the first occurrence
    goes. *)
Fixpoint remove_first (x : string) (l : list string) : list string :=
  match l with
  | [] => []
  | y :: rest => if String.eqb y x then rest else y :: remove_first x rest
  end.

(** The list [add_to_recent] leaves in [recent_wallpapers]. *)
Definition recent_with (wallpaper_id : string) (recent : list string) : list string :=
  let recent := if bool_decide (wallpaper_id ∈ recent)
                then remove_first wallpaper_id recent else recent in
  let recent := (recent ++ [wallpaper_id])%list in
  if (20 <? length recent)%nat then last_n 20 recent else recent.

(** [PlaylistManager.add_to_recent]. *)
Definition add_to_recent (wallpaper_id : string) (w : World) : World :=
  if negb (Text.truthy wallpaper_id) then w
  else
    let m := playlist_manager w in
    snd (save_settings
           (with_manager w
              (set_recent_wallpapers m (recent_with wallpaper_id (recent_wallpapers m))))).

(** [PlaylistManager.create_playlist]. *)
Definition create_playlist (name : string) (wallpapers : list string) (w : World)
    : bool * World :=
  if negb (Text.truthy name) || bool_decide (wallpapers = []) then (false, w)
  else
    let m := playlist_manager w in
    (true, snd (save_settings
                  (with_manager w (set_playlists m (<[name := wallpapers]> (playlists m)))))).

(** [PlaylistManager.delete_playlist]. *)
Definition delete_playlist (name : string) (w : World) : bool * World :=
  let m := playlist_manager w in
  match playlists m !! name with
  | None => (false, w)
  | Some _ =>
      (true, snd (save_settings (with_manager w (set_playlists m (delete name (playlists m))))))
  end.

(** [PlaylistManager.load_playlist]. *)
Definition load_playlist (name : string) (w : World) : bool * World :=
  let m := playlist_manager w in
  match playlists m !! name with
  | None => (false, w)
  | Some saved =>
      (true, snd (save_settings
                    (with_manager w (set_current_index (set_current_playlist m saved) 0))))
  end.

(** [PlaylistManager.set_custom_timer]. *)
Definition set_custom_timer (interval : Z) (display_text : string) (w : World) : World :=
  snd (save_settings
         (with_manager w (set_timer (playlist_manager w) interval (Some display_text)))).

(** [PlaylistManager.get_custom_timer_info]: [None] stands for the pair
    [(None, None)]. *)
Definition get_custom_timer_info (m : PlaylistManager) : option (Z * string) :=
  match custom_timer_text m with
  | Some text => if Text.truthy text then Some (timer_interval m, text) else None
  | None => None
  end.

(** [PlaylistManager.clear_custom_timer]. *)
Definition clear_custom_timer (w : World) : World :=
  snd (save_settings
         (with_manager w (set_timer (playlist_manager w)
                            (timer_interval (playlist_manager w)) None))).

(** ** [core/wallpaper_controller.py], the settings of the running
    wallpaper *)

(** [bool(v)] for a value of the settings dictionary. *)
Definition truthy_value (v : setting_value) : bool :=
  match v with
  | VStr s => Text.truthy s
  | VInt z => negb (z =? 0)
  | VBool b => b
  end.

(** [v == 0]: [False == 0] holds in Python. *)
Definition equals_zero (v : setting_value) : bool :=
  match v with
  | VStr _ => false
  | VInt z => z =? 0
  | VBool b => negb b
  end.

Definition set_last_settings (e : WallpaperEngine) (s : gmap string setting_value)
    : WallpaperEngine :=
  {| current_wallpaper := current_wallpaper e;
     current_process := current_process e;
     last_settings := s |}.

(** [WallpaperController.is_wallpaper_running]. *)
Definition is_wallpaper_running (w : World) : bool :=
  bool_decide (current_wallpaper (wallpaper_engine w) <> None).

(** [last_settings[key] = value] followed by [_save_state()]. *)
Definition store_setting (key : string) (value : setting_value) (w : World) : World :=
  _save_state
    (with_engine w
       (set_last_settings (wallpaper_engine w)
          (<[key := value]> (last_settings (wallpaper_engine w))))).

(** [WallpaperController.set_volume]. *)
Definition set_volume (volume : Z) (w : World) : bool * World :=
  if negb (is_wallpaper_running w) then (false, w)
  else (true, store_setting "volume" (VInt (Z.max 0 (Z.min 100 volume))) w).

(** [WallpaperController.set_fps]. *)
Definition set_fps (fps : Z) (w : World) : bool * World :=
  if negb (is_wallpaper_running w) then (false, w)
  else (true, store_setting "fps" (VInt (Z.max 10 (Z.min 144 fps))) w).

(** The three toggles that flip a flag of [last_settings]:
    [toggle_mouse], [toggle_audio_processing], [toggle_auto_mute]. *)
Definition toggle_flag (key : string) (w : World) : bool * World :=
  if negb (is_wallpaper_running w) then (false, w)
  else
    let current := default (VBool false) (last_settings (wallpaper_engine w) !! key) in
    (true, store_setting key (VBool (negb (truthy_value current))) w).

Definition toggle_mouse : World -> bool * World := toggle_flag "disable_mouse".
Definition toggle_audio_processing : World -> bool * World := toggle_flag "no_audio_processing".
Definition toggle_auto_mute : World -> bool * World := toggle_flag "noautomute".

(** [WallpaperController.get_volume]. *)
Definition get_volume (w : World) : setting_value :=
  if negb (is_wallpaper_running w) then VInt 0
  else default (VInt 50) (last_settings (wallpaper_engine w) !! "volume").

(** [WallpaperController.get_fps]. *)
Definition get_fps (w : World) : setting_value :=
  if negb (is_wallpaper_running w) then VInt 60
  else default (VInt 60) (last_settings (wallpaper_engine w) !! "fps").

(** [WallpaperController.is_silent]. *)
Definition is_silent (w : World) : bool :=
  if negb (is_wallpaper_running w) then false
  else equals_zero (default (VInt 50) (last_settings (wallpaper_engine w) !! "volume")).

(** ** [WallpaperEngine.apply_wallpaper] *)

(** What [subprocess.Popen] does with the command. *)
Inductive PopenResult : Type :=
| Started (child : Z)
| PopenFileNotFound
| PopenPermissionDenied
| PopenFailed.

(** The system as [apply_wallpaper] meets it: [validate_wallpaper_path],
    the path of [WALLPAPER_ENGINE_BINARY] and whether it exists, and the
    outcome of the launch. *)
Record LaunchEnv : Type := {
  valid_wallpaper : string -> bool;
  binary_path : string;
  binary_exists : bool;
  popen : list string -> PopenResult
}.

(** The arguments of [apply_wallpaper] besides the identifier. *)
Record RenderArgs : Type := {
  arg_screen : string;
  arg_volume : Z;
  arg_fps : Z;
  arg_noautomute : bool;
  arg_no_audio_processing : bool;
  arg_disable_mouse : bool
}.

(** How a call of [apply_wallpaper] ends; every outcome but [Applied]
    is a [logger.error] and the return value [False]. *)
Inductive ApplyOutcome : Type :=
| Applied
| RefusedEmptyId                (* "Wallpaper ID bos"                     *)
| RefusedInvalidId              (* "Gecersiz wallpaper ID"                *)
| RefusedNoBinary               (* "Wallpaper Engine binary bulunamadi"   *)
| LaunchFileNotFound            (* except FileNotFoundError               *)
| LaunchPermissionDenied        (* except PermissionError                 *)
| LaunchFailed.                 (* except Exception                       *)

(** The value [apply_wallpaper] returns. *)
Definition applied (o : ApplyOutcome) : bool :=
  match o with
  | Applied => true
  | _ => false
  end.

(** The [cmd] list of [apply_wallpaper]. *)
Definition launch_command (binary wallpaper_id : string) (a : RenderArgs) : list string :=
  [ binary;
    "--screen-root"; arg_screen a;
    "--bg"; wallpaper_id;
    "--volume"; pretty (Z.max 0 (Z.min 100 (arg_volume a)));
    "--fps"; pretty (Z.max 10 (Z.min 144 (arg_fps a))) ]
  ++ (if arg_noautomute a then ["--noautomute"] else [])
  ++ (if arg_no_audio_processing a then ["--no-audio-processing"] else [])
  ++ (if arg_disable_mouse a then ["--disable-mouse"] else []).

(** The [last_settings] dictionary [apply_wallpaper] stores. *)
Definition settings_of_args (a : RenderArgs) : gmap string setting_value :=
  {[ "screen" := VStr (arg_screen a);
     "volume" := VInt (arg_volume a);
     "fps" := VInt (arg_fps a);
     "noautomute" := VBool (arg_noautomute a);
     "no_audio_processing" := VBool (arg_no_audio_processing a);
     "disable_mouse" := VBool (arg_disable_mouse a) ]}.

(** [WallpaperEngine.apply_wallpaper].  The [logger.error] of a refusal
    or a failed launch is reported by the outcome, not in [error_log];
    the process table of the [World] is the one a later probe sees, so
    neither the [kill_existing_wallpapers] before the launch nor the new
    process is recorded in it. *)
Definition apply_wallpaper (env : LaunchEnv) (wallpaper_id : string) (a : RenderArgs)
    (w : World) : ApplyOutcome * World :=
  if negb (Text.truthy wallpaper_id) then (RefusedEmptyId, w)
  else if negb (valid_wallpaper env wallpaper_id) then (RefusedInvalidId, w)
  else if negb (binary_exists env) then (RefusedNoBinary, w)
  else
    match popen env (launch_command (binary_path env) wallpaper_id a) with
    | Started _ =>
        (Applied,
         _save_state
           (with_engine w
              {| current_wallpaper := Some wallpaper_id;
                 current_process := None;
                 last_settings := settings_of_args a |}))
    | PopenFileNotFound => (LaunchFileNotFound, w)
    | PopenPermissionDenied => (LaunchPermissionDenied, w)
    | PopenFailed => (LaunchFailed, w)
    end.

(** ** The playlist handlers of [ui/main_window.py]

    The toasts the handlers show are left out. *)

(** [PlaylistWidget.remove_wallpaper_from_playlist]. *)
Definition remove_wallpaper_from_playlist (index : Z) (g : PlaylistWidget)
    : option string * PlaylistWidget :=
  if (0 <=? index) && (index <? Z.of_nat (length (item_data g))) then
    (item_data g !! Z.to_nat index,
     {| item_data := delete (Z.to_nat index) (item_data g);
        shown_wallpaper := shown_wallpaper g;
        shown_playing := shown_playing g;
        random_checked := random_checked g |})
  else (None, g).

(** [PlaylistWidget.clear_playlist]. *)
Definition clear_playlist (g : PlaylistWidget) : PlaylistWidget :=
  set_playing_state false
    {| item_data := [];
       shown_wallpaper := shown_wallpaper g;
       shown_playing := shown_playing g;
       random_checked := random_checked g |}.

(** [PlaylistWidget.get_playlist_count]. *)
Definition get_playlist_count (g : PlaylistWidget) : Z :=
  Z.of_nat (length (item_data g)).

(** [PlaylistWidget.is_random_mode]. *)
Definition is_random_mode (g : PlaylistWidget) : bool := random_checked g.

(** [MainWindow._save_current_playlist]. *)
Definition _save_current_playlist (w : World) : World :=
  let m := playlist_manager w in
  if negb (bool_decide (current_playlist m = []))
  then snd (create_playlist "current" (current_playlist m) w)
  else match playlists m !! "current" with
       | Some _ => snd (delete_playlist "current" w)
       | None => w
       end.

(** [MainWindow._on_add_to_playlist_requested]. *)
Definition _on_add_to_playlist_requested (wallpaper_id : string) (w : World) : World :=
  let '(added, g) := add_wallpaper_to_playlist wallpaper_id (playlist_widget w) in
  if added
  then _save_current_playlist
         (snd (add_to_current_playlist wallpaper_id (with_widget w g)))
  else with_widget w g.

(** [MainWindow._on_remove_from_playlist]; [index] is the selected row of
    the list widget, [-1] when none is selected. *)
Definition _on_remove_from_playlist (index : Z) (w : World) : World :=
  if 0 <=? index then
    let '(wallpaper_id, g) := remove_wallpaper_from_playlist index (playlist_widget w) in
    if Text.truthy_opt wallpaper_id
    then _save_current_playlist
           (snd (remove_from_current_playlist index (with_widget w g)))
    else with_widget w g
  else w.

(** [MainWindow._on_clear_playlist]. *)
Definition _on_clear_playlist (w : World) : World :=
  let w1 := with_widget w (clear_playlist (playlist_widget w)) in
  let w2 := with_timer w1 None in
  let w3 := with_manager w2 (set_is_playing (playlist_manager w2) false) in
  _save_current_playlist (clear_current_playlist w3).

(** [MainWindow._on_play_mode_changed]. *)
Definition _on_play_mode_changed (random : bool) (w : World) : World :=
  snd (save_settings (with_manager w (set_is_random (playlist_manager w) random))).

(** [MainWindow.apply_wallpaper]: [controls] are the values of the screen
    selector, the sliders and the check boxes, and [media] is
    [_apply_custom_media_wallpaper], the launch of a video tool for an
    imported medium. *)
Definition window_apply_wallpaper (env : LaunchEnv) (controls : RenderArgs)
    (media : string -> World -> bool * World) (wallpaper_id : string) (w : World)
    : bool * World :=
  let '(success, w1) :=
    if Text.startswith "custom_" wallpaper_id || Text.startswith "gif_" wallpaper_id
    then media wallpaper_id w
    else let '(outcome, w') := apply_wallpaper env wallpaper_id controls w in
         (applied outcome, w') in
  if success
  then (true,
        add_to_recent wallpaper_id
          (with_widget w1 (set_current_wallpaper (Some wallpaper_id) (playlist_widget w1))))
  else (false, w1).

(** [if wallpaper_id: self.apply_wallpaper(wallpaper_id)]. *)
Definition apply_if_any (env : LaunchEnv) (controls : RenderArgs)
    (media : string -> World -> bool * World) (wallpaper_id : option string) (w : World)
    : World :=
  match wallpaper_id with
  | Some id => if Text.truthy id then snd (window_apply_wallpaper env controls media id w)
               else w
  | None => w
  end.

(** [MainWindow._on_toggle_playlist]. *)
Definition _on_toggle_playlist (env : LaunchEnv) (controls : RenderArgs)
    (media : string -> World -> bool * World) (draw : nat) (w : World) : World :=
  if get_playlist_count (playlist_widget w) =? 0 then w
  else if is_playing (playlist_manager w) then
    let w1 := with_timer w None in
    let w2 := with_manager w1 (set_is_playing (playlist_manager w1) false) in
    with_widget w2 (set_playing_state false (playlist_widget w2))
  else
    let random := is_random_mode (playlist_widget w) in
    let w1 := with_manager w (set_is_random (playlist_manager w) random) in
    let '(wallpaper_id, w2) := get_next_wallpaper random draw w1 in
    let w3 := apply_if_any env controls media wallpaper_id w2 in
    let w4 := with_timer w3 (Some (timer_interval (playlist_manager w3) * 1000)) in
    let w5 := with_manager w4 (set_is_playing (playlist_manager w4) true) in
    with_widget w5 (set_playing_state true (playlist_widget w5)).

(** [MainWindow._on_next_wallpaper], also the slot of the playlist
    timer. *)
Definition _on_next_wallpaper (env : LaunchEnv) (controls : RenderArgs)
    (media : string -> World -> bool * World) (draw : nat) (w : World) : World :=
  if get_playlist_count (playlist_widget w) =? 0 then w
  else
    let '(wallpaper_id, w1) :=
      get_next_wallpaper (is_random_mode (playlist_widget w)) draw w in
    apply_if_any env controls media wallpaper_id w1.

(** The playlist of the widget and the playlist of the manager agree,
    entry by entry; no entry is empty or listed twice. *)
Definition in_sync (w : World) : Prop :=
  item_data (playlist_widget w) = current_playlist (playlist_manager w)
  /\ NoDup (current_playlist (playlist_manager w))
  /\ Forall (fun x => Text.truthy x = true) (current_playlist (playlist_manager w)).

(** The handlers that edit the playlist. *)
Inductive playlist_edit : Type :=
| EditAdd (wallpaper_id : string)
| EditRemove (index : Z)
| EditClear.

Definition apply_edit (w : World) (e : playlist_edit) : World :=
  match e with
  | EditAdd wallpaper_id => _on_add_to_playlist_requested wallpaper_id w
  | EditRemove index => _on_remove_from_playlist index w
  | EditClear => _on_clear_playlist w
  end.

(** The start of the next session: the playlist manager is constructed
    from the settings file and [_load_current_playlist] fills the empty
    playlist widget. *)
Definition next_session (w : World) : exc World :=
  match PlaylistManager__init__
          (with_widget w
             {| item_data := []; shown_wallpaper := None; shown_playing := false;
                random_checked := false |}) with
  | (Ret _, w0) => Ret (_load_current_playlist w0)
  | (Raise e, _) => Raise e
  end.

(** ** More of the refactored playlist flow *)

Definition flow_set_recent (st : Flow.Store) (l : list string) : Flow.Store :=
  {| Flow.state := Flow.state st;
     Flow.data := {| Flow.saved_playlists := Flow.saved_playlists (Flow.data st);
                     Flow.recent_wallpapers := l |};
     Flow.settings := Flow.settings st;
     Flow.writable := Flow.writable st;
     Flow.failure := Flow.failure st;
     Flow.flow_log := Flow.flow_log st |}.

(** The list [Add_To_Recent] leaves in [recent_wallpapers]: the newest
    entry first. *)
Definition flow_recent_with (_wallpaper_id : string) (recent : list string) : list string :=
  let recent := if bool_decide (_wallpaper_id ∈ recent)
                then remove_first _wallpaper_id recent else recent in
  let recent := _wallpaper_id :: recent in
  if (20 <? length recent)%nat then take 20 recent else recent.

(** [Flow.PlaylistManager.Add_To_Recent]. *)
Definition Add_To_Recent (_wallpaper_id : string) (st : Flow.Store) : Flow.Store :=
  Flow._Save_Settings
    (flow_set_recent st
       (flow_recent_with _wallpaper_id (Flow.recent_wallpapers (Flow.data st)))).

(** [Flow.PlaylistManager.Get_Previous_Wallpaper]. *)
Definition Get_Previous_Wallpaper (st : Flow.Store) : exc (option string * Flow.Store) :=
  let s := Flow.state st in
  if bool_decide (Flow.current_playlist s = []) then Ret (None, st)
  else
    let _playlist_length := Z.of_nat (length (Flow.current_playlist s)) in
    let i := (Flow.current_index s - 1) mod _playlist_length in
    match Flow.current_playlist s !! Z.to_nat i with
    | Some x => Ret (Some x, Flow._Save_Settings (Flow.with_state st (Flow.set_index s i)))
    | None => Raise IndexError
    end.

(** [App.ManagePlaylist]. *)
Definition ManagePlaylist (st : Flow.Store) : Flow.Store :=
  Flow.Initialize_State (Flow.Load_Settings st).

(** ** Runs, invariants and sample inputs of the further properties *)

(** [k] consecutive [get_next_wallpaper(False)] calls, the ticks of the
    playlist timer in sequential mode. *)
Fixpoint sequential_run (k : nat) (w : World) : list (option string) * World :=
  match k with
  | O => ([], w)
  | S k' =>
      let '(x, w1) := get_next_wallpaper false 0 w in
      let '(xs, w2) := sequential_run k' w1 in
      (x :: xs, w2)
  end.

(** The identifier is a plain folder name: it holds no path separator. *)
Definition no_slash (s : string) : bool :=
  Text.all_chars (fun c => negb (Ascii.eqb c "/")) s.

(** A system in which every identifier is valid and the renderer
    starts. *)
Definition sample_env : LaunchEnv :=
  {| valid_wallpaper := fun _ => true;
     binary_path := "/usr/bin/linux-wallpaperengine";
     binary_exists := true;
     popen := fun _ => Started 4242 |}.

(** Arguments with a volume and a frame rate outside their ranges. *)
Definition loud_args : RenderArgs :=
  {| arg_screen := "eDP-1"; arg_volume := 150; arg_fps := 5;
     arg_noautomute := false; arg_no_audio_processing := false;
     arg_disable_mouse := true |}.

(** The renderer as [apply_wallpaper] starts it for the given wallpaper. *)
Definition app_renderer (child : Z) (wallpaper_id : string) : ProcInfo :=
  process child "linux-wallpaperengine"
    (launch_command (binary_path sample_env) wallpaper_id loud_args).

Definition showing (wallpaper_id : string) : WallpaperEngine :=
  {| current_wallpaper := Some wallpaper_id; current_process := None;
     last_settings := ∅ |}.

(** A session whose engine recorded wallpaper 1234567890, with the
    renderer the application started for it still running. *)
Definition backed_cache_world : World :=
  with_processes (with_engine blank_world (showing "1234567890"))
    [ app_renderer 4242 "1234567890" ].

(** A stale engine record, and the renderer of the playlist's current
    entry still running. *)
Definition backed_entry_world : World :=
  with_processes
    (with_engine (with_manager blank_world (manager_with ["1234567890"] 0 false))
       (showing "2222222222"))
    [ app_renderer 4242 "1234567890" ].

(** A stale engine record 2222222222, and a renderer that shows another
    wallpaper. *)
Definition other_wallpaper_live : World :=
  with_processes (with_engine blank_world (showing "2222222222"))
    [ process 100 "linux-wallpaperengine"
        ["linux-wallpaperengine"; "--bg"; "/steam/workshop/content/431960/11111111"] ].


(** A session that plays the playlist A. *)
Definition playing_single : World :=
  with_timer
    (with_widget (with_manager blank_world (manager_with ["A"] 0 true))
       {| item_data := ["A"]; shown_wallpaper := Some "A"; shown_playing := true;
          random_checked := false |})
    (Some 60000).

(** A store of the refactored flow whose settings path cannot be
    reached. *)
Definition unreachable_flow_store : Flow.Store :=
  {| Flow.state := Flow.state (flow_store ["A"]);
     Flow.data := Flow.data (flow_store ["A"]);
     Flow.settings := Inaccessible;
     Flow.writable := false;
     Flow.failure := OpenFails;
     Flow.flow_log := [] |}.


(** The playlist saved under the name ["current"] is the current
    playlist; an empty current playlist is not saved. *)
Definition saved_current (w : World) : Prop :=
  playlists (playlist_manager w) !! "current"
  = if bool_decide (current_playlist (playlist_manager w) = []) then None
    else Some (current_playlist (playlist_manager w)).

(** The settings file holds the saved playlists and the current playlist
    of the manager: a newly constructed manager reads them back. *)
Definition stored_playlist (w : World) : Prop :=
  fst (PlaylistManager__init__ w) = Ret tt
  /\ playlists (playlist_manager (snd (PlaylistManager__init__ w)))
     = playlists (playlist_manager w)
  /\ current_playlist (playlist_manager (snd (PlaylistManager__init__ w)))
     = current_playlist (playlist_manager w).

(** The engine state a successful launch leaves. *)
Definition launched (wallpaper_id : string) (a : RenderArgs) (w : World) : World :=
  _save_state
    (with_engine w
       {| current_wallpaper := Some wallpaper_id;
          current_process := None;
          last_settings := settings_of_args a |}).


(** The file the playlist manager wrote last records the playing flag
    of the manager. *)
Definition file_says_playing (w : World) (b : bool) : Prop :=
  exists data, settings_file w = Json (JObject data) /\ k_is_playing data = Some b.

(** * Properties *)

(** ** The settings file *)

Section Persistence.

Lemma save_settings_manager (w : World) :
  playlist_manager (snd (save_settings w)) = playlist_manager w.
Proof.
  unfold save_settings, write_json.
  destruct (settings_writable w); [reflexivity|].
  destruct (write_failure w); reflexivity.
Qed.

Lemma save_settings_frame (w : World) :
  let w' := snd (save_settings w) in
  wallpaper_engine w' = wallpaper_engine w
  /\ playlist_widget w' = playlist_widget w
  /\ playlist_timer w' = playlist_timer w
  /\ last_toast w' = last_toast w
  /\ settings_writable w' = settings_writable w
  /\ processes w' = processes w
  /\ swww_query w' = swww_query w.
Proof.
  unfold save_settings, write_json.
  destruct (settings_writable w) eqn:E; [simpl; rewrite ?E; auto 10|].
  destruct (write_failure w); simpl; rewrite ?E; auto 10.
Qed.

(** A successful save leaves exactly the manager's dictionary on disk. *)
Lemma save_settings_written (w : World) :
  settings_writable w = true ->
  save_settings w =
    (true, with_file w (Json (JObject (settings_of_manager (playlist_manager w))))).
Proof.
  intros Hw. unfold save_settings, write_json. rewrite Hw. reflexivity.
Qed.

(** Loading is all or nothing: unless the file holds a JSON object the
    attributes are left as they were.  When the existence test returns,
    [load_settings] returns [False], and every failure but a missing file
    is logged as an error; when the existence test raises, so does
    [load_settings]. *)
Lemma load_settings_not_object (w : World) :
  (forall data, settings_file w <> Json (JObject data)) ->
  playlist_manager (snd (load_settings w)) = playlist_manager w
  /\ (settings_file w <> Inaccessible -> fst (load_settings w) = Ret false)
  /\ (settings_file w = Inaccessible -> load_settings w = (Raise OSError, w))
  /\ (settings_file w = Missing ->
      error_log (snd (load_settings w)) = error_log w)
  /\ (settings_file w <> Missing -> settings_file w <> Inaccessible ->
      exists r, error_log (snd (load_settings w)) = (error_log w ++ [r])%list).
Proof.
  intros Hno. unfold load_settings.
  destruct (settings_file w) as [| | | |[data|]]; simpl.
  - by repeat split.
  - by repeat split.
  - repeat split; [discriminate | discriminate | intros _ _; by eexists].
  - repeat split; [discriminate | discriminate | intros _ _; by eexists].
  - exfalso. apply (Hno data). reflexivity.
  - repeat split; [discriminate | discriminate | intros _ _; by eexists].
Qed.

Lemma load_settings_object (w : World) (data : settings_obj) :
  settings_file w = Json (JObject data) ->
  load_settings w = (Ret true, with_manager w (manager_of_settings data)).
Proof.
  intros Hf. unfold load_settings. rewrite Hf. reflexivity.
Qed.

(** What a second load reads after a load and a save: the playlist,
    the cursor, the modes and the timer settings are those of the first
    load. *)
Lemma load_save_load (w : World) (data : settings_obj) :
  settings_file w = Json (JObject data) ->
  settings_writable w = true ->
  let m := playlist_manager (snd (load_settings w)) in
  let m' := playlist_manager
              (snd (load_settings (snd (save_settings (snd (load_settings w)))))) in
  current_playlist m' = current_playlist m
  /\ current_index m' = current_index m
  /\ is_playing m' = is_playing m
  /\ is_random m' = is_random m
  /\ timer_interval m' = timer_interval m
  /\ custom_timer_text m' = custom_timer_text m
  /\ playlists m' = playlists m.
Proof.
  intros Hf Hw. rewrite (load_settings_object w data Hf). simpl.
  rewrite save_settings_written by exact Hw. simpl.
  repeat split; reflexivity.
Qed.

End Persistence.

(** ** The playlist cursor *)

Section Cursor.

Lemma get_next_wallpaper_manager (random_mode : bool) (draw : nat) (w : World) :
  current_playlist (playlist_manager w) <> [] ->
  playlist_manager (snd (get_next_wallpaper random_mode draw w)) =
    set_current_index (playlist_manager w)
      (if random_mode
       then randint 0 (Z.of_nat (length (current_playlist (playlist_manager w))) - 1) draw
       else (current_index (playlist_manager w) + 1)
              mod Z.of_nat (length (current_playlist (playlist_manager w)))).
Proof.
  intros Hne. unfold get_next_wallpaper.
  rewrite bool_decide_eq_false_2 by exact Hne.
  simpl. rewrite save_settings_manager. reflexivity.
Qed.

Lemma get_previous_wallpaper_manager (w : World) :
  current_playlist (playlist_manager w) <> [] ->
  playlist_manager (snd (get_previous_wallpaper w)) =
    set_current_index (playlist_manager w)
      ((current_index (playlist_manager w) - 1)
         mod Z.of_nat (length (current_playlist (playlist_manager w)))).
Proof.
  intros Hne. unfold get_previous_wallpaper.
  rewrite bool_decide_eq_false_2 by exact Hne.
  simpl. rewrite save_settings_manager. reflexivity.
Qed.

Lemma randint_range (n : Z) (draw : nat) :
  0 < n -> 0 <= randint 0 (n - 1) draw < n.
Proof.
  intros Hn. unfold randint.
  replace (n - 1 - 0 + 1) with n by lia.
  pose proof (Z.mod_pos_bound (Z.of_nat draw) n Hn). lia.
Qed.

(** Every outcome of [random.randint(a, b)] is the outcome of some
    draw. *)
Lemma randint_covers (a b i : Z) :
  a <= i <= b -> exists draw, randint a b draw = i.
Proof.
  intros Hi. exists (Z.to_nat (i - a)). unfold randint.
  rewrite Z2Nat.id by lia. rewrite Z.mod_small by lia. lia.
Qed.

Lemma length_pos_of_ne {A} (l : list A) : l <> [] -> 0 < Z.of_nat (length l).
Proof. destruct l; [congruence | simpl; lia]. Qed.

(** None of the four operations writes [is_playing]. *)
Lemma apply_op_is_playing (w : World) (o : playlist_op) :
  is_playing (playlist_manager (apply_op w o)) = is_playing (playlist_manager w).
Proof.
  destruct o as [wallpaper_id | index | random_mode draw | ]; simpl.
  - unfold add_to_current_playlist.
    destruct (negb (Text.truthy wallpaper_id)); [reflexivity|].
    destruct (negb (bool_decide _)); reflexivity.
  - unfold remove_from_current_playlist.
    destruct (_ && _); [|reflexivity]. simpl.
    destruct (_ && _); [reflexivity|].
    destruct (_ && _); reflexivity.
  - destruct (decide (current_playlist (playlist_manager w) = [])) as [He|Hne].
    + unfold get_next_wallpaper. rewrite bool_decide_eq_true_2 by exact He. reflexivity.
    + rewrite get_next_wallpaper_manager by exact Hne. reflexivity.
  - destruct (decide (current_playlist (playlist_manager w) = [])) as [He|Hne].
    + unfold get_previous_wallpaper. rewrite bool_decide_eq_true_2 by exact He. reflexivity.
    + rewrite get_previous_wallpaper_manager by exact Hne. reflexivity.
Qed.

Lemma cursor_rests_in_range (m : PlaylistManager) :
  cursor_rests m -> cursor_in_range m.
Proof.
  intros Hc Hne. unfold cursor_rests in Hc.
  pose proof (length_pos_of_ne _ Hne). lia.
Qed.

Lemma add_rests (wallpaper_id : string) (w : World) :
  cursor_rests (playlist_manager w) ->
  cursor_rests (playlist_manager (snd (add_to_current_playlist wallpaper_id w))).
Proof.
  unfold cursor_rests. intros Hc. unfold add_to_current_playlist.
  destruct (negb (Text.truthy wallpaper_id)); [exact Hc|].
  destruct (negb (bool_decide _)); [|exact Hc].
  simpl. rewrite length_app. simpl. lia.
Qed.

Lemma remove_rests (index : Z) (w : World) :
  cursor_rests (playlist_manager w) ->
  cursor_rests (playlist_manager (snd (remove_from_current_playlist index w))).
Proof.
  unfold cursor_rests. intros Hc. unfold remove_from_current_playlist.
  destruct ((0 <=? index) && (index <? _)) eqn:Hin; [|exact Hc].
  apply andb_true_iff in Hin as [Hlo Hhi].
  apply Z.leb_le in Hlo. apply Z.ltb_lt in Hhi.
  assert (Hlen : length (delete (Z.to_nat index) (current_playlist (playlist_manager w)))
                 = (length (current_playlist (playlist_manager w)) - 1)%nat).
  { rewrite length_delete; [reflexivity|].
    apply lookup_lt_is_Some. lia. }
  simpl.
  destruct ((index <=? _) && (0 <? _)) eqn:Hdec.
  - apply andb_true_iff in Hdec as [H1 H2].
    apply Z.leb_le in H1. apply Z.ltb_lt in H2.
    simpl. rewrite Hlen. lia.
  - destruct ((_ <=? _) && negb _) eqn:Hreset.
    + simpl. lia.
    + simpl. rewrite Hlen.
      apply andb_false_iff in Hdec.
      destruct Hdec as [H1|H2];
        [apply Z.leb_gt in H1 | apply Z.ltb_ge in H2]; lia.
Qed.

Lemma advance_rests (random_mode : bool) (draw : nat) (w : World) :
  cursor_rests (playlist_manager w) ->
  cursor_rests (playlist_manager (snd (get_next_wallpaper random_mode draw w))).
Proof.
  unfold cursor_rests. intros Hc.
  destruct (decide (current_playlist (playlist_manager w) = [])) as [He|Hne].
  - unfold get_next_wallpaper. rewrite bool_decide_eq_true_2 by exact He. exact Hc.
  - rewrite get_next_wallpaper_manager by exact Hne.
    pose proof (length_pos_of_ne _ Hne) as Hpos.
    simpl. destruct random_mode.
    + pose proof (randint_range _ draw Hpos). lia.
    + pose proof (Z.mod_pos_bound (current_index (playlist_manager w) + 1) _ Hpos). lia.
Qed.

Lemma retreat_rests (w : World) :
  cursor_rests (playlist_manager w) ->
  cursor_rests (playlist_manager (snd (get_previous_wallpaper w))).
Proof.
  unfold cursor_rests. intros Hc.
  destruct (decide (current_playlist (playlist_manager w) = [])) as [He|Hne].
  - unfold get_previous_wallpaper. rewrite bool_decide_eq_true_2 by exact He. exact Hc.
  - rewrite get_previous_wallpaper_manager by exact Hne.
    pose proof (length_pos_of_ne _ Hne) as Hpos.
    simpl.
    pose proof (Z.mod_pos_bound (current_index (playlist_manager w) - 1) _ Hpos). lia.
Qed.

Lemma apply_op_rests (w : World) (o : playlist_op) :
  cursor_rests (playlist_manager w) ->
  cursor_rests (playlist_manager (apply_op w o)).
Proof.
  destruct o; simpl;
    auto using add_rests, remove_rests, advance_rests, retreat_rests.
Qed.

Lemma run_ops_rests (ops : list playlist_op) (w : World) :
  cursor_rests (playlist_manager w) ->
  cursor_rests (playlist_manager (run_ops ops w)).
Proof.
  revert w. induction ops as [|o ops IH]; intros w Hs; [exact Hs|].
  simpl. apply IH, apply_op_rests, Hs.
Qed.

Lemma run_ops_is_playing (ops : list playlist_op) (w : World) :
  is_playing (playlist_manager (run_ops ops w)) = is_playing (playlist_manager w).
Proof.
  revert w. induction ops as [|o ops IH]; intros w; [reflexivity|].
  simpl. fold (run_ops ops (apply_op w o)). rewrite IH. apply apply_op_is_playing.
Qed.

(** What the four operations do preserve.  Every sequence of add,
    remove-at-index, advance and retreat operations, with arbitrary random
    draws, applied to a state whose cursor is below the length of the
    playlist, or 0 for an empty playlist, leaves the cursor so: it lies
    inside the playlist whenever the playlist is not empty.  The
    operations do not write [is_playing]: it is afterwards what it was
    before, so an empty playlist is not playing afterwards if nothing was
    playing before. *)
Lemma cursor_invariant_after_any_ops (ops : list playlist_op) (w : World) :
  cursor_rests (playlist_manager w) ->
  let m' := playlist_manager (run_ops ops w) in
  cursor_rests m'
  /\ cursor_in_range m'
  /\ is_playing m' = is_playing (playlist_manager w)
  /\ (is_playing (playlist_manager w) = false -> cursor_invariant m').
Proof.
  intros Hrests m'.
  assert (cursor_rests m') as Hrests' by (by apply run_ops_rests).
  assert (is_playing m' = is_playing (playlist_manager w)) as Hplaying
    by apply run_ops_is_playing.
  split; [exact Hrests'|]. split; [by apply cursor_rests_in_range|].
  split; [exact Hplaying|].
  intros Hidle. split; [by apply cursor_rests_in_range|].
  intros _. by rewrite Hplaying.
Qed.

Lemma cursor_invariant_after_any_ops_witness :
  let w := with_manager blank_world (manager_with ["A"; "B"; "C"] 2 true) in
  let ops := [OpRemoveAt 2; OpAdvance true 7; OpAdd "D"; OpRetreat; OpRemoveAt 0] in
  let m' := playlist_manager (run_ops ops w) in
  cursor_rests m'
  /\ cursor_in_range m'
  /\ is_playing m' = true
  /\ (true = false -> cursor_invariant m').
Proof.
  apply (cursor_invariant_after_any_ops
           [OpRemoveAt 2; OpAdvance true 7; OpAdd "D"; OpRetreat; OpRemoveAt 0]
           (with_manager blank_world (manager_with ["A"; "B"; "C"] 2 true))).
  unfold cursor_rests. simpl. lia.
Defined.

(** C3. The invariant is not preserved: removing the last entry of a
    playing playlist leaves an empty playlist that is still playing.  In
    the session [playing_single] the playlist A plays, which satisfies the
    invariant.  After [remove_from_current_playlist(0)] the playlist is
    empty and [is_playing] is still true; after the handler of the
    remove button, which calls it, the timer is still armed as well.
    Emptying the playlist by [clear_current_playlist] does clear the
    flag, and the handler of the clear button stops the timer; the play
    button does not start an empty playlist. *)
Theorem removal_leaves_empty_playlist_playing :
  cursor_invariant (playlist_manager playing_single)
  /\ (current_playlist (playlist_manager (run_ops [OpRemoveAt 0] playing_single)) = []
      /\ is_playing (playlist_manager (run_ops [OpRemoveAt 0] playing_single)) = true
      /\ ~ cursor_invariant (playlist_manager (run_ops [OpRemoveAt 0] playing_single)))
  /\ (current_playlist (playlist_manager (_on_remove_from_playlist 0 playing_single)) = []
      /\ is_playing (playlist_manager (_on_remove_from_playlist 0 playing_single)) = true
      /\ playlist_timer (_on_remove_from_playlist 0 playing_single) = Some 60000)
  /\ (current_playlist (playlist_manager (clear_current_playlist playing_single)) = []
      /\ is_playing (playlist_manager (clear_current_playlist playing_single)) = false)
  /\ (current_playlist (playlist_manager (_on_clear_playlist playing_single)) = []
      /\ is_playing (playlist_manager (_on_clear_playlist playing_single)) = false
      /\ playlist_timer (_on_clear_playlist playing_single) = None)
  /\ (forall env controls media draw,
        _on_toggle_playlist env controls media draw (_on_clear_playlist playing_single)
        = _on_clear_playlist playing_single).
Proof.
  split.
  { split; [intros _; simpl; lia|intros Hnil; discriminate]. }
  split.
  { split; [reflexivity|]. split; [reflexivity|].
    intros [_ Hidle]. specialize (Hidle eq_refl). discriminate. }
  split; [vm_compute; by repeat split|].
  split; [by split|].
  split; [vm_compute; by repeat split|].
  intros env controls media draw. reflexivity.
Qed.

(** C9. On the playlist A, B, C a sequential advance from cursor 2
    returns A and moves the cursor to 0, and a retreat from cursor 0
    returns C and moves the cursor to 2. *)
Theorem sequential_wrap_around (w : World) (draw : nat) :
  let at_cursor i :=
    with_manager w
      (set_current_index (set_current_playlist (playlist_manager w) ["A"; "B"; "C"]) i) in
  (fst (get_next_wallpaper false draw (at_cursor 2)) = Some "A"
   /\ current_index (playlist_manager (snd (get_next_wallpaper false draw (at_cursor 2)))) = 0)
  /\ (fst (get_previous_wallpaper (at_cursor 0)) = Some "C"
      /\ current_index (playlist_manager (snd (get_previous_wallpaper (at_cursor 0)))) = 2).
Proof.
  intros at_cursor. unfold at_cursor, get_next_wallpaper, get_previous_wallpaper.
  simpl. rewrite !save_settings_manager. simpl. repeat split; reflexivity.
Qed.

End Cursor.


(** ** Loading and saving *)

Section LoadSave.

Lemma unusable_not_object (f : file) :
  unusable f -> forall data, f <> Json (JObject data).
Proof. intros [->|[->|[->| ->]]] data; discriminate. Qed.

(** When the existence test returns and the settings file is missing, or
    its content is malformed, [load_settings] returns (with [False]) and
    the playlist manager that [__init__] constructs holds the defaults --
    empty playlist, cursor 0, not playing, the default timer interval; a
    malformed file, unlike a missing one, adds an entry to the error log.
    The loader of the refactored flow resets its state to its defaults in
    the same cases. *)
Lemma load_falls_back_to_defaults (w : World) (st : Flow.Store) :
  unusable (settings_file w) ->
  unusable (Flow.settings st) ->
  (fst (load_settings (with_manager w fresh_manager)) = Ret false
   /\ fst (PlaylistManager__init__ w) = Ret tt
   /\ playlist_manager (snd (PlaylistManager__init__ w)) = fresh_manager
   /\ current_playlist (playlist_manager (snd (PlaylistManager__init__ w))) = []
   /\ current_index (playlist_manager (snd (PlaylistManager__init__ w))) = 0
   /\ is_playing (playlist_manager (snd (PlaylistManager__init__ w))) = false
   /\ timer_interval (playlist_manager (snd (PlaylistManager__init__ w)))
      = DEFAULT_TIMER_INTERVAL
   /\ (settings_file w = Missing ->
       error_log (snd (PlaylistManager__init__ w)) = error_log w)
   /\ (settings_file w <> Missing ->
       exists r, error_log (snd (PlaylistManager__init__ w)) = (error_log w ++ [r])%list))
  /\ (Flow.current_playlist (Flow.state (Flow.Load_Settings st)) = []
      /\ Flow.current_index (Flow.state (Flow.Load_Settings st)) = 0
      /\ Flow.is_playing (Flow.state (Flow.Load_Settings st)) = false
      /\ Flow.timer_interval (Flow.state (Flow.Load_Settings st)) = 30
      /\ (Flow.settings st = Missing ->
          Flow.flow_log (Flow.Load_Settings st) = Flow.flow_log st)
      /\ (Flow.settings st <> Missing ->
          Flow.flow_log (Flow.Load_Settings st)
          = (Flow.flow_log st ++ [LogFlowLoadFailed])%list)).
Proof.
  intros Hw Hst. split.
  - destruct (load_settings_not_object (with_manager w fresh_manager))
      as (Hm & Hret & _ & Hmissing & Hlogged).
    { simpl. apply unusable_not_object, Hw. }
    assert (settings_file w <> Inaccessible) as Hacc
      by (destruct Hw as [->|[->|[->| ->]]]; discriminate).
    specialize (Hret Hacc). unfold PlaylistManager__init__.
    destruct (load_settings (with_manager w fresh_manager)) as [r w'].
    simpl in *. subst r. rewrite Hm.
    repeat split; try reflexivity; [exact Hmissing|].
    intros Hne. by apply Hlogged.
  - unfold Flow.Load_Settings.
    destruct Hst as [->|[->|[->| ->]]]; simpl;
      repeat split; try reflexivity; try discriminate; intros; congruence.
Qed.

(** C8. Loading can raise to its caller.  [load_settings] tests the
    existence of the settings file before it enters its [try]: when that
    test raises (the path lies under a directory that may not be
    searched), the exception leaves [load_settings] and so the constructor
    of the playlist manager, with nothing logged.  The engine's
    [_load_state] and the loader of the refactored flow make the same test
    inside their [try]: on the same file they log the error and return,
    the flow with its defaults. *)
Theorem load_raises_when_existence_test_raises (w : World) (st : Flow.Store) :
  settings_file w = Inaccessible ->
  Flow.settings st = Inaccessible ->
  (load_settings w = (Raise OSError, w)
   /\ fst (PlaylistManager__init__ w) = Raise OSError
   /\ error_log (snd (PlaylistManager__init__ w)) = error_log w)
  /\ _load_state w = log_error w LogStateRestoreFailed
  /\ (Flow.Load_Settings st
      = Flow._Initialize_Default_Settings (Flow.flow_error st LogFlowLoadFailed)
      /\ Flow.current_playlist (Flow.state (Flow.Load_Settings st)) = []
      /\ Flow.current_index (Flow.state (Flow.Load_Settings st)) = 0
      /\ Flow.is_playing (Flow.state (Flow.Load_Settings st)) = false
      /\ Flow.timer_interval (Flow.state (Flow.Load_Settings st)) = 30).
Proof.
  intros Hw Hst. split; [|split].
  - unfold PlaylistManager__init__, load_settings. simpl. rewrite Hw. simpl.
    by repeat split.
  - unfold _load_state. rewrite Hw. reflexivity.
  - unfold Flow.Load_Settings. rewrite Hst. simpl. by repeat split.
Qed.

Lemma load_raises_when_existence_test_raises_witness :
  fst (PlaylistManager__init__ (with_file saved_session Inaccessible)) = Raise OSError
  /\ _load_state (with_file saved_session Inaccessible)
     = log_error (with_file saved_session Inaccessible) LogStateRestoreFailed
  /\ Flow.flow_log (Flow.Load_Settings unreachable_flow_store) = [LogFlowLoadFailed]
  /\ Flow.is_playing (Flow.state (Flow.Load_Settings unreachable_flow_store)) = false.
Proof.
  pose proof (load_raises_when_existence_test_raises
                (with_file saved_session Inaccessible) unreachable_flow_store
                eq_refl eq_refl) as (Hload & Hengine & Hflow).
  split; [exact (proj1 (proj2 Hload))|]. split; [exact Hengine|].
  split; [by rewrite (proj1 Hflow)|].
  exact (proj1 (proj2 (proj2 (proj2 Hflow)))).
Defined.

(** Whatever the file held, a save by the playlist manager leaves no
    ["wallpaper_state"] and no ["current_theme"] in it. *)
Lemma save_settings_forgets_other_keys (w : World) :
  settings_writable w = true ->
  exists data,
    settings_file (snd (save_settings w)) = Json (JObject data)
    /\ k_wallpaper_state data = None
    /\ k_current_theme data = None.
Proof.
  intros Hw. rewrite save_settings_written by exact Hw.
  eexists. split; [reflexivity|]. split; reflexivity.
Qed.

(** The engine's own save keeps every other key of the object. *)
Lemma _save_state_keeps_manager_keys (w : World) (data : settings_obj) :
  settings_file w = Json (JObject data) ->
  settings_writable w = true ->
  exists data',
    settings_file (_save_state w) = Json (JObject data')
    /\ k_current_playlist data' = k_current_playlist data
    /\ k_current_index data' = k_current_index data
    /\ k_is_playing data' = k_is_playing data
    /\ k_is_random data' = k_is_random data
    /\ k_current_theme data' = k_current_theme data.
Proof.
  intros Hf Hw. unfold _save_state, write_json. rewrite Hf, Hw. simpl.
  eexists. split; [reflexivity|]. repeat split; reflexivity.
Qed.

(** C5. The round trip of the playlist manager loses the persisted
    wallpaper state.  The file of [saved_session] records wallpaper A with
    its render settings; after [load_settings] and an immediate
    [save_settings] the playlist, cursor and modes read back unchanged, but
    the engine reads back no current wallpaper and no settings. *)
Theorem round_trip_drops_wallpaper_state :
  let reloaded := snd (load_settings saved_session) in
  let resaved := snd (save_settings reloaded) in
  (current_wallpaper (wallpaper_engine (_load_state saved_session)) = Some "A"
   /\ last_settings (wallpaper_engine (_load_state saved_session)) = sample_settings)
  /\ (current_playlist (playlist_manager (snd (load_settings resaved))) = ["A"; "B"]
      /\ current_index (playlist_manager (snd (load_settings resaved))) = 1)
  /\ (current_wallpaper (wallpaper_engine (_load_state resaved)) = None
      /\ last_settings (wallpaper_engine (_load_state resaved)) = ∅).
Proof. repeat split; reflexivity. Qed.

(** Saved in the order of construction -- the playlist manager first,
    the engine second -- the file keeps both parts: the engine reads its
    state back, and so does the playlist manager. *)
Lemma save_manager_then_engine (w : World) :
  settings_writable w = true ->
  let saved := _save_state (snd (save_settings w)) in
  (current_wallpaper (wallpaper_engine (_load_state saved))
     = current_wallpaper (wallpaper_engine w)
   /\ last_settings (wallpaper_engine (_load_state saved))
     = last_settings (wallpaper_engine w))
  /\ (current_playlist (playlist_manager (snd (load_settings saved)))
       = current_playlist (playlist_manager w)
      /\ current_index (playlist_manager (snd (load_settings saved)))
       = current_index (playlist_manager w)
      /\ is_playing (playlist_manager (snd (load_settings saved)))
       = is_playing (playlist_manager w)
      /\ is_random (playlist_manager (snd (load_settings saved)))
       = is_random (playlist_manager w)
      /\ timer_interval (playlist_manager (snd (load_settings saved)))
       = timer_interval (playlist_manager w)
      /\ custom_timer_text (playlist_manager (snd (load_settings saved)))
       = custom_timer_text (playlist_manager w)).
Proof.
  intros Hw. rewrite save_settings_written by exact Hw. simpl.
  unfold _save_state, write_json. simpl. rewrite Hw. simpl.
  repeat split; reflexivity.
Qed.

End LoadSave.

(** ** The wallpaper engine *)

Section Engine.

(** C10. [stop_current_wallpaper] returns [True] in every state; it
    clears the [current_wallpaper] reference and changes nothing else: the
    process table, the retained process handle, [last_settings], the
    settings file and the rest of the application state are as before. *)
Theorem stop_current_wallpaper_only_clears_reference (w : World) :
  let w' := snd (stop_current_wallpaper w) in
  fst (stop_current_wallpaper w) = true
  /\ current_wallpaper (wallpaper_engine w')
     = (if Text.truthy_opt (current_wallpaper (wallpaper_engine w)) then None
        else current_wallpaper (wallpaper_engine w))
  /\ Text.truthy_opt (current_wallpaper (wallpaper_engine w')) = false
  /\ last_settings (wallpaper_engine w') = last_settings (wallpaper_engine w)
  /\ current_process (wallpaper_engine w') = current_process (wallpaper_engine w)
  /\ processes w' = processes w
  /\ swww_query w' = swww_query w
  /\ settings_file w' = settings_file w
  /\ settings_writable w' = settings_writable w
  /\ playlist_manager w' = playlist_manager w
  /\ playlist_widget w' = playlist_widget w
  /\ playlist_timer w' = playlist_timer w
  /\ last_toast w' = last_toast w
  /\ error_log w' = error_log w.
Proof.
  unfold stop_current_wallpaper.
  destruct (Text.truthy_opt (current_wallpaper (wallpaper_engine w))) eqn:E;
    simpl; rewrite ?E; repeat split; reflexivity.
Qed.

End Engine.

(** ** The process probes *)

Section Probes.

(** A loop with an early return stops at the first process whose body
    yields a value. *)
Lemma first_hit_at_first {A B} (body : A -> exc (option B))
    (before after : list A) (x : A) (b : B) :
  Forall (fun y => body y = Ret None) before ->
  body x = Ret (Some b) ->
  first_hit body (before ++ x :: after)%list = Ret (Some b).
Proof.
  intros Hbefore Hx. induction Hbefore as [|y before Hy _ IH]; simpl.
  - rewrite Hx. reflexivity.
  - rewrite Hy. simpl. exact IH.
Qed.

(** A loop is abandoned at the first process whose body raises. *)
Lemma first_hit_raises_at {A B} (body : A -> exc (option B))
    (before after : list A) (x : A) (e : exception) :
  Forall (fun y => body y = Ret None) before ->
  body x = Raise e ->
  first_hit body (before ++ x :: after)%list = Raise e.
Proof.
  intros Hbefore Hx. induction Hbefore as [|y before Hy _ IH]; simpl.
  - rewrite Hx. reflexivity.
  - rewrite Hy. simpl. exact IH.
Qed.

(** How the scan of one process ends.  It raises when psutil reported no
    name, or no command line for a process whose name does not match;
    otherwise it returns: nothing for a process that does not match, and
    for one that does what the two patterns find in its command line. *)
Lemma renderer_scan_outcomes (p : ProcInfo) :
  (name p = None -> renderer_scan p = Raise TypeError)
  /\ (forall n, name p = Some n ->
        Text.contains "linux-wallpaperengine" n = false ->
        cmdline p = None -> renderer_scan p = Raise TypeError)
  /\ (matches_renderer p = false -> name p <> None -> cmdline p <> None ->
      renderer_scan p = Ret None)
  /\ (matches_renderer p = true ->
      renderer_scan p
      = Ret (match Re.search_group workshop_pattern (cmdline_str p) with
             | Some wallpaper_id => Some wallpaper_id
             | None => Re.search_group custom_pattern (cmdline_str p)
             end)).
Proof.
  unfold renderer_scan, matches_renderer, is_renderer_process, proc_name_of, cmdline_of.
  split; [|split; [|split]].
  - intros ->. reflexivity.
  - intros n -> Hn ->. simpl. rewrite Hn. reflexivity.
  - destruct (name p) as [n|]; [|congruence].
    destruct (cmdline p) as [args|]; [|congruence]. simpl.
    destruct (Text.contains "linux-wallpaperengine" n); simpl; [discriminate|].
    intros ->. reflexivity.
  - destruct (name p) as [n|]; [|discriminate]. simpl.
    destruct (Text.contains "linux-wallpaperengine" n); simpl.
    + intros _. by destruct (Re.search_group workshop_pattern (cmdline_str p)).
    + destruct (cmdline p) as [args|]; [|discriminate]. simpl.
      intros ->. by destruct (Re.search_group workshop_pattern (cmdline_str p)).
Qed.

(** C7 (as amended). The renderer-process probe scans the process table
    in the order of enumeration; PIDs play no part.  When the scan of
    every process before [p] ends without an identifier and without an
    exception, the scan of [p] decides: an identifier it extracts is the
    result of the probe, and an exception it raises ends the probe with
    [None], whatever the later processes are. *)
Theorem renderer_probe_selects_first_in_order
    (w : World) (before after : list ProcInfo) (p : ProcInfo) :
  processes w = (before ++ p :: after)%list ->
  Forall (fun q => renderer_scan q = Ret None) before ->
  (forall wallpaper_id,
      renderer_scan p = Ret (Some wallpaper_id) ->
      _detect_from_linux_wallpaperengine_process w = Some wallpaper_id)
  /\ (forall e,
        renderer_scan p = Raise e ->
        _detect_from_linux_wallpaperengine_process w = None).
Proof.
  intros Hprocs Hbefore. unfold _detect_from_linux_wallpaperengine_process.
  rewrite Hprocs. split.
  - intros wallpaper_id Hp. by rewrite (first_hit_at_first _ _ _ _ _ Hbefore Hp).
  - intros e Hp. by rewrite (first_hit_raises_at _ _ _ _ _ Hbefore Hp).
Qed.

Lemma renderer_probe_selects_first_in_order_witness :
  _detect_from_linux_wallpaperengine_process two_renderers = Some "11111111"
  /\ _detect_from_linux_wallpaperengine_process defunct_then_renderer = None.
Proof.
  split.
  - apply (renderer_probe_selects_first_in_order two_renderers []
             [process 200 "linux-wallpaperengine"
                ["linux-wallpaperengine"; "--bg"; "/steam/workshop/content/431960/22222222"]]
             (process 100 "linux-wallpaperengine"
                ["linux-wallpaperengine"; "--bg"; "/steam/workshop/content/431960/11111111"])
             eq_refl (List.Forall_nil _)).
    vm_compute. reflexivity.
  - apply (proj2 (renderer_probe_selects_first_in_order defunct_then_renderer []
                    [process 100 "linux-wallpaperengine"
                       ["linux-wallpaperengine"; "--bg";
                        "/steam/workshop/content/431960/11111111"]]
                    {| pid := 50; name := Some "sh"; cmdline := None; exe := None |}
                    eq_refl (List.Forall_nil _)) TypeError).
    reflexivity.
Defined.

(** C7 (counterexample). With two renderers running, PID 100 showing
    11111111 and PID 200 showing 22222222, both probes report 11111111, the
    wallpaper of the lower PID. *)
Lemma renderer_probe_ignores_pid :
  ~ (forall w : World,
       (1 < length (List.filter matches_renderer (processes w)))%nat ->
       _detect_from_linux_wallpaperengine_process w = renderer_id_of_highest_pid w).
Proof.
  intros Hclaim. specialize (Hclaim two_renderers).
  assert (Htwo : (1 < length (List.filter matches_renderer (processes two_renderers)))%nat)
    by (vm_compute; lia).
  specialize (Hclaim Htwo). vm_compute in Hclaim. discriminate Hclaim.
Qed.

(** The highest PID is what the performance monitor selects, for the
    process whose load it measures. *)
Lemma monitor_selects_highest_pid :
  _find_wallpaper_process (processes two_renderers) = Some 200.
Proof. vm_compute. reflexivity. Qed.

(** The engine's own scan at construction stops at the first match as
    well. *)
Lemma engine_scan_selects_first_in_order :
  current_wallpaper (wallpaper_engine (_detect_running_wallpaper two_renderers))
  = Some "11111111".
Proof. vm_compute. reflexivity. Qed.

(** C6. Verification accepts an identifier that no probe extracts.  With
    one renderer showing 1234567890, [_verify_wallpaper_process_running]
    answers [True] for 123456789, a proper substring of the command line,
    although the renderer probe extracts 1234567890 and the other two
    probes extract nothing. *)
Theorem verification_accepts_proper_substring :
  _verify_wallpaper_process_running "123456789" one_renderer = true
  /\ _detect_from_linux_wallpaperengine_process one_renderer = Some "1234567890"
  /\ _detect_from_video_wallpaper_process one_renderer = None
  /\ _detect_from_swww one_renderer = None
  /\ some_probe_extracts "123456789" one_renderer = false.
Proof. vm_compute. repeat split; reflexivity. Qed.

(** The probes read the process table and the compositor only. *)
Lemma probes_ignore_engine (w : World) (e : WallpaperEngine) :
  _detect_from_linux_wallpaperengine_process (with_engine w e)
    = _detect_from_linux_wallpaperengine_process w
  /\ _detect_from_video_wallpaper_process (with_engine w e)
    = _detect_from_video_wallpaper_process w
  /\ _detect_from_swww (with_engine w e) = _detect_from_swww w
  /\ forall wallpaper_id,
       _verify_wallpaper_process_running wallpaper_id (with_engine w e)
       = _verify_wallpaper_process_running wallpaper_id w.
Proof. repeat split; reflexivity. Qed.

(** A loop whose test never raises computes a disjunction. *)
Lemma any_hit_total (test : ProcInfo -> exc bool) (g : ProcInfo -> bool)
    (ps : list ProcInfo) :
  Forall (fun p => test p = Ret (g p)) ps ->
  any_hit test ps = Ret (existsb g ps).
Proof.
  induction 1 as [|p ps Hp _ IH]; [reflexivity|].
  simpl. rewrite Hp. simpl. destruct (g p); [reflexivity | exact IH].
Qed.

Lemma renderer_runs_total (wallpaper_id : string) (p : ProcInfo) :
  name p <> None -> cmdline p <> None ->
  renderer_runs wallpaper_id p
  = Ret (matches_renderer p && Text.contains wallpaper_id (cmdline_str p)).
Proof.
  intros Hn Hc. unfold renderer_runs, matches_renderer, is_renderer_process,
    proc_name_of, cmdline_of.
  destruct (name p) as [n|]; [|congruence].
  destruct (cmdline p) as [args|] eqn:Ec; [|congruence]. simpl.
  destruct (Text.contains "linux-wallpaperengine" n); reflexivity.
Qed.

Lemma video_runs_total (wallpaper_id : string) (p : ProcInfo) :
  name p <> None -> cmdline p <> None ->
  video_runs wallpaper_id p
  = Ret (matches_video p && Text.contains wallpaper_id (cmdline_str p)).
Proof.
  intros Hn Hc. unfold video_runs, matches_video, is_video_process,
    proc_name_of, cmdline_of.
  destruct (name p) as [n|]; [|congruence].
  destruct (cmdline p) as [args|] eqn:Ec; [|congruence]. simpl.
  destruct (Text.contains "mpvpaper" n); [reflexivity|]. simpl.
  destruct (existsb (Text.contains "mpvpaper") args); reflexivity.
Qed.

(** What the verification computes: the identifier occurs somewhere in
    the joined command line of a renderer or video process, or it is the
    identifier the compositor query yields. *)
Lemma verification_is_substring_test (wallpaper_id : string) (w : World) :
  fully_reported (processes w) ->
  _verify_wallpaper_process_running wallpaper_id w
  = existsb (fun p => matches_renderer p && Text.contains wallpaper_id (cmdline_str p))
            (processes w)
    || existsb (fun p => matches_video p && Text.contains wallpaper_id (cmdline_str p))
               (processes w)
    || _is_swww_wallpaper_active wallpaper_id w.
Proof.
  intros Hfull. unfold _verify_wallpaper_process_running.
  rewrite (any_hit_total (renderer_runs wallpaper_id)
             (fun p => matches_renderer p && Text.contains wallpaper_id (cmdline_str p))).
  2: { eapply Forall_impl; [exact Hfull|]. intros p [Hn Hc].
       apply renderer_runs_total; assumption. }
  rewrite (any_hit_total (video_runs wallpaper_id)
             (fun p => matches_video p && Text.contains wallpaper_id (cmdline_str p))).
  2: { eapply Forall_impl; [exact Hfull|]. intros p [Hn Hc].
       apply video_runs_total; assumption. }
  simpl. destruct (existsb _ _); [reflexivity|]. simpl.
  destruct (existsb _ _); reflexivity.
Qed.

End Probes.

(** ** Startup reconciliation *)

Section Reconciliation.

(** The first part of the restore leaves the playlist and its play flag as
    loaded, and the engine and the system as they are; it writes the
    widget, the timer and, when it clamps the cursor, the settings file. *)
Lemma restore_playlist_state_frame (w : World) :
  let w1 := restore_playlist_state w in
  is_playing (playlist_manager w1) = is_playing (playlist_manager w)
  /\ current_playlist (playlist_manager w1) = current_playlist (playlist_manager w)
  /\ item_data (playlist_widget w1) = item_data (playlist_widget w)
  /\ settings_writable w1 = settings_writable w
  /\ wallpaper_engine w1 = wallpaper_engine w
  /\ processes w1 = processes w
  /\ swww_query w1 = swww_query w.
Proof.
  unfold restore_playlist_state.
  destruct (negb (bool_decide _)); [|by repeat split].
  set (w1 := if _ || _ then _ else w).
  assert (H1 : is_playing (playlist_manager w1) = is_playing (playlist_manager w)
               /\ current_playlist (playlist_manager w1) = current_playlist (playlist_manager w)
               /\ playlist_widget w1 = playlist_widget w
               /\ settings_writable w1 = settings_writable w
               /\ wallpaper_engine w1 = wallpaper_engine w
               /\ processes w1 = processes w
               /\ swww_query w1 = swww_query w).
  { unfold w1. destruct (_ || _); [|by repeat split].
    rewrite save_settings_manager.
    destruct (save_settings_frame
                (with_manager w (set_current_index (playlist_manager w) 0)))
      as (He & Hg & _ & _ & Hw & Hp & Hs).
    simpl in *. rewrite He, Hg, Hw, Hp, Hs. by repeat split. }
  destruct H1 as (Hp & Hl & Hg & Hw & He & Hps & Hs). simpl.
  destruct (is_playing (playlist_manager w1)) eqn:E; simpl.
  - destruct (get_current_wallpaper _) as [c|]; [destruct (Text.truthy c)|];
      simpl; rewrite ?E, ?Hg; repeat split; congruence.
  - rewrite ?E, ?Hg. repeat split; congruence.
Qed.

(** The probes and the verification read the process table and the
    compositor, nothing else. *)
Lemma probes_read_environment (w1 w2 : World) :
  processes w1 = processes w2 ->
  swww_query w1 = swww_query w2 ->
  _detect_from_linux_wallpaperengine_process w1
    = _detect_from_linux_wallpaperengine_process w2
  /\ _detect_from_video_wallpaper_process w1
    = _detect_from_video_wallpaper_process w2
  /\ _detect_from_swww w1 = _detect_from_swww w2
  /\ forall wallpaper_id,
       _verify_wallpaper_process_running wallpaper_id w1
       = _verify_wallpaper_process_running wallpaper_id w2.
Proof.
  intros Hp Hs.
  unfold _detect_from_linux_wallpaperengine_process,
    _detect_from_video_wallpaper_process, _verify_wallpaper_process_running,
    _is_swww_wallpaper_active, _detect_from_swww.
  rewrite Hp, Hs. by repeat split.
Qed.




(** With no verified identifier cached by the engine, the detection
    reports the live evidence: the first probe, in priority order, that
    yields an identifier. *)
Lemma detect_reports_live_evidence (w : World) (found : string) :
  Text.truthy_opt (current_wallpaper (wallpaper_engine w)) = false ->
  live_evidence w = Some found ->
  _detect_active_wallpaper w = (Some found, w).
Proof.
  intros Hcache Hlive. unfold _detect_active_wallpaper, verified_engine_wallpaper.
  assert (Hstep : match current_wallpaper (wallpaper_engine w) with
                  | Some engine_wallpaper =>
                      if Text.truthy engine_wallpaper
                      then if _verify_wallpaper_process_running engine_wallpaper w
                           then (Some engine_wallpaper, w)
                           else (None, with_engine w
                                         (set_current_wallpaper_ref (wallpaper_engine w) None))
                      else (None, w)
                  | None => (None, w)
                  end = (None, w)).
  { destruct (current_wallpaper (wallpaper_engine w)) as [c|]; [|reflexivity].
    simpl in Hcache. rewrite Hcache. reflexivity. }
  rewrite Hstep. unfold live_evidence in Hlive.
  destruct (Text.truthy_opt (_detect_from_linux_wallpaperengine_process w));
    [by rewrite Hlive|].
  destruct (Text.truthy_opt (_detect_from_video_wallpaper_process w));
    [by rewrite Hlive|].
  destruct (Text.truthy_opt (_detect_from_swww w)); [by rewrite Hlive | discriminate].
Qed.

Lemma add_wallpaper_items (wallpaper_id x : string) (g : PlaylistWidget) :
  x ∈ item_data (snd (add_wallpaper_to_playlist wallpaper_id g)) ->
  x ∈ item_data g \/ x = wallpaper_id.
Proof.
  unfold add_wallpaper_to_playlist.
  destruct (negb (Text.truthy wallpaper_id)); [by left|].
  destruct (bool_decide _); [by left|]. simpl.
  rewrite elem_of_app, list_elem_of_singleton. tauto.
Qed.

Lemma add_all_items (l : list string) :
  forall (g : PlaylistWidget) (x : string),
    x ∈ item_data (foldl (fun g wallpaper_id => snd (add_wallpaper_to_playlist wallpaper_id g))
                         g l) ->
    x ∈ item_data g \/ x ∈ l.
Proof.
  induction l as [|y l IH]; intros g x Hx; simpl in Hx; [by left|].
  destruct (IH _ _ Hx) as [Hg|Hl].
  - destruct (add_wallpaper_items _ _ _ Hg) as [Hg'| ->]; [by left|].
    right. apply list_elem_of_here.
  - right. by apply list_elem_of_further.
Qed.

(** What [_load_current_playlist] puts into an empty playlist widget are
    entries of the manager's current playlist. *)
Lemma loaded_widget_items (w : World) (x : string) :
  item_data (playlist_widget w) = [] ->
  x ∈ get_playlist_items (playlist_widget (_load_current_playlist w)) ->
  x ∈ current_playlist (playlist_manager (_load_current_playlist w)).
Proof.
  intros Hempty Hx. unfold get_playlist_items in Hx.
  apply list_elem_of_In, filter_In in Hx as [Hx _]. apply list_elem_of_In in Hx.
  unfold _load_current_playlist in *.
  destruct (playlists (playlist_manager w) !! "current") as [saved|].
  - destruct (negb (bool_decide (saved = []))).
    + simpl in *. apply add_all_items in Hx as [Hg|Hl]; [|exact Hl].
      rewrite Hempty in Hg. by apply elem_of_nil in Hg.
    + rewrite Hempty in Hx. by apply elem_of_nil in Hx.
  - rewrite Hempty in Hx. by apply elem_of_nil in Hx.
Qed.

(** Every branch of the sync ends with a save by the playlist manager, so
    the settings file holds no ["wallpaper_state"] afterwards. *)
Lemma sync_forgets_wallpaper_state (current : string) (w : World) :
  settings_writable w = true ->
  exists data,
    settings_file (sync_with_detected current w) = Json (JObject data)
    /\ k_wallpaper_state data = None.
Proof.
  intros Hw. unfold sync_with_detected.
  destruct (is_playing (playlist_manager w)
            && bool_decide (current ∈ get_playlist_items (playlist_widget w))).
  - rewrite save_settings_written by exact Hw. simpl. eexists. split; reflexivity.
  - destruct (is_playing (playlist_manager w) && negb _).
    + rewrite save_settings_written by exact Hw. simpl. eexists. split; reflexivity.
    + rewrite save_settings_written by exact Hw. simpl. eexists. split; reflexivity.
Qed.







(** Without a process for the engine's cached wallpaper and without
    evidence from the probes, the detection clears the engine's cache and
    falls through to the playlist manager. *)
Lemma detect_falls_through (w : World) (A : string) :
  current_wallpaper (wallpaper_engine w) = Some A ->
  Text.truthy A = true ->
  _detect_from_linux_wallpaperengine_process w = None ->
  _detect_from_video_wallpaper_process w = None ->
  _detect_from_swww w = None ->
  _verify_wallpaper_process_running A w = false ->
  _detect_active_wallpaper w
  = verified_playlist_wallpaper
      (with_engine w (set_current_wallpaper_ref (wallpaper_engine w) None)).
Proof.
  intros HA Ht H1 H2 H3 HvA.
  set (e := set_current_wallpaper_ref (wallpaper_engine w) None).
  destruct (probes_ignore_engine w e) as (P1 & P2 & P3 & _).
  unfold _detect_active_wallpaper, verified_engine_wallpaper.
  rewrite HA, Ht, HvA. fold e. rewrite P1, H1, P2, H2, P3, H3. reflexivity.
Qed.

(** The last resort of the detection, when no process is found for the
    current entry of the playlist: nothing is returned, and an entry that
    was cached as current is cleared. *)
Lemma unverified_playlist_entry (w : World) :
  (forall P, get_current_wallpaper (playlist_manager w) = Some P ->
             _verify_wallpaper_process_running P w = false) ->
  let w' := snd (verified_playlist_wallpaper w) in
  fst (verified_playlist_wallpaper w) = None
  /\ wallpaper_engine w' = wallpaper_engine w
  /\ (Text.truthy_opt (get_current_wallpaper (playlist_manager w)) = true ->
      is_playing (playlist_manager w') = false
      /\ current_index (playlist_manager w') = 0).
Proof.
  intros HvP. unfold verified_playlist_wallpaper.
  destruct (get_current_wallpaper (playlist_manager w)) as [P|] eqn:EP.
  - destruct (Text.truthy P) eqn:EtP.
    + rewrite (HvP P eq_refl). simpl. rewrite save_settings_manager.
      destruct (save_settings_frame (clear_current_wallpaper w)) as (He & _).
      simpl in He. rewrite He. by repeat split.
    + simpl. rewrite EtP.
      split; [reflexivity|]. split; [reflexivity|]. intros; discriminate.
  - simpl. split; [reflexivity|]. split; [reflexivity|]. intros; discriminate.
Qed.

(** The detection alone, from any state: without a process for the
    cached wallpaper A and for the current entry of the playlist, and with
    nothing from the probes, it returns [None] and clears the engine's
    cached identifier; a playlist entry that was cached as current is
    cleared too (cursor 0, not playing). *)
Lemma detect_discards_stale_wallpaper (w : World) (A : string) :
  current_wallpaper (wallpaper_engine w) = Some A ->
  Text.truthy A = true ->
  _detect_from_linux_wallpaperengine_process w = None ->
  _detect_from_video_wallpaper_process w = None ->
  _detect_from_swww w = None ->
  _verify_wallpaper_process_running A w = false ->
  (forall P, get_current_wallpaper (playlist_manager w) = Some P ->
             _verify_wallpaper_process_running P w = false) ->
  let w' := snd (_detect_active_wallpaper w) in
  fst (_detect_active_wallpaper w) = None
  /\ current_wallpaper (wallpaper_engine w') = None
  /\ playlist_widget w' = playlist_widget w
  /\ playlist_timer w' = playlist_timer w
  /\ (Text.truthy_opt (get_current_wallpaper (playlist_manager w)) = true ->
      is_playing (playlist_manager w') = false
      /\ current_index (playlist_manager w') = 0).
Proof.
  intros HA Ht H1 H2 H3 HvA HvP.
  rewrite (detect_falls_through w A HA Ht H1 H2 H3 HvA).
  set (w1 := with_engine w (set_current_wallpaper_ref (wallpaper_engine w) None)).
  destruct (unverified_playlist_entry w1) as (Hnone & He & Hcleared).
  { intros P HP. exact (HvP P HP). }
  split; [exact Hnone|]. split; [rewrite He; reflexivity|].
  split; [|split; [|exact Hcleared]].
  - unfold verified_playlist_wallpaper.
    destruct (get_current_wallpaper (playlist_manager w1)) as [P|]; [|reflexivity].
    destruct (Text.truthy P); [|reflexivity].
    destruct (_verify_wallpaper_process_running P w1); [reflexivity|].
    by destruct (save_settings_frame (clear_current_wallpaper w1)) as (_ & Hg & _).
  - unfold verified_playlist_wallpaper.
    destruct (get_current_wallpaper (playlist_manager w1)) as [P|]; [|reflexivity].
    destruct (Text.truthy P); [|reflexivity].
    destruct (_verify_wallpaper_process_running P w1); [reflexivity|].
    by destruct (save_settings_frame (clear_current_wallpaper w1)) as (_ & _ & Htimer & _).
Qed.

(** With nothing detected the restore ends with the "no active
    wallpaper" notice. *)
Lemma restore_without_detection (w : World) :
  fst (_detect_active_wallpaper (restore_playlist_state w)) = None ->
  _restore_app_state w
  = with_toast (snd (_detect_active_wallpaper (restore_playlist_state w)))
               ToastNoActiveWallpaper.
Proof.
  unfold _restore_app_state.
  destruct (_detect_active_wallpaper (restore_playlist_state w)) as [[c|] w2];
    simpl; [discriminate | reflexivity].
Qed.

(** A playlist that was not playing gets neither a timer nor a current
    wallpaper from the first part of the restore. *)
Lemma restore_of_idle_playlist (w : World) :
  is_playing (playlist_manager w) = false ->
  shown_wallpaper (playlist_widget (restore_playlist_state w))
  = shown_wallpaper (playlist_widget w)
  /\ playlist_timer (restore_playlist_state w) = playlist_timer w.
Proof.
  intros Hidle. unfold restore_playlist_state.
  destruct (negb (bool_decide _)); [|by split].
  set (w1 := if _ || _ then _ else w).
  assert (is_playing (playlist_manager w1) = false
          /\ playlist_widget w1 = playlist_widget w
          /\ playlist_timer w1 = playlist_timer w) as (Hp & Hg & Htimer).
  { unfold w1. destruct (_ || _); [|by repeat split].
    rewrite save_settings_manager.
    destruct (save_settings_frame
                (with_manager w (set_current_index (playlist_manager w) 0)))
      as (_ & Hg & Htimer & _).
    simpl in *. by rewrite Hg, Htimer. }
  cbv zeta. cbn [playlist_manager with_widget]. rewrite Hp. simpl.
  by rewrite Hg, Htimer.
Qed.

(** C2 (as amended). A cached wallpaper A without a live process is not
    trusted.  When the engine holds A, the renderer scan, the video-tool
    scan and the compositor query yield nothing, and the process
    verification finds no process for A nor for the entry the restored
    playlist has under its cursor, then the detection of the startup
    reconciliation returns [None] and clears the engine's cached
    identifier, and the reconciliation ends with the notice that no
    wallpaper is active and with the cache empty.  A playlist entry that
    was cached as current is cleared too (cursor 0, not playing).  When
    the persisted playlist was not playing, the panel shows the current
    wallpaper it showed before, and the timer is as it was. *)
Theorem stale_wallpaper_is_discarded (w : World) (A : string) :
  current_wallpaper (wallpaper_engine w) = Some A ->
  Text.truthy A = true ->
  _detect_from_linux_wallpaperengine_process w = None ->
  _detect_from_video_wallpaper_process w = None ->
  _detect_from_swww w = None ->
  _verify_wallpaper_process_running A w = false ->
  (forall P, get_current_wallpaper (playlist_manager (restore_playlist_state w)) = Some P ->
             _verify_wallpaper_process_running P w = false) ->
  let detected := _detect_active_wallpaper (restore_playlist_state w) in
  let w' := _restore_app_state w in
  fst detected = None
  /\ current_wallpaper (wallpaper_engine (snd detected)) = None
  /\ w' = with_toast (snd detected) ToastNoActiveWallpaper
  /\ current_wallpaper (wallpaper_engine w') = None
  /\ last_toast w' = Some ToastNoActiveWallpaper
  /\ (Text.truthy_opt (get_current_wallpaper (playlist_manager (restore_playlist_state w)))
      = true ->
      is_playing (playlist_manager w') = false
      /\ current_index (playlist_manager w') = 0)
  /\ (is_playing (playlist_manager w) = false ->
      shown_wallpaper (playlist_widget w') = shown_wallpaper (playlist_widget w)
      /\ playlist_timer w' = playlist_timer w).
Proof.
  intros HA Ht H1 H2 H3 HvA HvP detected w'.
  destruct (restore_playlist_state_frame w) as (_ & _ & _ & _ & He & Hps & Hs).
  destruct (probes_read_environment (restore_playlist_state w) w Hps Hs)
    as (P1 & P2 & P3 & P4).
  destruct (detect_discards_stale_wallpaper (restore_playlist_state w) A)
    as (Hnone & Hclear & Hg & Htimer & Hcleared);
    rewrite ?He, ?P1, ?P2, ?P3, ?P4; try assumption.
  { intros P HP. rewrite P4. by apply HvP. }
  fold detected in Hnone, Hclear, Hg, Htimer, Hcleared.
  assert (w' = with_toast (snd detected) ToastNoActiveWallpaper) as Hw'
    by (by apply restore_without_detection).
  split; [exact Hnone|]. split; [exact Hclear|]. split; [exact Hw'|].
  rewrite Hw'. cbn [wallpaper_engine last_toast playlist_manager playlist_widget
                    playlist_timer with_toast].
  split; [exact Hclear|]. split; [reflexivity|]. split; [exact Hcleared|].
  intros Hidle. rewrite Hg, Htimer. by apply restore_of_idle_playlist.
Qed.

Lemma stale_wallpaper_is_discarded_witness :
  fst (_detect_active_wallpaper (restore_playlist_state stale_world)) = None
  /\ current_wallpaper (wallpaper_engine (_restore_app_state stale_world)) = None
  /\ last_toast (_restore_app_state stale_world) = Some ToastNoActiveWallpaper
  /\ shown_wallpaper (playlist_widget (_restore_app_state stale_world)) = None.
Proof.
  assert (Hno : forall P,
             get_current_wallpaper (playlist_manager (restore_playlist_state stale_world))
             = Some P ->
             _verify_wallpaper_process_running P stale_world = false).
  { intros P _. reflexivity. }
  pose proof (stale_wallpaper_is_discarded stale_world "A"
                eq_refl eq_refl eq_refl eq_refl eq_refl eq_refl Hno)
    as (Hnone & _ & _ & Hclear & Htoast & _ & Hidle).
  split; [exact Hnone|]. split; [exact Hclear|]. split; [exact Htoast|].
  exact (proj1 (Hidle eq_refl)).
Defined.

(** C2 (counterexample).  With 2222222222 on the engine's record and a
    renderer that shows 11111111, no probe finds a process for
    2222222222; the detection clears the record, and returns 11111111,
    which the reconciliation shows as current.  With 1234567890 on record
    and the renderer the application started for it still running, none
    of the three probes yields anything, since that command line names
    the wallpaper as a bare identifier; the detection trusts the record
    all the same, because its verification finds the process.  Likewise,
    with a stale record and no result of the probes, the detection
    returns the current entry of the playlist when the verification finds
    a process for it. *)
Lemma verified_cache_is_trusted :
  (current_wallpaper (wallpaper_engine other_wallpaper_live) = Some "2222222222"
   /\ _detect_from_linux_wallpaperengine_process other_wallpaper_live = Some "11111111"
   /\ _detect_from_video_wallpaper_process other_wallpaper_live = None
   /\ _detect_from_swww other_wallpaper_live = None
   /\ _verify_wallpaper_process_running "2222222222" other_wallpaper_live = false
   /\ fst (_detect_active_wallpaper (restore_playlist_state other_wallpaper_live))
      = Some "11111111"
   /\ shown_wallpaper (playlist_widget (_restore_app_state other_wallpaper_live))
      = Some "11111111")
  /\ (current_wallpaper (wallpaper_engine backed_cache_world) = Some "1234567890"
      /\ _detect_from_linux_wallpaperengine_process backed_cache_world = None
      /\ _detect_from_video_wallpaper_process backed_cache_world = None
      /\ _detect_from_swww backed_cache_world = None
      /\ fst (_detect_active_wallpaper (restore_playlist_state backed_cache_world))
         = Some "1234567890"
      /\ current_wallpaper (wallpaper_engine (_restore_app_state backed_cache_world))
         = Some "1234567890"
      /\ shown_wallpaper (playlist_widget (_restore_app_state backed_cache_world))
         = Some "1234567890")
  /\ (current_wallpaper (wallpaper_engine backed_entry_world) = Some "2222222222"
      /\ _detect_from_linux_wallpaperengine_process backed_entry_world = None
      /\ _detect_from_video_wallpaper_process backed_entry_world = None
      /\ _detect_from_swww backed_entry_world = None
      /\ _verify_wallpaper_process_running "2222222222" backed_entry_world = false
      /\ fst (_detect_active_wallpaper (restore_playlist_state backed_entry_world))
         = Some "1234567890"
      /\ shown_wallpaper (playlist_widget (_restore_app_state backed_entry_world))
         = Some "1234567890").
Proof. vm_compute. repeat split; reflexivity. Qed.

(** The persisted playing playlist A, B of a session whose renderer is
    gone: the playlist-restore step starts the timer and puts A on the
    widget before the detection runs, and the branch taken when nothing is
    detected leaves both in place. *)
Lemma restore_of_stale_playing_playlist :
  let w := with_manager stale_world (manager_with ["A"; "B"] 0 true) in
  let w' := _restore_app_state w in
  last_toast w' = Some ToastNoActiveWallpaper
  /\ current_wallpaper (wallpaper_engine w') = None
  /\ is_playing (playlist_manager w') = false
  /\ playlist_timer w' = Some 60000
  /\ shown_playing (playlist_widget w') = true
  /\ shown_wallpaper (playlist_widget w') = Some "A".
Proof. vm_compute. repeat split; reflexivity. Qed.

Lemma current_wallpaper_in_playlist (m : PlaylistManager) (P : string) :
  get_current_wallpaper m = Some P -> P ∈ current_playlist m.
Proof.
  unfold get_current_wallpaper. destruct (_ && _); [|discriminate].
  apply list_elem_of_lookup_2.
Qed.

(** The whole restore, when no process backs the cached wallpaper nor any
    entry of the playlist: it ends with the "no active wallpaper" notice
    and an empty engine cache. *)
Lemma restore_discards_stale_wallpaper (w : World) (A : string) :
  current_wallpaper (wallpaper_engine w) = Some A ->
  Text.truthy A = true ->
  _detect_from_linux_wallpaperengine_process w = None ->
  _detect_from_video_wallpaper_process w = None ->
  _detect_from_swww w = None ->
  _verify_wallpaper_process_running A w = false ->
  (forall P, P ∈ current_playlist (playlist_manager w) ->
             _verify_wallpaper_process_running P w = false) ->
  last_toast (_restore_app_state w) = Some ToastNoActiveWallpaper
  /\ current_wallpaper (wallpaper_engine (_restore_app_state w)) = None.
Proof.
  intros HA Ht H1 H2 H3 HvA HvP.
  destruct (restore_playlist_state_frame w) as (_ & Hl & _ & _ & He & Hps & Hs).
  destruct (probes_read_environment (restore_playlist_state w) w Hps Hs)
    as (P1 & P2 & P3 & P4).
  set (w1 := restore_playlist_state w) in *.
  assert (Hdetect : _detect_active_wallpaper w1
                    = verified_playlist_wallpaper
                        (with_engine w1 (set_current_wallpaper_ref (wallpaper_engine w1) None))).
  { apply (detect_falls_through w1 A); rewrite ?He, ?P1, ?P2, ?P3, ?P4; assumption. }
  destruct (unverified_playlist_entry
              (with_engine w1 (set_current_wallpaper_ref (wallpaper_engine w1) None)))
    as (Hnone & Hengine & _).
  { intros P HP. change (_verify_wallpaper_process_running P w1 = false).
    rewrite P4. apply HvP. rewrite <- Hl.
    apply current_wallpaper_in_playlist, HP. }
  rewrite restore_without_detection by (fold w1; rewrite Hdetect; exact Hnone).
  fold w1. rewrite Hdetect. simpl. split; [reflexivity|]. rewrite Hengine. reflexivity.
Qed.

End Reconciliation.

(** ** Random advance and the recency buffer *)

Section Shuffle.

Lemma last_n_length {A} (n : nat) (l : list A) : (length (last_n n l) <= n)%nat.
Proof. unfold last_n. rewrite length_drop. lia. Qed.

Lemma last_n_snoc {A} (n : nat) (l : list A) (x : A) :
  last_n (S n) (l ++ [x]) = (last_n n l ++ [x])%list.
Proof.
  unfold last_n. rewrite length_app. simpl.
  replace (length l + 1 - S n)%nat with (length l - n)%nat by lia.
  apply drop_app_le. lia.
Qed.

Lemma last_n_shorter {A} (n m : nat) (l : list A) :
  (n <= m)%nat -> last_n n (last_n m l) = last_n n l.
Proof.
  intros Hnm. unfold last_n. rewrite drop_drop, length_drop. f_equal. lia.
Qed.

(** The last five entries after an append depend on the last five
    before it only. *)
Lemma last_n_snoc_cong (a b : list string) (x : string) :
  last_n 5 a = last_n 5 b -> last_n 5 (a ++ [x]) = last_n 5 (b ++ [x]).
Proof.
  intros Hab. rewrite !last_n_snoc.
  rewrite <- (last_n_shorter 4 5 a), <- (last_n_shorter 4 5 b) by lia.
  rewrite Hab. reflexivity.
Qed.

(** Dropping the oldest entry of a buffer of more than ten leaves its last
    five entries. *)
Lemma last_n_drop_oldest (l : list string) :
  (10 < length l)%nat -> last_n 5 (drop 1 l) = last_n 5 l.
Proof.
  intros Hlen. unfold last_n. rewrite drop_drop, length_drop. f_equal. lia.
Qed.

(** With six distinct identifiers in the playlist, five recent picks
    cannot exclude all of them. *)
Lemma available_not_empty (playlist recent : list string) :
  (6 <= distinct_count playlist)%nat ->
  (length recent <= 5)%nat ->
  List.filter (fun w => negb (bool_decide (w ∈ recent))) playlist <> [].
Proof.
  intros Hdistinct Hrecent Hempty.
  assert (Hall : forall x, x ∈ remove_dups playlist -> x ∈ recent).
  { intros x Hx. rewrite elem_of_remove_dups in Hx.
    destruct (decide (x ∈ recent)) as [Hin|Hout]; [exact Hin|].
    exfalso. apply list_elem_of_In in Hx.
    assert (Hf : In x (List.filter (fun w => negb (bool_decide (w ∈ recent))) playlist)).
    { apply filter_In. split; [exact Hx|].
      rewrite bool_decide_eq_false_2 by exact Hout. reflexivity. }
    rewrite Hempty in Hf. destruct Hf. }
  pose proof (submseteq_length _ _
                (NoDup_submseteq _ _ (NoDup_remove_dups playlist) Hall)) as Hle.
  unfold distinct_count in Hdistinct. lia.
Qed.

(** Every element of the sequence is the outcome of [random.choice] for
    some draw. *)
Lemma choice_covers (seq : list string) (i : nat) (x : string) :
  seq !! i = Some x -> Flow.choice seq i = Ret x.
Proof.
  intros Hx. unfold Flow.choice.
  rewrite Nat.mod_small by (eapply lookup_lt_Some, Hx).
  rewrite Hx. reflexivity.
Qed.

Lemma choice_of_nonempty (seq : list string) (draw : nat) :
  seq <> [] -> exists x, Flow.choice seq draw = Ret x /\ x ∈ seq.
Proof.
  intros Hne. unfold Flow.choice.
  assert (Hlt : (draw mod length seq < length seq)%nat).
  { apply Nat.mod_upper_bound. destruct seq; [congruence | simpl; lia]. }
  destruct (lookup_lt_is_Some_2 seq _ Hlt) as [x Hx].
  exists x. rewrite Hx. split; [reflexivity|].
  eapply list_elem_of_lookup_2, Hx.
Qed.

(** One random pick: it is an entry of the playlist outside the last five
    entries of the buffer, and the buffer then ends with it. *)
Lemma random_pick_spec (draw : nat) (st : Flow.Store) :
  (6 <= distinct_count (Flow.current_playlist (Flow.state st)))%nat ->
  exists x st',
    Flow._Get_Random_Wallpaper draw st = Ret (x, st')
    /\ x ∈ Flow.current_playlist (Flow.state st)
    /\ (x ∉ last_n 5 (Flow.shuffle_history (Flow.state st)))
    /\ Flow.current_playlist (Flow.state st') = Flow.current_playlist (Flow.state st)
    /\ last_n 5 (Flow.shuffle_history (Flow.state st'))
       = last_n 5 (Flow.shuffle_history (Flow.state st) ++ [x]).
Proof.
  intros Hdistinct. unfold Flow._Get_Random_Wallpaper.
  set (playlist := Flow.current_playlist (Flow.state st)) in *.
  set (history := Flow.shuffle_history (Flow.state st)).
  set (available := List.filter _ playlist).
  assert (Hne : available <> [])
    by (apply available_not_empty; [exact Hdistinct | apply last_n_length]).
  rewrite bool_decide_eq_false_2 by exact Hne.
  destruct (choice_of_nonempty available draw Hne) as (x & Hx & Hin).
  rewrite Hx. simpl.
  apply list_elem_of_In, filter_In in Hin as [Hin Hout].
  apply negb_true_iff, bool_decide_eq_false in Hout.
  eexists x, _. split; [reflexivity|].
  split; [apply list_elem_of_In, Hin|]. split; [exact Hout|].
  split.
  - unfold Flow._Save_Settings. destruct (Flow.writable _); reflexivity.
  - assert (Hhist : forall st0, Flow.shuffle_history (Flow.state (Flow._Save_Settings st0))
                               = Flow.shuffle_history (Flow.state st0)).
    { intros st0. unfold Flow._Save_Settings. destruct (Flow.writable st0); reflexivity. }
    rewrite Hhist. simpl.
    destruct (10 <? length (history ++ [x]))%nat eqn:Hcap; [|reflexivity].
    apply last_n_drop_oldest. apply Nat.ltb_lt in Hcap. exact Hcap.
Qed.

Lemma distinct_count_nonempty (l : list string) :
  (6 <= distinct_count l)%nat -> l <> [].
Proof. intros H ->. unfold distinct_count in H. simpl in H. lia. Qed.

Lemma random_run_spec (draws : list nat) :
  forall (st : Flow.Store) (log : list string),
    (6 <= distinct_count (Flow.current_playlist (Flow.state st)))%nat ->
    last_n 5 (Flow.shuffle_history (Flow.state st)) = last_n 5 log ->
    exists picks st',
      Flow.random_run draws st = Ret (picks, st')
      /\ length picks = length draws
      /\ avoids_recent log picks.
Proof.
  induction draws as [|draw rest IH]; intros st log Hdistinct Hlog.
  - exists [], st. split; [reflexivity|]. split; [reflexivity|].
    intros k x Hk. rewrite lookup_nil in Hk. discriminate.
  - destruct (random_pick_spec draw st Hdistinct) as (x & st1 & Hpick & _ & Hout & Hpl & Hhist).
    assert (Hlog1 : last_n 5 (Flow.shuffle_history (Flow.state st1)) = last_n 5 (log ++ [x]))
      by (rewrite Hhist; apply last_n_snoc_cong, Hlog).
    rewrite <- Hpl in Hdistinct.
    destruct (IH st1 (log ++ [x])%list Hdistinct Hlog1) as (picks & st2 & Hrun & Hlen & Havoid).
    exists (x :: picks), st2. split; [|split].
    + simpl. unfold Flow.Get_Next_Wallpaper.
      rewrite bool_decide_eq_false_2
        by (apply distinct_count_nonempty; rewrite <- Hpl; exact Hdistinct).
      rewrite Hpick. simpl. rewrite Hrun. reflexivity.
    + simpl. rewrite Hlen. reflexivity.
    + intros [|k] y Hk; simpl in Hk.
      * inversion Hk; subst. simpl. rewrite app_nil_r, <- Hlog. exact Hout.
      * simpl. specialize (Havoid k y Hk).
        rewrite <- app_assoc in Havoid. exact Havoid.
Qed.

(** C4 (as amended). In the refactored flow, for every playlist with at
    least six distinct identifiers and every outcome of the random
    choices, a run of consecutive random advances returns one identifier
    per call, and none of them equals one of the five picks before it. *)
Theorem random_advance_avoids_recent (draws : list nat) (st : Flow.Store) :
  (6 <= distinct_count (Flow.current_playlist (Flow.state st)))%nat ->
  exists picks st',
    Flow.random_run draws st = Ret (picks, st')
    /\ length picks = length draws
    /\ avoids_recent (Flow.shuffle_history (Flow.state st)) picks.
Proof.
  intros Hdistinct. apply random_run_spec; [exact Hdistinct | reflexivity].
Qed.

Lemma random_advance_avoids_recent_witness :
  exists picks st',
    Flow.random_run [3; 1; 4; 1; 5; 9; 2; 6; 5; 3]%nat
      (flow_store ["a"; "b"; "c"; "d"; "e"; "f"]) = Ret (picks, st')
    /\ length picks = 10%nat
    /\ avoids_recent [] picks.
Proof.
  apply (random_advance_avoids_recent [3; 1; 4; 1; 5; 9; 2; 6; 5; 3]%nat
           (flow_store ["a"; "b"; "c"; "d"; "e"; "f"])).
  vm_compute. lia.
Defined.

(** C4 (counterexample). With six entries but five distinct identifiers
    the sixth pick of the refactored flow repeats the fifth; and the
    playlist manager's random advance, which keeps no recency buffer,
    returns the same identifier twice in a row on six distinct entries. *)
Lemma random_advance_repeats :
  (exists picks st',
      (6 <= length ["a"; "b"; "c"; "d"; "e"; "e"])%nat
      /\ ~ (distinct_count ["a"; "b"; "c"; "d"; "e"; "e"] < 5)%nat
      /\ Flow.random_run [0; 0; 0; 0; 0; 4]%nat
           (flow_store ["a"; "b"; "c"; "d"; "e"; "e"]) = Ret (picks, st')
      /\ ~ avoids_recent [] picks)
  /\ fst (manager_random_run [0; 0]%nat
            (with_manager blank_world
               (manager_with ["a"; "b"; "c"; "d"; "e"; "f"] 0 false)))
     = [Some "a"; Some "a"].
Proof.
  split; [|vm_compute; reflexivity].
  eexists _, _. split; [simpl; lia|]. split; [vm_compute; lia|].
  split; [vm_compute; reflexivity|].
  intros Havoid. apply (Havoid 5%nat "e" eq_refl).
  apply (bool_decide_unpack _). vm_compute. exact I.
Qed.

End Shuffle.

(** ** More of the playlist manager *)

Section RecentList.

Lemma remove_first_elem (x y : string) (l : list string) :
  y ∈ remove_first x l -> y ∈ l.
Proof.
  induction l as [|z l IH]; simpl; [done|].
  destruct (String.eqb z x).
  - intros Hy. by apply list_elem_of_further.
  - rewrite !elem_of_cons. tauto.
Qed.

Lemma remove_first_NoDup (x : string) (l : list string) :
  NoDup l -> NoDup (remove_first x l).
Proof.
  induction 1 as [|z l Hz Hl IH]; simpl; [constructor|].
  destruct (String.eqb z x); [exact Hl|].
  constructor; [|exact IH]. intros Hin. apply Hz. by eapply remove_first_elem.
Qed.

Lemma remove_first_gone (x : string) (l : list string) :
  NoDup l -> x ∉ remove_first x l.
Proof.
  induction 1 as [|z l Hz Hl IH]; simpl; [apply not_elem_of_nil|].
  destruct (String.eqb z x) eqn:E.
  - apply String.eqb_eq in E. by subst.
  - apply String.eqb_neq in E. rewrite elem_of_cons. intros [->|Hin]; [done|]. by apply IH.
Qed.

Lemma last_n_elem {A} (n : nat) (l : list A) (x : A) : x ∈ last_n n l -> x ∈ l.
Proof. unfold last_n. intros Hx. eapply elem_of_sublist; [exact Hx|apply sublist_drop]. Qed.

Lemma last_n_NoDup {A} (n : nat) (l : list A) : NoDup l -> NoDup (last_n n l).
Proof. unfold last_n. intros Hl. eapply sublist_NoDup; [exact Hl|apply sublist_drop]. Qed.

Lemma last_n_all {A} (n : nat) (l : list A) : (length l <= n)%nat -> last_n n l = l.
Proof. intros Hl. unfold last_n. replace (length l - n)%nat with 0%nat by lia. reflexivity. Qed.

Lemma recent_with_last (x : string) (l : list string) : last (recent_with x l) = Some x.
Proof.
  unfold recent_with. destruct (20 <? _)%nat.
  - rewrite (last_n_snoc 19). apply last_snoc.
  - apply last_snoc.
Qed.

Lemma recent_with_length (x : string) (l : list string) : (length (recent_with x l) <= 20)%nat.
Proof.
  unfold recent_with. destruct (20 <? _)%nat eqn:E.
  - apply last_n_length.
  - apply Nat.ltb_ge in E. exact E.
Qed.

Lemma recent_with_elem (x y : string) (l : list string) :
  y ∈ recent_with x l -> y = x \/ y ∈ l.
Proof.
  unfold recent_with. intros Hy.
  assert (y ∈ ((if bool_decide (x ∈ l) then remove_first x l else l) ++ [x])%list) as Hy'.
  { destruct (20 <? _)%nat; [by eapply last_n_elem|exact Hy]. }
  apply elem_of_app in Hy' as [Hy'|Hy'].
  - right. destruct (bool_decide _); [by eapply remove_first_elem|exact Hy'].
  - left. by apply list_elem_of_singleton in Hy'.
Qed.

Lemma recent_with_NoDup (x : string) (l : list string) :
  NoDup l -> NoDup (recent_with x l).
Proof.
  intros Hl. unfold recent_with.
  assert (NoDup ((if bool_decide (x ∈ l) then remove_first x l else l) ++ [x])%list) as Hnd.
  { apply NoDup_app. destruct (bool_decide (x ∈ l)) eqn:E.
    - split; [by apply remove_first_NoDup|]. split; [|apply NoDup_singleton].
      intros y Hy Hx. apply list_elem_of_singleton in Hx as ->.
      by apply (remove_first_gone x l).
    - apply bool_decide_eq_false in E.
      split; [exact Hl|]. split; [|apply NoDup_singleton].
      intros y Hy Hx. apply list_elem_of_singleton in Hx as ->. done. }
  destruct (20 <? _)%nat; [by apply last_n_NoDup|exact Hnd].
Qed.

(** What the constructor of the next session reads after a save: the
    attributes of the manager, the recent list cut to its last twenty
    entries. *)
Lemma saved_manager_restored (w : World) :
  settings_writable w = true ->
  playlist_manager (snd (PlaylistManager__init__ (snd (save_settings w))))
  = set_recent_wallpapers (playlist_manager w)
      (last_n 20 (recent_wallpapers (playlist_manager w))).
Proof.
  intros Hw. rewrite (save_settings_written _ Hw).
  unfold PlaylistManager__init__.
  erewrite load_settings_object by reflexivity.
  destruct (playlist_manager w). reflexivity.
Qed.

(** After a save that succeeded the constructor of the next session
    returns. *)
Lemma saved_manager_constructs (w : World) :
  settings_writable w = true ->
  fst (PlaylistManager__init__ (snd (save_settings w))) = Ret tt.
Proof.
  intros Hw. rewrite (save_settings_written _ Hw).
  unfold PlaylistManager__init__.
  erewrite load_settings_object by reflexivity. reflexivity.
Qed.

(** X1. [add_to_recent] of a non-empty identifier leaves it as the last,
    that is the most recent, entry of the recent list; the list holds at
    most twenty entries, all of them the new one or entries it held
    before; a list without duplicates stays without duplicates; and with
    a writable settings file the next session reads this list back. *)
Theorem add_to_recent_newest_last (wallpaper_id : string) (w : World) :
  Text.truthy wallpaper_id = true ->
  let before := recent_wallpapers (playlist_manager w) in
  let after := recent_wallpapers (playlist_manager (add_to_recent wallpaper_id w)) in
  last after = Some wallpaper_id
  /\ (length after <= 20)%nat
  /\ (forall x, x ∈ after -> x = wallpaper_id \/ x ∈ before)
  /\ (NoDup before -> NoDup after)
  /\ (settings_writable w = true ->
      fst (PlaylistManager__init__ (add_to_recent wallpaper_id w)) = Ret tt
      /\ recent_wallpapers
           (playlist_manager (snd (PlaylistManager__init__ (add_to_recent wallpaper_id w))))
         = after).
Proof.
  intros Hid. unfold add_to_recent. rewrite Hid. simpl.
  rewrite save_settings_manager. simpl.
  split; [apply recent_with_last|]. split; [apply recent_with_length|].
  split; [intros x; apply recent_with_elem|]. split; [apply recent_with_NoDup|].
  intros Hw. split; [by apply saved_manager_constructs|].
  rewrite saved_manager_restored by exact Hw. simpl.
  apply last_n_all, recent_with_length.
Qed.

Lemma add_to_recent_newest_last_witness :
  let w := with_manager blank_world
             (set_recent_wallpapers fresh_manager ["A"; "B"; "C"]) in
  let after := recent_wallpapers (playlist_manager (add_to_recent "A" w)) in
  after = ["B"; "C"; "A"]
  /\ last after = Some "A"
  /\ (length after <= 20)%nat
  /\ (forall x, x ∈ after -> x = "A" \/ x ∈ ["A"; "B"; "C"])
  /\ (NoDup ["A"; "B"; "C"] -> NoDup after)
  /\ (true = true ->
      fst (PlaylistManager__init__ (add_to_recent "A" w)) = Ret tt
      /\ recent_wallpapers
           (playlist_manager (snd (PlaylistManager__init__ (add_to_recent "A" w))))
         = after).
Proof.
  split; [vm_compute; reflexivity|].
  apply (add_to_recent_newest_last "A"
           (with_manager blank_world (set_recent_wallpapers fresh_manager ["A"; "B"; "C"]))).
  reflexivity.
Defined.

End RecentList.

Section PlaylistEntries.

Lemma add_keeps_distinct (wallpaper_id : string) (w : World) :
  NoDup (current_playlist (playlist_manager w)) ->
  NoDup (current_playlist (playlist_manager (snd (add_to_current_playlist wallpaper_id w)))).
Proof.
  intros Hnd. unfold add_to_current_playlist.
  destruct (negb (Text.truthy wallpaper_id)); [exact Hnd|].
  destruct (bool_decide (wallpaper_id ∈ _)) eqn:E; simpl; [exact Hnd|].
  apply bool_decide_eq_false in E.
  apply NoDup_app. split; [exact Hnd|]. split; [|apply NoDup_singleton].
  intros y Hy Hx. apply list_elem_of_singleton in Hx as ->. done.
Qed.

Lemma add_keeps_nonempty_entries (wallpaper_id : string) (w : World) :
  Forall (fun x => Text.truthy x = true) (current_playlist (playlist_manager w)) ->
  Forall (fun x => Text.truthy x = true)
    (current_playlist (playlist_manager (snd (add_to_current_playlist wallpaper_id w)))).
Proof.
  intros Hall. unfold add_to_current_playlist.
  destruct (Text.truthy wallpaper_id) eqn:Hid; simpl; [|exact Hall].
  destruct (bool_decide (wallpaper_id ∈ _)); simpl; [exact Hall|].
  apply Forall_app. split; [exact Hall|]. by constructor.
Qed.

Lemma remove_playlist (index : Z) (w : World) :
  current_playlist (playlist_manager (snd (remove_from_current_playlist index w)))
  = if (0 <=? index) && (index <? Z.of_nat (length (current_playlist (playlist_manager w))))
    then delete (Z.to_nat index) (current_playlist (playlist_manager w))
    else current_playlist (playlist_manager w).
Proof.
  unfold remove_from_current_playlist.
  destruct ((0 <=? index) && _); [|reflexivity]. simpl.
  destruct ((index <=? _) && _); [reflexivity|].
  destruct ((_ <=? _) && _); reflexivity.
Qed.

Lemma advance_playlist (random_mode : bool) (draw : nat) (w : World) :
  current_playlist (playlist_manager (snd (get_next_wallpaper random_mode draw w)))
  = current_playlist (playlist_manager w).
Proof.
  unfold get_next_wallpaper. destruct (bool_decide _); [reflexivity|].
  simpl. rewrite save_settings_manager. reflexivity.
Qed.

Lemma retreat_playlist (w : World) :
  current_playlist (playlist_manager (snd (get_previous_wallpaper w)))
  = current_playlist (playlist_manager w).
Proof.
  unfold get_previous_wallpaper. destruct (bool_decide _); [reflexivity|].
  simpl. rewrite save_settings_manager. reflexivity.
Qed.

Lemma apply_op_entries (o : playlist_op) (w : World) :
  NoDup (current_playlist (playlist_manager w))
  /\ Forall (fun x => Text.truthy x = true) (current_playlist (playlist_manager w)) ->
  NoDup (current_playlist (playlist_manager (apply_op w o)))
  /\ Forall (fun x => Text.truthy x = true) (current_playlist (playlist_manager (apply_op w o))).
Proof.
  intros [Hnd Hall]. destruct o as [wallpaper_id|index|random_mode draw|]; simpl.
  - split; [by apply add_keeps_distinct|by apply add_keeps_nonempty_entries].
  - rewrite remove_playlist. destruct ((0 <=? index) && _); [|done]. split.
    + eapply sublist_NoDup; [exact Hnd|apply sublist_delete].
    + apply Forall_forall. intros x Hx. rewrite Forall_forall in Hall. apply Hall.
      eapply elem_of_sublist; [exact Hx|apply sublist_delete].
  - by rewrite advance_playlist.
  - by rewrite retreat_playlist.
Qed.

(** X2. No sequence of playlist operations (add, remove, advance in
    either mode, retreat) puts an identifier into the playlist twice or
    puts the empty identifier into it: a playlist of distinct non-empty
    entries stays one. *)
Theorem playlist_ops_keep_entries_distinct (ops : list playlist_op) (w : World) :
  NoDup (current_playlist (playlist_manager w)) ->
  Forall (fun x => Text.truthy x = true) (current_playlist (playlist_manager w)) ->
  NoDup (current_playlist (playlist_manager (run_ops ops w)))
  /\ Forall (fun x => Text.truthy x = true)
       (current_playlist (playlist_manager (run_ops ops w))).
Proof.
  intros Hnd Hall. unfold run_ops.
  revert w Hnd Hall. induction ops as [|o ops IH]; intros w Hnd Hall; simpl; [done|].
  destruct (apply_op_entries o w (conj Hnd Hall)) as [Hnd' Hall'].
  by apply IH.
Qed.

Lemma playlist_ops_keep_entries_distinct_witness :
  let w := with_manager blank_world (manager_with ["A"; "B"] 0 false) in
  let ops := [OpAdd "A"; OpAdd ""; OpAdd "C"; OpAdvance true 7; OpRemoveAt 0; OpAdd "A"] in
  current_playlist (playlist_manager (run_ops ops w)) = ["B"; "C"; "A"]
  /\ NoDup (current_playlist (playlist_manager (run_ops ops w)))
  /\ Forall (fun x => Text.truthy x = true)
       (current_playlist (playlist_manager (run_ops ops w))).
Proof.
  split; [vm_compute; reflexivity|].
  apply (playlist_ops_keep_entries_distinct
           [OpAdd "A"; OpAdd ""; OpAdd "C"; OpAdvance true 7; OpRemoveAt 0; OpAdd "A"]
           (with_manager blank_world (manager_with ["A"; "B"] 0 false))).
  - apply (bool_decide_unpack _). vm_compute. exact I.
  - repeat constructor.
Defined.

Lemma lookup_delete_before {A} (l : list A) (i j : nat) :
  (j < i)%nat -> delete i l !! j = l !! j.
Proof. intros Hji. by apply list_lookup_delete_lt. Qed.

Lemma lookup_delete_after {A} (l : list A) (i j : nat) :
  (i <= j)%nat -> delete i l !! j = l !! S j.
Proof. intros Hij. by apply list_lookup_delete_ge. Qed.

Lemma get_current_wallpaper_in_range (m : PlaylistManager) :
  0 <= current_index m < Z.of_nat (length (current_playlist m)) ->
  get_current_wallpaper m = current_playlist m !! Z.to_nat (current_index m).
Proof.
  intros Hr. unfold get_current_wallpaper.
  rewrite bool_decide_eq_false_2 by (intros E; rewrite E in Hr; simpl in Hr; lia).
  simpl. replace (0 <=? current_index m) with true by (symmetry; apply Z.leb_le; lia).
  replace (current_index m <? _) with true by (symmetry; apply Z.ltb_lt; lia).
  reflexivity.
Qed.

Lemma get_current_wallpaper_lookup (m : PlaylistManager) :
  0 <= current_index m ->
  get_current_wallpaper m = current_playlist m !! Z.to_nat (current_index m).
Proof.
  intros Hr.
  destruct (Z.lt_ge_cases (current_index m) (Z.of_nat (length (current_playlist m))))
    as [Hlt|Hge].
  - apply get_current_wallpaper_in_range. lia.
  - rewrite (proj2 (lookup_ge_None _ _)) by lia.
    unfold get_current_wallpaper.
    replace (current_index m <? _) with false by (symmetry; apply Z.ltb_ge; lia).
    by rewrite andb_false_r.
Qed.

(** X3. Removing an entry other than the current one leaves the current
    wallpaper in place.  Removing the current entry moves the cursor to
    the entry before it, or, when the current entry is the first, to the
    entry after it. *)
Theorem remove_keeps_current_wallpaper (index : Z) (w : World) :
  let m := playlist_manager w in
  let m' := playlist_manager (snd (remove_from_current_playlist index w)) in
  0 <= current_index m < Z.of_nat (length (current_playlist m)) ->
  0 <= index < Z.of_nat (length (current_playlist m)) ->
  (index <> current_index m -> get_current_wallpaper m' = get_current_wallpaper m)
  /\ (index = current_index m -> 0 < index ->
      get_current_wallpaper m' = current_playlist m !! Z.to_nat (index - 1))
  /\ (index = current_index m -> index = 0 ->
      get_current_wallpaper m' = current_playlist m !! 1%nat).
Proof.
  intros m m' Hc Hi.
  rewrite (get_current_wallpaper_in_range m Hc).
  assert (length (delete (Z.to_nat index) (current_playlist m))
          = (length (current_playlist m) - 1)%nat) as Hlen.
  { rewrite length_delete; [lia|]. apply lookup_lt_is_Some. lia. }
  subst m'. unfold remove_from_current_playlist. fold m.
  replace ((0 <=? index) && (index <? Z.of_nat (length (current_playlist m))))
    with true by (symmetry; apply andb_true_iff; split; [apply Z.leb_le|apply Z.ltb_lt]; lia).
  cbn [snd playlist_manager with_manager set_current_playlist current_index current_playlist].
  destruct (index <=? current_index m) eqn:E1; destruct (0 <? current_index m) eqn:E2;
    cbn [andb];
    try apply Z.leb_le in E1; try apply Z.leb_gt in E1;
    try apply Z.ltb_lt in E2; try apply Z.ltb_ge in E2.
  - (* the cursor steps back *)
    rewrite get_current_wallpaper_lookup by (simpl; lia). simpl.
    split; [|split].
    + intros Hne. rewrite lookup_delete_after by lia. f_equal. lia.
    + intros -> _. rewrite lookup_delete_before by lia. reflexivity.
    + intros; lia.
  - (* the cursor is 0 and the first entry goes *)
    assert (index = 0 /\ current_index m = 0) as [-> Hz] by lia.
    destruct ((_ <=? _) && _);
      (rewrite get_current_wallpaper_lookup by (simpl; lia); simpl;
       split; [intros; lia|]; split; [intros; lia|]; intros _ _;
       rewrite ?Hz; simpl; by rewrite lookup_delete_after by lia).
  - (* an entry behind the cursor goes, the cursor is not the first *)
    replace (Z.of_nat (length (delete (Z.to_nat index) (current_playlist m)))
               <=? current_index m) with false by (symmetry; apply Z.leb_gt; lia).
    cbn [andb]. rewrite get_current_wallpaper_lookup by (simpl; lia). simpl.
    split; [|split; intros; lia].
    intros _. by rewrite lookup_delete_before by lia.
  - (* an entry behind the cursor goes, the cursor is the first *)
    replace (Z.of_nat (length (delete (Z.to_nat index) (current_playlist m)))
               <=? current_index m) with false by (symmetry; apply Z.leb_gt; lia).
    cbn [andb]. rewrite get_current_wallpaper_lookup by (simpl; lia). simpl.
    split; [|split; intros; lia].
    intros _. by rewrite lookup_delete_before by lia.
Qed.

Lemma remove_keeps_current_wallpaper_witness :
  let w := with_manager blank_world (manager_with ["A"; "B"; "C"] 1 false) in
  let m := playlist_manager w in
  let m' := playlist_manager (snd (remove_from_current_playlist 0 w)) in
  get_current_wallpaper m = Some "B"
  /\ (0 <> current_index m -> get_current_wallpaper m' = get_current_wallpaper m)
  /\ (0 = current_index m -> 0 < 0 ->
      get_current_wallpaper m' = current_playlist m !! Z.to_nat (0 - 1))
  /\ (0 = current_index m -> 0 = 0 ->
      get_current_wallpaper m' = current_playlist m !! 1%nat).
Proof.
  split; [reflexivity|].
  apply (remove_keeps_current_wallpaper 0
           (with_manager blank_world (manager_with ["A"; "B"; "C"] 1 false)));
    simpl; lia.
Defined.

End PlaylistEntries.

Section Cursor2.

Lemma advance_returns_current (random_mode : bool) (draw : nat) (w : World) :
  fst (get_next_wallpaper random_mode draw w)
  = get_current_wallpaper (playlist_manager (snd (get_next_wallpaper random_mode draw w))).
Proof.
  unfold get_next_wallpaper. destruct (bool_decide _) eqn:E; [|reflexivity].
  apply bool_decide_eq_true in E. simpl. unfold get_current_wallpaper.
  by rewrite E.
Qed.

Lemma retreat_returns_current (w : World) :
  fst (get_previous_wallpaper w)
  = get_current_wallpaper (playlist_manager (snd (get_previous_wallpaper w))).
Proof.
  unfold get_previous_wallpaper. destruct (bool_decide _) eqn:E; [|reflexivity].
  apply bool_decide_eq_true in E. simpl. unfold get_current_wallpaper.
  by rewrite E.
Qed.

Lemma set_current_index_same (m : PlaylistManager) :
  set_current_index m (current_index m) = m.
Proof. by destruct m. Qed.

Lemma set_current_index_twice (m : PlaylistManager) (i j : Z) :
  set_current_index (set_current_index m i) j = set_current_index m j.
Proof. reflexivity. Qed.

(** X4. In sequential mode advance and retreat undo each other: after
    one of each, in either order, the cursor is the cursor before
    (reduced modulo the length, so unchanged when it was in range), the
    playlist and the other attributes are untouched, and the second call
    returns the entry at that cursor. *)
Theorem advance_and_retreat_cancel (w : World) :
  let m := playlist_manager w in
  let n := Z.of_nat (length (current_playlist m)) in
  let back := get_previous_wallpaper (snd (get_next_wallpaper false 0 w)) in
  let forth := get_next_wallpaper false 0 (snd (get_previous_wallpaper w)) in
  current_playlist m <> [] ->
  playlist_manager (snd back) = set_current_index m (current_index m mod n)
  /\ playlist_manager (snd forth) = set_current_index m (current_index m mod n)
  /\ fst back = current_playlist m !! Z.to_nat (current_index m mod n)
  /\ fst forth = current_playlist m !! Z.to_nat (current_index m mod n).
Proof.
  intros m n back forth Hne.
  assert (0 < n) as Hn by (subst n; destruct (current_playlist m); [done|simpl; lia]).
  assert (playlist_manager (snd back) = set_current_index m (current_index m mod n)) as Hb.
  { subst back. rewrite get_previous_wallpaper_manager;
      rewrite get_next_wallpaper_manager by exact Hne; [|exact Hne].
    simpl. fold m n. rewrite set_current_index_twice. f_equal.
    rewrite Zminus_mod_idemp_l. f_equal. lia. }
  assert (playlist_manager (snd forth) = set_current_index m (current_index m mod n)) as Hf.
  { subst forth. rewrite get_next_wallpaper_manager;
      rewrite get_previous_wallpaper_manager by exact Hne; [|exact Hne].
    simpl. fold m n. rewrite set_current_index_twice. f_equal.
    rewrite Zplus_mod_idemp_l. f_equal. lia. }
  split; [exact Hb|]. split; [exact Hf|].
  pose proof (Z.mod_pos_bound (current_index m) n Hn) as Hr.
  split.
  - subst back. rewrite retreat_returns_current, Hb.
    rewrite get_current_wallpaper_lookup by (simpl; lia). reflexivity.
  - subst forth. rewrite advance_returns_current, Hf.
    rewrite get_current_wallpaper_lookup by (simpl; lia). reflexivity.
Qed.

Lemma advance_and_retreat_cancel_witness :
  let w := with_manager blank_world (manager_with ["A"; "B"; "C"] 2 false) in
  let m := playlist_manager w in
  let back := get_previous_wallpaper (snd (get_next_wallpaper false 0 w)) in
  let forth := get_next_wallpaper false 0 (snd (get_previous_wallpaper w)) in
  playlist_manager (snd back) = set_current_index m (2 mod 3)
  /\ playlist_manager (snd forth) = set_current_index m (2 mod 3)
  /\ fst back = ["A"; "B"; "C"] !! Z.to_nat (2 mod 3)
  /\ fst forth = ["A"; "B"; "C"] !! Z.to_nat (2 mod 3).
Proof.
  apply (advance_and_retreat_cancel
           (with_manager blank_world (manager_with ["A"; "B"; "C"] 2 false))).
  discriminate.
Defined.

Lemma sequential_run_picks (k : nat) :
  forall w : World,
    let m := playlist_manager w in
    let n := Z.of_nat (length (current_playlist m)) in
    current_playlist m <> [] ->
    fst (sequential_run k w)
    = map (fun j : nat =>
             current_playlist m !! Z.to_nat ((current_index m + Z.of_nat j) mod n))
          (seq 1 k)
    /\ playlist_manager (snd (sequential_run k w))
       = set_current_index m
           (match k with
            | O => current_index m
            | S _ => (current_index m + Z.of_nat k) mod n
            end).
Proof.
  induction k as [|k IH]; intros w m n Hne.
  - simpl. split; [reflexivity|]. symmetry. apply set_current_index_same.
  - assert (0 < n) as Hn by (subst n; destruct (current_playlist m); [done|simpl; lia]).
    pose proof (get_next_wallpaper_manager false 0 w Hne) as Hm1.
    pose proof (advance_returns_current false 0 w) as Hx.
    cbn [sequential_run].
    destruct (get_next_wallpaper false 0 w) as [x w1]. simpl in Hm1, Hx.
    fold m n in Hm1.
    assert (current_playlist (playlist_manager w1) = current_playlist m) as Hl
      by (rewrite Hm1; reflexivity).
    assert (current_index (playlist_manager w1) = (current_index m + 1) mod n) as Hc
      by (rewrite Hm1; reflexivity).
    specialize (IH w1). cbv zeta in IH. rewrite Hl, Hc in IH. fold n in IH.
    specialize (IH Hne). destruct IH as [IHp IHm].
    destruct (sequential_run k w1) as [xs w2]. simpl in IHp, IHm. simpl fst. simpl snd.
    pose proof (Z.mod_pos_bound (current_index m + 1) n Hn) as Hr.
    split.
    + cbn [seq map]. f_equal.
      * rewrite Hx, Hm1. rewrite get_current_wallpaper_lookup by (simpl; lia).
        reflexivity.
      * rewrite IHp, <- (fmap_S_seq 1 k). rewrite <- list_fmap_compose.
        apply list_fmap_ext. intros _ j _. simpl. do 2 f_equal.
        rewrite Zplus_mod_idemp_l. f_equal. lia.
    + rewrite IHm, Hm1, set_current_index_twice. f_equal.
      destruct k as [|k]; [f_equal; lia|].
      rewrite Zplus_mod_idemp_l. f_equal. lia.
Qed.

(** X5. Sequential advances walk the playlist in order and wrap around:
    the [j]-th advance returns the entry [j] places after the cursor,
    modulo the length; as many advances as the playlist has entries
    return every entry and bring the cursor back to where it was. *)
Theorem sequential_run_full_cycle (w : World) :
  let m := playlist_manager w in
  let n := length (current_playlist m) in
  0 <= current_index m < Z.of_nat n ->
  (forall k : nat,
      fst (sequential_run k w)
      = map (fun j : nat =>
               current_playlist m !! Z.to_nat ((current_index m + Z.of_nat j) mod Z.of_nat n))
            (seq 1 k))
  /\ playlist_manager (snd (sequential_run n w)) = m
  /\ (forall x, x ∈ current_playlist m -> Some x ∈ fst (sequential_run n w)).
Proof.
  intros m n Hr.
  assert (current_playlist m <> []) as Hne.
  { intros E. subst n. rewrite E in Hr. simpl in Hr. lia. }
  split; [intros k; apply (sequential_run_picks k w Hne)|].
  split.
  - rewrite (proj2 (sequential_run_picks n w Hne)). fold m n.
    destruct n as [|n'] eqn:En; [lia|]. rewrite <- En.
    replace ((current_index m + Z.of_nat n) mod Z.of_nat n) with (current_index m).
    + apply set_current_index_same.
    + rewrite <- Zplus_mod_idemp_r, Z_mod_same_full, Z.add_0_r.
      symmetry. apply Z.mod_small. lia.
  - intros x Hx. apply list_elem_of_lookup in Hx as [i Hi].
    pose proof (lookup_lt_Some _ _ _ Hi) as Hlt. fold n in Hlt.
    rewrite (proj1 (sequential_run_picks n w Hne)). fold m n.
    apply list_elem_of_fmap.
    pose proof (Z.mod_pos_bound (Z.of_nat i - current_index m - 1) (Z.of_nat n)
                  ltac:(lia)) as Hj.
    exists (Z.to_nat ((Z.of_nat i - current_index m - 1) mod Z.of_nat n + 1)).
    split.
    + rewrite <- Hi. f_equal. rewrite Z2Nat.id by lia.
      replace (current_index m
               + ((Z.of_nat i - current_index m - 1) mod Z.of_nat n + 1))
        with ((Z.of_nat i - current_index m - 1) mod Z.of_nat n
              + (current_index m + 1)) by lia.
      rewrite Zplus_mod_idemp_l.
      replace (Z.of_nat i - current_index m - 1 + (current_index m + 1))
        with (Z.of_nat i) by lia.
      rewrite Z.mod_small by lia. by rewrite Nat2Z.id.
    + apply elem_of_seq. lia.
Qed.

Lemma sequential_run_full_cycle_witness :
  let w := with_manager blank_world (manager_with ["A"; "B"; "C"] 1 false) in
  let m := playlist_manager w in
  fst (sequential_run 3 w) = [Some "C"; Some "A"; Some "B"]
  /\ (forall k : nat,
        fst (sequential_run k w)
        = map (fun j : nat => ["A"; "B"; "C"] !! Z.to_nat ((1 + Z.of_nat j) mod 3))
              (seq 1 k))
  /\ playlist_manager (snd (sequential_run 3 w)) = m
  /\ (forall x, x ∈ ["A"; "B"; "C"] -> Some x ∈ fst (sequential_run 3 w)).
Proof.
  split; [vm_compute; reflexivity|].
  apply (sequential_run_full_cycle
           (with_manager blank_world (manager_with ["A"; "B"; "C"] 1 false))).
  simpl. lia.
Defined.

End Cursor2.

Section SavedPlaylists.

(** X6. A playlist created under a non-empty name from a non-empty list
    can be loaded: loading makes its entries the current playlist with
    the cursor on the first one, the playlists saved under other names
    are untouched, and with a writable settings file the next session
    starts with the same playlist. *)
Theorem created_playlist_loads (name : string) (wallpapers : list string) (w : World) :
  let created := create_playlist name wallpapers w in
  let loaded := load_playlist name (snd created) in
  let m := playlist_manager (snd loaded) in
  Text.truthy name = true ->
  wallpapers <> [] ->
  fst created = true
  /\ fst loaded = true
  /\ current_playlist m = wallpapers
  /\ current_index m = 0
  /\ get_current_wallpaper m = head wallpapers
  /\ (forall other, other <> name ->
        playlists m !! other = playlists (playlist_manager w) !! other)
  /\ (settings_writable w = true ->
      let m' := playlist_manager (snd (PlaylistManager__init__ (snd loaded))) in
      fst (PlaylistManager__init__ (snd loaded)) = Ret tt
      /\ playlists m' !! name = Some wallpapers /\ current_playlist m' = wallpapers).
Proof.
  intros created loaded m Hname Hne.
  assert (created
          = (true, snd (save_settings
                          (with_manager w
                             (set_playlists (playlist_manager w)
                                (<[name := wallpapers]> (playlists (playlist_manager w)))))))) as Hc.
  { subst created. unfold create_playlist. rewrite Hname.
    rewrite bool_decide_eq_false_2 by exact Hne. reflexivity. }
  assert (playlists (playlist_manager (snd created)) !! name = Some wallpapers) as Hlook.
  { rewrite Hc. simpl. rewrite save_settings_manager. simpl. apply lookup_insert_eq. }
  assert (loaded
          = (true, snd (save_settings
                          (with_manager (snd created)
                             (set_current_index
                                (set_current_playlist (playlist_manager (snd created))
                                   wallpapers) 0))))) as Hl.
  { subst loaded. unfold load_playlist. rewrite Hlook. reflexivity. }
  assert (m = set_current_index
                (set_current_playlist
                   (set_playlists (playlist_manager w)
                      (<[name := wallpapers]> (playlists (playlist_manager w))))
                   wallpapers) 0) as Hm.
  { subst m. rewrite Hl. simpl. rewrite save_settings_manager. simpl.
    rewrite Hc. simpl. rewrite save_settings_manager. reflexivity. }
  split; [by rewrite Hc|]. split; [by rewrite Hl|].
  split; [by rewrite Hm|]. split; [by rewrite Hm|].
  split.
  { rewrite get_current_wallpaper_lookup by (rewrite Hm; simpl; lia).
    rewrite Hm. simpl. by destruct wallpapers. }
  split.
  { intros other Hother. rewrite Hm. simpl. by apply lookup_insert_ne. }
  intros Hw. rewrite Hl. cbn [snd].
  assert (settings_writable
            (with_manager (snd created)
               (set_current_index
                  (set_current_playlist (playlist_manager (snd created)) wallpapers) 0))
          = true) as Hw'.
  { simpl. rewrite Hc. simpl.
    destruct (save_settings_frame
                (with_manager w
                   (set_playlists (playlist_manager w)
                      (<[name := wallpapers]> (playlists (playlist_manager w))))))
      as (_ & _ & _ & _ & Hwr & _).
    rewrite Hwr. exact Hw. }
  split; [by apply saved_manager_constructs|].
  rewrite saved_manager_restored by exact Hw'.
  simpl. split; [exact Hlook|reflexivity].
Qed.

Lemma created_playlist_loads_witness :
  let w := blank_world in
  let created := create_playlist "evening" ["A"; "B"] w in
  let loaded := load_playlist "evening" (snd created) in
  let m := playlist_manager (snd loaded) in
  fst created = true
  /\ fst loaded = true
  /\ current_playlist m = ["A"; "B"]
  /\ current_index m = 0
  /\ get_current_wallpaper m = head ["A"; "B"]
  /\ (forall other, other <> "evening" ->
        playlists m !! other = playlists (playlist_manager w) !! other)
  /\ (settings_writable w = true ->
      let m' := playlist_manager (snd (PlaylistManager__init__ (snd loaded))) in
      fst (PlaylistManager__init__ (snd loaded)) = Ret tt
      /\ playlists m' !! "evening" = Some ["A"; "B"] /\ current_playlist m' = ["A"; "B"]).
Proof.
  apply (created_playlist_loads "evening" ["A"; "B"] blank_world);
    [reflexivity|discriminate].
Defined.

(** X7. A deleted playlist cannot be loaded: [load_playlist] then
    returns [False] and changes nothing.  Deleting leaves the current
    playlist as it is, also when the deleted playlist is the one that was
    loaded; deleting a name that is not saved changes nothing and writes
    no file. *)
Theorem deleted_playlist_does_not_load (name : string) (w : World) :
  let w1 := snd (delete_playlist name w) in
  load_playlist name w1 = (false, w1)
  /\ current_playlist (playlist_manager w1) = current_playlist (playlist_manager w)
  /\ current_index (playlist_manager w1) = current_index (playlist_manager w)
  /\ (playlists (playlist_manager w) !! name = None -> delete_playlist name w = (false, w)).
Proof.
  intros w1. subst w1. unfold delete_playlist.
  destruct (playlists (playlist_manager w) !! name) as [saved|] eqn:E; simpl.
  - unfold load_playlist. rewrite save_settings_manager. simpl.
    rewrite lookup_delete_eq. repeat split; discriminate.
  - unfold load_playlist. rewrite E. repeat split.
Qed.

(** X8. The custom timer: after [set_custom_timer] the manager reports
    the interval and the text, unless the text is empty; after
    [clear_custom_timer] it reports none and keeps the interval; and with
    a writable settings file the next session reports what was set. *)
Theorem custom_timer_round_trip (interval : Z) (display_text : string) (w : World) :
  let w1 := set_custom_timer interval display_text w in
  let set := if Text.truthy display_text then Some (interval, display_text) else None in
  get_custom_timer_info (playlist_manager w1) = set
  /\ get_custom_timer_info (playlist_manager (clear_custom_timer w1)) = None
  /\ timer_interval (playlist_manager (clear_custom_timer w1)) = interval
  /\ (settings_writable w = true ->
      fst (PlaylistManager__init__ w1) = Ret tt
      /\ get_custom_timer_info (playlist_manager (snd (PlaylistManager__init__ w1))) = set
      /\ fst (PlaylistManager__init__ (clear_custom_timer w1)) = Ret tt
      /\ get_custom_timer_info
           (playlist_manager (snd (PlaylistManager__init__ (clear_custom_timer w1)))) = None).
Proof.
  intros w1 set. subst w1 set. unfold set_custom_timer, clear_custom_timer.
  repeat (rewrite save_settings_manager; cbn [playlist_manager with_manager]).
  split; [reflexivity|]. split; [reflexivity|]. split; [reflexivity|].
  intros Hw.
  pose proof (save_settings_frame
                (with_manager w (set_timer (playlist_manager w) interval (Some display_text))))
    as (_ & _ & _ & _ & Hwr & _).
  cbv zeta in Hwr. simpl in Hwr.
  split; [by apply saved_manager_constructs|]. split.
  { rewrite saved_manager_restored by exact Hw. reflexivity. }
  split; [apply saved_manager_constructs; simpl; rewrite Hwr; exact Hw|].
  rewrite saved_manager_restored by (simpl; rewrite Hwr; exact Hw). reflexivity.
Qed.

(** X9. A save followed by a restart.  With a writable settings file
    the constructor of the next session returns and restores every
    attribute of the playlist manager, the recent list cut to its last
    twenty entries.  When the file cannot be written, [save_settings]
    returns [False], logs the error and leaves the manager in memory as it
    is; what the next session finds depends on where the write failed.
    When the file could not be opened it is as it was, and the next
    constructor does what it would have done before.  When the file was
    opened and the dump failed, the file is left cut off: the next
    constructor logs that it is not JSON and starts from the defaults. *)
Theorem restart_restores_saved_manager (w : World) :
  let saved := save_settings w in
  (settings_writable w = true ->
   fst saved = true
   /\ fst (PlaylistManager__init__ (snd saved)) = Ret tt
   /\ playlist_manager (snd (PlaylistManager__init__ (snd saved)))
      = set_recent_wallpapers (playlist_manager w)
          (last_n 20 (recent_wallpapers (playlist_manager w)))
   /\ ((length (recent_wallpapers (playlist_manager w)) <= 20)%nat ->
       playlist_manager (snd (PlaylistManager__init__ (snd saved))) = playlist_manager w))
  /\ (settings_writable w = false ->
      fst saved = false
      /\ error_log (snd saved) = (error_log w ++ [LogSettingsSaveFailed])%list
      /\ playlist_manager (snd saved) = playlist_manager w
      /\ (write_failure w = OpenFails ->
          saved = (false, log_error w LogSettingsSaveFailed)
          /\ settings_file (snd saved) = settings_file w
          /\ fst (PlaylistManager__init__ (snd saved)) = fst (PlaylistManager__init__ w)
          /\ playlist_manager (snd (PlaylistManager__init__ (snd saved)))
             = playlist_manager (snd (PlaylistManager__init__ w)))
      /\ (write_failure w = DumpFails ->
          settings_file (snd saved) = NotJson
          /\ fst (PlaylistManager__init__ (snd saved)) = Ret tt
          /\ playlist_manager (snd (PlaylistManager__init__ (snd saved))) = fresh_manager
          /\ error_log (snd (PlaylistManager__init__ (snd saved)))
             = (error_log w ++ [LogSettingsSaveFailed; LogSettingsNotJson])%list)).
Proof.
  intros saved. subst saved. split.
  - intros Hw. split; [by rewrite save_settings_written|].
    split; [by apply saved_manager_constructs|].
    split; [by apply saved_manager_restored|].
    intros Hlen. rewrite saved_manager_restored by exact Hw.
    rewrite last_n_all by exact Hlen. by destruct (playlist_manager w).
  - intros Hw. unfold save_settings, write_json. rewrite Hw.
    split; [reflexivity|].
    split; [by destruct (write_failure w)|].
    split; [by destruct (write_failure w)|].
    split; intros ->; cbn [fst snd].
    + split; [reflexivity|]. split; [reflexivity|].
      unfold PlaylistManager__init__, load_settings. simpl.
      destruct (settings_file w) as [| | | |[data|]]; by split.
    + unfold PlaylistManager__init__, load_settings. simpl.
      rewrite <- app_assoc. by repeat split.
Qed.

End SavedPlaylists.

(** ** More of the wallpaper engine *)

Section EngineState.

Lemma _save_state_frame (w : World) :
  playlist_manager (_save_state w) = playlist_manager w
  /\ wallpaper_engine (_save_state w) = wallpaper_engine w
  /\ playlist_widget (_save_state w) = playlist_widget w
  /\ playlist_timer (_save_state w) = playlist_timer w
  /\ settings_writable (_save_state w) = settings_writable w
  /\ processes (_save_state w) = processes w
  /\ swww_query (_save_state w) = swww_query w.
Proof.
  unfold _save_state, write_json.
  destruct (settings_file w) as [| | | |[data|]]; destruct (settings_writable w) eqn:E;
    destruct (write_failure w); simpl; rewrite ?E; auto 10.
Qed.

Lemma _load_state_frame (w : World) :
  playlist_manager (_load_state w) = playlist_manager w
  /\ playlist_widget (_load_state w) = playlist_widget w
  /\ playlist_timer (_load_state w) = playlist_timer w
  /\ settings_file (_load_state w) = settings_file w
  /\ settings_writable (_load_state w) = settings_writable w
  /\ processes (_load_state w) = processes w
  /\ swww_query (_load_state w) = swww_query w.
Proof.
  unfold _load_state.
  destruct (settings_file w) as [| | | |[data|]] eqn:E; simpl; rewrite ?E; auto 10.
Qed.

(** The engine's save is invisible to the playlist manager, unless the
    write fails after the file was opened: its constructor does the same
    and reads the same attributes before and after. *)
Lemma engine_save_spares_manager (w : World) :
  settings_writable w = true \/ write_failure w = OpenFails ->
  fst (PlaylistManager__init__ (_save_state w)) = fst (PlaylistManager__init__ w)
  /\ playlist_manager (snd (PlaylistManager__init__ (_save_state w)))
     = playlist_manager (snd (PlaylistManager__init__ w)).
Proof.
  destruct w as [m e g t toast f writable stage log ps swww].
  unfold PlaylistManager__init__, load_settings, _save_state, write_json. simpl.
  intros [->| ->]; destruct f as [| | | |[data|]]; try destruct writable; by split.
Qed.

(** What [_load_state] reads after a successful [_save_state]. *)
Lemma engine_state_restored (w : World) (e : WallpaperEngine) :
  settings_writable w = true ->
  settings_file w = Missing \/ (exists data, settings_file w = Json (JObject data)) ->
  wallpaper_engine (_load_state (with_engine (_save_state w) e))
  = {| current_wallpaper := current_wallpaper (wallpaper_engine w);
       current_process := current_process e;
       last_settings := last_settings (wallpaper_engine w) |}.
Proof.
  intros Hw [Hf|[data Hf]]; unfold _save_state, _load_state, write_json;
    rewrite Hf, Hw; reflexivity.
Qed.

(** X10. The engine state survives a restart: when the settings file is
    writable and is missing or holds a JSON object, the [_load_state] of
    a newly constructed engine reads back the wallpaper and the settings
    that [_save_state] stored, logs nothing, and every other key of the
    file reads as before. *)
Theorem engine_state_survives_restart (w : World) :
  let restarted := _load_state (with_engine (_save_state w) idle_engine) in
  settings_writable w = true ->
  settings_file w = Missing \/ (exists data, settings_file w = Json (JObject data)) ->
  current_wallpaper (wallpaper_engine restarted) = current_wallpaper (wallpaper_engine w)
  /\ last_settings (wallpaper_engine restarted) = last_settings (wallpaper_engine w)
  /\ error_log restarted = error_log w
  /\ fst (PlaylistManager__init__ restarted) = fst (PlaylistManager__init__ w)
  /\ playlist_manager (snd (PlaylistManager__init__ restarted))
     = playlist_manager (snd (PlaylistManager__init__ w)).
Proof.
  intros restarted Hw Hf. subst restarted.
  rewrite (engine_state_restored w idle_engine Hw Hf). simpl.
  split; [reflexivity|]. split; [reflexivity|]. split.
  - destruct Hf as [Hf|[data Hf]]; unfold _save_state, _load_state, write_json;
      rewrite Hf, Hw; reflexivity.
  - destruct (engine_save_spares_manager w (or_introl Hw)) as [<- <-].
    unfold PlaylistManager__init__, load_settings.
    destruct (_load_state_frame (with_engine (_save_state w) idle_engine))
      as (_ & _ & _ & Hfile & _).
    simpl in *. rewrite Hfile. simpl.
    destruct (settings_file (_save_state w)) as [| | | |[data'|]]; by split.
Qed.

Lemma engine_state_survives_restart_witness :
  let w := with_engine blank_world
             {| current_wallpaper := Some "1234567890"; current_process := None;
                last_settings := sample_settings |} in
  let restarted := _load_state (with_engine (_save_state w) idle_engine) in
  current_wallpaper (wallpaper_engine restarted) = Some "1234567890"
  /\ last_settings (wallpaper_engine restarted) = sample_settings
  /\ error_log restarted = []
  /\ fst (PlaylistManager__init__ restarted) = fst (PlaylistManager__init__ w)
  /\ playlist_manager (snd (PlaylistManager__init__ restarted))
     = playlist_manager (snd (PlaylistManager__init__ w)).
Proof.
  apply (engine_state_survives_restart
           (with_engine blank_world
              {| current_wallpaper := Some "1234567890"; current_process := None;
                 last_settings := sample_settings |}));
    [reflexivity|by left].
Defined.

(** X11. The failures of [_save_state].  When the settings file exists
    but cannot be read as a JSON object, or cannot be opened for writing,
    [_save_state] writes nothing and logs one error, and the playlist
    manager's constructor reads from the file what it read before.  When
    the file was opened for writing and the dump failed, the file is left
    cut off and one error is logged: the keys of the playlist manager are
    lost with it, and its next constructor starts from the defaults.  In
    no case does [_save_state] change the engine or the playlist manager
    in memory. *)
Theorem engine_save_fails_closed (w : World) :
  (settings_file w = Inaccessible \/ settings_file w = Unreadable
   \/ settings_file w = NotJson \/ settings_file w = Json JOther ->
   _save_state w = log_error w LogStateSaveFailed)
  /\ (settings_writable w = false -> write_failure w = OpenFails ->
      _save_state w = log_error w LogStateSaveFailed)
  /\ (settings_writable w = false -> write_failure w = DumpFails ->
      settings_file w = Missing \/ (exists data, settings_file w = Json (JObject data)) ->
      _save_state w = log_error (with_file w NotJson) LogStateSaveFailed
      /\ fst (PlaylistManager__init__ (_save_state w)) = Ret tt
      /\ playlist_manager (snd (PlaylistManager__init__ (_save_state w))) = fresh_manager)
  /\ wallpaper_engine (_save_state w) = wallpaper_engine w
  /\ playlist_manager (_save_state w) = playlist_manager w
  /\ (settings_writable w = true \/ write_failure w = OpenFails ->
      fst (PlaylistManager__init__ (_save_state w)) = fst (PlaylistManager__init__ w)
      /\ playlist_manager (snd (PlaylistManager__init__ (_save_state w)))
         = playlist_manager (snd (PlaylistManager__init__ w))).
Proof.
  split; [|split; [|split]].
  - unfold _save_state.
    intros [Hf|[Hf|[Hf|Hf]]]; rewrite Hf; reflexivity.
  - intros Hw Hstage. unfold _save_state, write_json. rewrite Hw, Hstage.
    destruct (settings_file w) as [| | | |[data|]]; reflexivity.
  - intros Hw Hstage Hf.
    assert (_save_state w = log_error (with_file w NotJson) LogStateSaveFailed) as Hsave.
    { unfold _save_state, write_json. rewrite Hw, Hstage.
      destruct Hf as [->|[data ->]]; reflexivity. }
    rewrite Hsave. by repeat split.
  - destruct (_save_state_frame w) as (Hm & He & _).
    split; [exact He|]. split; [exact Hm|]. apply engine_save_spares_manager.
Qed.

End EngineState.

Section FolderId.

Lemma next_after_elem (key x : string) (l : list string) :
  next_after key l = Some x -> key ∈ l /\ x ∈ drop 1 l.
Proof.
  induction l as [|a l IH]; simpl; [discriminate|].
  destruct l as [|b l]; [discriminate|].
  destruct (String.eqb a key) eqn:E.
  - intros [= <-]. apply String.eqb_eq in E as ->.
    split; [apply list_elem_of_here|]. simpl. apply list_elem_of_here.
  - intros Hx. destruct (IH Hx) as [Hk Hd]. split.
    + by apply list_elem_of_further.
    + simpl in *. by apply list_elem_of_further.
Qed.

Lemma components_proper (p c : string) :
  c ∈ PosixPath.components p -> c <> "" /\ c <> ".".
Proof.
  unfold PosixPath.components. intros Hc.
  apply list_elem_of_In, filter_In in Hc as [_ Hc].
  apply andb_true_iff in Hc as [H1 H2].
  apply negb_true_iff in H1, H2.
  apply String.eqb_neq in H1, H2. done.
Qed.

Lemma parts_tail (p x : string) :
  x ∈ drop 1 (PosixPath.parts p) -> x ∈ PosixPath.components p.
Proof.
  unfold PosixPath.parts. destruct (Text.truthy (PosixPath.root p)); simpl.
  - rewrite drop_0. done.
  - intros Hx. eapply elem_of_sublist; [exact Hx|apply sublist_drop].
Qed.

Lemma last_elem {A} (l : list A) (x : A) : last l = Some x -> x ∈ l.
Proof.
  intros Hl. apply last_Some in Hl as [l' ->].
  apply elem_of_app. right. apply list_elem_of_here.
Qed.

Lemma extracted_component (wallpaper_path folder_id : string) :
  _extract_folder_id_from_path wallpaper_path = Some folder_id ->
  folder_id ∈ PosixPath.components wallpaper_path
  /\ (folder_id = ".." -> "431960" ∈ PosixPath.parts wallpaper_path).
Proof.
  unfold _extract_folder_id_from_path.
  set (steam := if Text.contains _ _ then _ else None).
  destruct steam as [x|] eqn:Hs.
  - intros [= <-]. subst steam.
    destruct (Text.contains _ _); [|discriminate].
    apply next_after_elem in Hs as [Hk Hx].
    split; [by apply parts_tail|done].
  - unfold PosixPath.name.
    destruct (last (PosixPath.components wallpaper_path)) as [c|] eqn:Hl; simpl.
    + destruct (Text.truthy c && negb (c =? ".")%string && negb (c =? "..")%string) eqn:E;
        [|discriminate].
      intros [= <-]. split; [by apply last_elem|].
      intros ->. apply andb_true_iff in E as [_ E]. discriminate.
    + discriminate.
Qed.

(** X12. The identifier [_extract_folder_id_from_path] reads from a path
    is one of the components of the path, so it is neither empty nor a
    dot; it is the parent directory [..] only when that follows a
    component [431960]. *)
Theorem extracted_folder_id_is_path_component (wallpaper_path folder_id : string) :
  _extract_folder_id_from_path wallpaper_path = Some folder_id ->
  folder_id ∈ PosixPath.components wallpaper_path
  /\ Text.truthy folder_id = true
  /\ folder_id <> "."
  /\ (folder_id = ".." -> "431960" ∈ PosixPath.parts wallpaper_path).
Proof.
  intros Hx. destruct (extracted_component _ _ Hx) as [Hc Hdots].
  destruct (components_proper _ _ Hc) as [Hne Hdot].
  split; [exact Hc|]. split; [|by split].
  unfold Text.truthy. apply negb_true_iff, String.eqb_neq. exact Hne.
Qed.

Lemma extracted_folder_id_is_path_component_witness :
  _extract_folder_id_from_path "/steam/workshop/content/431960/1234567890/scene.pkg"
    = Some "1234567890"
  /\ "1234567890"
       ∈ PosixPath.components "/steam/workshop/content/431960/1234567890/scene.pkg"
  /\ Text.truthy "1234567890" = true
  /\ "1234567890" <> "."
  /\ ("1234567890" = ".." ->
      "431960" ∈ PosixPath.parts "/steam/workshop/content/431960/1234567890/scene.pkg").
Proof.
  split; [vm_compute; reflexivity|].
  apply (extracted_folder_id_is_path_component
           "/steam/workshop/content/431960/1234567890/scene.pkg" "1234567890").
  vm_compute. reflexivity.
Defined.

End FolderId.

Section EngineInit.

Lemma first_hit_none {A B} (body : A -> exc (option B)) (l : list A) :
  Forall (fun y => body y = Ret None) l -> first_hit body l = Ret None.
Proof.
  induction 1 as [|y l Hy _ IH]; simpl; [reflexivity|].
  rewrite Hy. simpl. exact IH.
Qed.

Lemma first_hit_raises {A B} (body : A -> exc (option B))
    (before after : list A) (x : A) (e : exception) :
  Forall (fun y => body y = Ret None) before ->
  body x = Raise e ->
  first_hit body (before ++ x :: after)%list = Raise e.
Proof.
  intros Hbefore Hx. induction Hbefore as [|y before Hy _ IH]; simpl.
  - rewrite Hx. reflexivity.
  - rewrite Hy. simpl. exact IH.
Qed.

(** What construction does when the scan finds a [--bg] argument. *)
Lemma detection_result
    (w : World) (before after : list ProcInfo) (p : ProcInfo) (path detected_id : string) :
  let loaded := _load_state (with_engine w idle_engine) in
  processes w = (before ++ p :: after)%list ->
  Forall (fun q => engine_scan q = Ret None) before ->
  engine_scan p = Ret (Some path) ->
  Text.truthy path = true ->
  _extract_folder_id_from_path path = Some detected_id ->
  WallpaperEngine__init__ w
  = _save_state
      (with_engine loaded
         (set_current_wallpaper_ref (wallpaper_engine loaded) (Some detected_id))).
Proof.
  intros loaded Hprocs Hbefore Hp Hpath Hid.
  assert (Text.truthy detected_id = true) as Htruthy.
  { destruct (extracted_component _ _ Hid) as [Hc _].
    destruct (components_proper _ _ Hc) as [Hne _].
    unfold Text.truthy. apply negb_true_iff, String.eqb_neq. exact Hne. }
  unfold WallpaperEngine__init__. fold idle_engine. fold loaded.
  unfold _detect_running_wallpaper.
  destruct (_load_state_frame (with_engine w idle_engine)) as (_ & _ & _ & _ & _ & Hpr & _).
  fold loaded in Hpr. simpl in Hpr. rewrite Hpr, Hprocs.
  rewrite (first_hit_at_first _ _ _ _ _ Hbefore Hp). simpl.
  rewrite Hpath, Hid, Htruthy. reflexivity.
Qed.

(** X13. Construction of the engine with a renderer in the process
    table: the identifier read from the [--bg] argument of the first
    process that yields one replaces the wallpaper restored from the
    settings file, the restored settings stay, and with a usable settings
    file the detected wallpaper is what a later session restores. *)
Theorem engine_init_detects_running_renderer
    (w : World) (before after : list ProcInfo) (p : ProcInfo) (path detected_id : string) :
  let loaded := _load_state (with_engine w idle_engine) in
  let w' := WallpaperEngine__init__ w in
  processes w = (before ++ p :: after)%list ->
  Forall (fun q => engine_scan q = Ret None) before ->
  engine_scan p = Ret (Some path) ->
  Text.truthy path = true ->
  _extract_folder_id_from_path path = Some detected_id ->
  current_wallpaper (wallpaper_engine w') = Some detected_id
  /\ last_settings (wallpaper_engine w') = last_settings (wallpaper_engine loaded)
  /\ playlist_manager w' = playlist_manager w
  /\ (settings_writable w = true ->
      settings_file w = Missing \/ (exists data, settings_file w = Json (JObject data)) ->
      current_wallpaper (wallpaper_engine (_load_state (with_engine w' idle_engine)))
      = Some detected_id).
Proof.
  intros loaded w' Hprocs Hbefore Hp Hpath Hid.
  pose proof (detection_result w before after p path detected_id
                Hprocs Hbefore Hp Hpath Hid) as Hw'.
  cbv zeta in Hw'. fold loaded in Hw'. fold w' in Hw'.
  destruct (_save_state_frame
              (with_engine loaded
                 (set_current_wallpaper_ref (wallpaper_engine loaded) (Some detected_id))))
    as (Hm & He & _).
  destruct (_load_state_frame (with_engine w idle_engine))
    as (Hlm & _ & _ & Hlf & Hlw & _).
  fold loaded in Hlm, Hlf, Hlw. simpl in Hlm, Hlf, Hlw.
  rewrite Hw'. rewrite He, Hm. simpl.
  split; [reflexivity|]. split; [reflexivity|]. split; [exact Hlm|].
  intros Hw Hf. rewrite engine_state_restored; [reflexivity| |]; simpl.
  - by rewrite Hlw.
  - by rewrite Hlf.
Qed.

Lemma engine_init_detects_running_renderer_witness :
  let w := with_processes saved_session
             [ process 7 "systemd" ["/sbin/init"];
               process 4242 "linux-wallpaperengine"
                 ["linux-wallpaperengine"; "--screen-root"; "eDP-1"; "--bg"; "B"] ] in
  let loaded := _load_state (with_engine w idle_engine) in
  let w' := WallpaperEngine__init__ w in
  current_wallpaper (wallpaper_engine loaded) = Some "A"
  /\ current_wallpaper (wallpaper_engine w') = Some "B"
  /\ last_settings (wallpaper_engine w') = last_settings (wallpaper_engine loaded)
  /\ playlist_manager w' = playlist_manager w
  /\ (settings_writable w = true ->
      settings_file w = Missing \/ (exists data, settings_file w = Json (JObject data)) ->
      current_wallpaper (wallpaper_engine (_load_state (with_engine w' idle_engine)))
      = Some "B").
Proof.
  split; [reflexivity|].
  apply (engine_init_detects_running_renderer
           (with_processes saved_session
              [ process 7 "systemd" ["/sbin/init"];
                process 4242 "linux-wallpaperengine"
                  ["linux-wallpaperengine"; "--screen-root"; "eDP-1"; "--bg"; "B"] ])
           [ process 7 "systemd" ["/sbin/init"] ] []
           (process 4242 "linux-wallpaperengine"
              ["linux-wallpaperengine"; "--screen-root"; "eDP-1"; "--bg"; "B"])
           "B" "B").
  - reflexivity.
  - repeat constructor.
  - vm_compute. reflexivity.
  - reflexivity.
  - vm_compute. reflexivity.
Defined.

(** X14. Construction of the engine without a usable renderer: when no
    process yields a [--bg] argument the engine holds exactly what
    [_load_state] restored, whether or not that wallpaper still runs, and
    nothing is written; when psutil reports no name for a process that is
    met before any renderer, the scan is abandoned with one logged error,
    even if a renderer follows. *)
Theorem engine_init_without_detection
    (w : World) (before after : list ProcInfo) (p : ProcInfo) :
  let loaded := _load_state (with_engine w idle_engine) in
  (Forall (fun q => engine_scan q = Ret None) (processes w) ->
   WallpaperEngine__init__ w = loaded)
  /\ (processes w = (before ++ p :: after)%list ->
      Forall (fun q => engine_scan q = Ret None) before ->
      name p = None ->
      WallpaperEngine__init__ w = log_error loaded LogDetectionFailed).
Proof.
  intros loaded.
  destruct (_load_state_frame (with_engine w idle_engine)) as (_ & _ & _ & _ & _ & Hpr & _).
  fold loaded in Hpr. simpl in Hpr.
  split.
  - intros Hnone. unfold WallpaperEngine__init__. fold idle_engine. fold loaded.
    unfold _detect_running_wallpaper. rewrite Hpr, (first_hit_none _ _ Hnone). reflexivity.
  - intros Hprocs Hbefore Hname. unfold WallpaperEngine__init__. fold idle_engine. fold loaded.
    unfold _detect_running_wallpaper. rewrite Hpr, Hprocs.
    rewrite (first_hit_raises _ before after p AttributeError Hbefore); [reflexivity|].
    unfold engine_scan, proc_name_of. rewrite Hname. reflexivity.
Qed.

Lemma engine_init_without_detection_witness :
  let hidden := {| pid := 1; name := None; cmdline := None; exe := None |} in
  let renderer := process 4242 "linux-wallpaperengine"
                    ["linux-wallpaperengine"; "--bg"; "B"] in
  let w := with_processes saved_session [hidden; renderer] in
  let loaded := _load_state (with_engine w idle_engine) in
  WallpaperEngine__init__ w = log_error loaded LogDetectionFailed
  /\ current_wallpaper (wallpaper_engine (WallpaperEngine__init__ w)) = Some "A".
Proof.
  split; [|vm_compute; reflexivity].
  apply (proj2 (engine_init_without_detection
                  (with_processes saved_session
                     [ {| pid := 1; name := None; cmdline := None; exe := None |};
                       process 4242 "linux-wallpaperengine"
                         ["linux-wallpaperengine"; "--bg"; "B"] ])
                  []
                  [ process 4242 "linux-wallpaperengine"
                      ["linux-wallpaperengine"; "--bg"; "B"] ]
                  {| pid := 1; name := None; cmdline := None; exe := None |}));
    [reflexivity|constructor|reflexivity].
Defined.

End EngineInit.

(** ** The settings of the running wallpaper *)

Section Controller.

Lemma store_setting_engine (key : string) (value : setting_value) (w : World) :
  wallpaper_engine (store_setting key value w)
  = set_last_settings (wallpaper_engine w)
      (<[key := value]> (last_settings (wallpaper_engine w))).
Proof.
  unfold store_setting.
  destruct (_save_state_frame
              (with_engine w
                 (set_last_settings (wallpaper_engine w)
                    (<[key := value]> (last_settings (wallpaper_engine w))))))
    as (_ & He & _).
  exact He.
Qed.

Lemma store_setting_running (key : string) (value : setting_value) (w : World) :
  is_wallpaper_running (store_setting key value w) = is_wallpaper_running w.
Proof. unfold is_wallpaper_running. rewrite store_setting_engine. reflexivity. Qed.

Lemma store_setting_restored (key : string) (value : setting_value) (w : World) :
  settings_writable w = true ->
  settings_file w = Missing \/ (exists data, settings_file w = Json (JObject data)) ->
  wallpaper_engine (_load_state (with_engine (store_setting key value w) idle_engine))
  = {| current_wallpaper := current_wallpaper (wallpaper_engine w);
       current_process := None;
       last_settings := <[key := value]> (last_settings (wallpaper_engine w)) |}.
Proof.
  intros Hw Hf. unfold store_setting.
  rewrite engine_state_restored; [reflexivity|exact Hw|exact Hf].
Qed.

(** X15. [set_volume] and [set_fps] on a running wallpaper store the
    value clamped to 0..100 and to 10..144: the getters return a value in
    range, equal to the argument when that is in range; the wallpaper is
    silent exactly when the volume given was 0 or less; one setter leaves
    the value of the other alone; and with a usable settings file the
    next session reads both values back. *)
Theorem volume_and_fps_are_clamped (volume fps : Z) (w : World) :
  let w1 := snd (set_volume volume w) in
  let w2 := snd (set_fps fps w1) in
  let v := Z.max 0 (Z.min 100 volume) in
  let f := Z.max 10 (Z.min 144 fps) in
  is_wallpaper_running w = true ->
  fst (set_volume volume w) = true /\ fst (set_fps fps w1) = true
  /\ get_volume w1 = VInt v /\ get_volume w2 = VInt v /\ get_fps w2 = VInt f
  /\ 0 <= v <= 100 /\ 10 <= f <= 144
  /\ (0 <= volume <= 100 -> v = volume) /\ (10 <= fps <= 144 -> f = fps)
  /\ is_silent w2 = bool_decide (volume <= 0)
  /\ (settings_writable w = true ->
      settings_file w = Missing \/ (exists data, settings_file w = Json (JObject data)) ->
      let restarted := _load_state (with_engine w2 idle_engine) in
      get_volume restarted = VInt v /\ get_fps restarted = VInt f).
Proof.
  intros w1 w2 v f Hrun.
  assert (w1 = store_setting "volume" (VInt v) w) as Hw1.
  { subst w1. unfold set_volume. rewrite Hrun. reflexivity. }
  assert (is_wallpaper_running w1 = true) as Hrun1
    by (rewrite Hw1, store_setting_running; exact Hrun).
  assert (w2 = store_setting "fps" (VInt f) w1) as Hw2.
  { subst w2. unfold set_fps. rewrite Hrun1. reflexivity. }
  assert (is_wallpaper_running w2 = true) as Hrun2
    by (rewrite Hw2, store_setting_running; exact Hrun1).
  assert (get_volume w1 = VInt v) as Hv1.
  { unfold get_volume. rewrite Hrun1. simpl. rewrite Hw1, store_setting_engine. simpl.
    by rewrite lookup_insert_eq. }
  assert (last_settings (wallpaper_engine w2) !! "volume" = Some (VInt v)) as Hv2.
  { rewrite Hw2, store_setting_engine, Hw1, store_setting_engine. simpl.
    rewrite lookup_insert_ne by discriminate. by rewrite lookup_insert_eq. }
  split; [unfold set_volume; by rewrite Hrun|].
  split; [unfold set_fps; by rewrite Hrun1|].
  split; [exact Hv1|].
  split; [unfold get_volume; by rewrite Hrun2, Hv2|].
  split.
  { unfold get_fps. rewrite Hrun2. simpl. rewrite Hw2, store_setting_engine. simpl.
    by rewrite lookup_insert_eq. }
  split; [lia|]. split; [lia|]. split; [lia|]. split; [lia|].
  split.
  { unfold is_silent. rewrite Hrun2, Hv2. simpl.
    destruct (Z.eqb_spec v 0) as [E|E].
    - symmetry. apply bool_decide_eq_true. lia.
    - symmetry. apply bool_decide_eq_false. lia. }
  intros Hw Hf restarted.
  assert (settings_writable w1 = true) as Hwr1.
  { rewrite Hw1. unfold store_setting.
    destruct (_save_state_frame
                (with_engine w (set_last_settings (wallpaper_engine w)
                                  (<[ "volume" := VInt v ]> (last_settings (wallpaper_engine w))))))
      as (_ & _ & _ & _ & Hx & _). rewrite Hx. exact Hw. }
  assert (settings_file w1 = Missing
          \/ (exists data, settings_file w1 = Json (JObject data))) as Hf1.
  { rewrite Hw1. unfold store_setting, _save_state, write_json. simpl.
    destruct Hf as [Hf|[data Hf]]; rewrite Hf, Hw; simpl; right; eexists; reflexivity. }
  assert (wallpaper_engine restarted
          = {| current_wallpaper := current_wallpaper (wallpaper_engine w1);
               current_process := None;
               last_settings := <[ "fps" := VInt f ]> (last_settings (wallpaper_engine w1)) |})
    as Hre.
  { subst restarted. rewrite Hw2. apply store_setting_restored; assumption. }
  assert (is_wallpaper_running restarted = true) as Hrun3.
  { unfold is_wallpaper_running in *. rewrite Hre. exact Hrun1. }
  split.
  - unfold get_volume. rewrite Hrun3, Hre. simpl.
    rewrite lookup_insert_ne by discriminate.
    rewrite Hw1, store_setting_engine. simpl. by rewrite lookup_insert_eq.
  - unfold get_fps. rewrite Hrun3, Hre. simpl. by rewrite lookup_insert_eq.
Qed.

Lemma volume_and_fps_are_clamped_witness :
  let w := with_engine blank_world
             {| current_wallpaper := Some "1234567890"; current_process := None;
                last_settings := sample_settings |} in
  let w1 := snd (set_volume 250 w) in
  let w2 := snd (set_fps 5 w1) in
  let restarted := _load_state (with_engine w2 idle_engine) in
  get_volume w2 = VInt 100 /\ get_fps w2 = VInt 10
  /\ is_silent w2 = false
  /\ get_volume restarted = VInt 100 /\ get_fps restarted = VInt 10.
Proof.
  pose proof (volume_and_fps_are_clamped 250 5
                (with_engine blank_world
                   {| current_wallpaper := Some "1234567890"; current_process := None;
                      last_settings := sample_settings |}) eq_refl)
    as (_ & _ & _ & Hv & Hf & _ & _ & _ & _ & Hs & Hr).
  specialize (Hr eq_refl (or_introl eq_refl)).
  split; [exact Hv|]. split; [exact Hf|]. split; [exact Hs|]. exact Hr.
Defined.

(** X16. A toggle of a running wallpaper stores the negation of the
    truth value of its flag, an absent flag counting as false, and
    leaves every other setting and the wallpaper alone; two toggles
    restore the truth value. *)
Theorem toggle_flips_its_flag (key : string) (w : World) :
  let flag := fun w' => truthy_value (default (VBool false)
                                        (last_settings (wallpaper_engine w') !! key)) in
  let w1 := snd (toggle_flag key w) in
  let w2 := snd (toggle_flag key w1) in
  is_wallpaper_running w = true ->
  fst (toggle_flag key w) = true
  /\ flag w1 = negb (flag w)
  /\ flag w2 = flag w
  /\ (forall other, other <> key ->
        last_settings (wallpaper_engine w2) !! other
        = last_settings (wallpaper_engine w) !! other)
  /\ current_wallpaper (wallpaper_engine w2) = current_wallpaper (wallpaper_engine w).
Proof.
  intros flag w1 w2 Hrun.
  assert (w1 = store_setting key (VBool (negb (flag w))) w) as Hw1.
  { subst w1. unfold toggle_flag. rewrite Hrun. reflexivity. }
  assert (is_wallpaper_running w1 = true) as Hrun1
    by (rewrite Hw1, store_setting_running; exact Hrun).
  assert (flag w1 = negb (flag w)) as Hf1.
  { unfold flag at 1. rewrite Hw1, store_setting_engine. simpl.
    by rewrite lookup_insert_eq. }
  assert (w2 = store_setting key (VBool (negb (flag w1))) w1) as Hw2.
  { subst w2. unfold toggle_flag. rewrite Hrun1. reflexivity. }
  split; [unfold toggle_flag; by rewrite Hrun|].
  split; [exact Hf1|].
  split.
  { unfold flag at 1. rewrite Hw2, store_setting_engine. simpl.
    rewrite lookup_insert_eq. simpl. rewrite Hf1. apply negb_involutive. }
  split.
  { intros other Hother. rewrite Hw2, store_setting_engine. simpl.
    rewrite lookup_insert_ne by done. rewrite Hw1, store_setting_engine. simpl.
    by rewrite lookup_insert_ne by done. }
  rewrite Hw2, store_setting_engine. simpl. rewrite Hw1, store_setting_engine. reflexivity.
Qed.

Lemma toggle_flips_its_flag_witness :
  let w := with_engine blank_world
             {| current_wallpaper := Some "1234567890"; current_process := None;
                last_settings := sample_settings |} in
  last_settings (wallpaper_engine (snd (toggle_mouse w))) !! "disable_mouse"
    = Some (VBool true)
  /\ truthy_value
       (default (VBool false)
          (last_settings (wallpaper_engine (snd (toggle_mouse (snd (toggle_mouse w)))))
             !! "disable_mouse"))
     = false.
Proof.
  split; [vm_compute; reflexivity|].
  pose proof (toggle_flips_its_flag "disable_mouse"
                (with_engine blank_world
                   {| current_wallpaper := Some "1234567890"; current_process := None;
                      last_settings := sample_settings |}) eq_refl)
    as (_ & _ & H2 & _).
  exact H2.
Defined.

End Controller.

(** ** Launching the renderer *)

Section Apply.

(** X17. [apply_wallpaper] fails closed: it returns [True] exactly when
    the identifier is non-empty and valid, the renderer binary exists
    and the process could be started; whenever it returns [False] the
    attributes of the engine, the settings file and the playlist manager
    are as before. *)
Theorem apply_wallpaper_fails_closed
    (env : LaunchEnv) (wallpaper_id : string) (a : RenderArgs) (w : World) :
  let r := apply_wallpaper env wallpaper_id a w in
  (applied (fst r) = true <->
   Text.truthy wallpaper_id = true
   /\ valid_wallpaper env wallpaper_id = true
   /\ binary_exists env = true
   /\ exists child,
        popen env (launch_command (binary_path env) wallpaper_id a) = Started child)
  /\ (applied (fst r) = false ->
      wallpaper_engine (snd r) = wallpaper_engine w
      /\ settings_file (snd r) = settings_file w
      /\ playlist_manager (snd r) = playlist_manager w).
Proof.
  intros r. subst r. unfold apply_wallpaper.
  destruct (Text.truthy wallpaper_id); simpl;
    [|split; [split; [discriminate|intros (? & _); discriminate]|by repeat split]].
  destruct (valid_wallpaper env wallpaper_id); simpl;
    [|split; [split; [discriminate|intros (_ & ? & _); discriminate]|by repeat split]].
  destruct (binary_exists env); simpl;
    [|split; [split; [discriminate|intros (_ & _ & ? & _); discriminate]|by repeat split]].
  destruct (popen env _) as [child| | |]; simpl.
  - split; [|discriminate]. split; [|reflexivity]. intros _. eauto 10.
  - split; [split; [discriminate|intros (_ & _ & _ & ? & ?); discriminate]|by repeat split].
  - split; [split; [discriminate|intros (_ & _ & _ & ? & ?); discriminate]|by repeat split].
  - split; [split; [discriminate|intros (_ & _ & _ & ? & ?); discriminate]|by repeat split].
Qed.

(** X18. A successful [apply_wallpaper] makes the wallpaper the current
    one, keeps no process handle, and stores the settings as they were
    passed: the renderer is started with the volume clamped to 0..100 and
    the frame rate clamped to 10..144, while [get_volume] and [get_fps]
    afterwards return the unclamped arguments. *)
Theorem apply_wallpaper_stores_arguments
    (env : LaunchEnv) (wallpaper_id : string) (a : RenderArgs) (w : World) :
  let r := apply_wallpaper env wallpaper_id a w in
  let cmd := launch_command (binary_path env) wallpaper_id a in
  applied (fst r) = true ->
  current_wallpaper (wallpaper_engine (snd r)) = Some wallpaper_id
  /\ current_process (wallpaper_engine (snd r)) = None
  /\ is_wallpaper_running (snd r) = true
  /\ get_volume (snd r) = VInt (arg_volume a)
  /\ get_fps (snd r) = VInt (arg_fps a)
  /\ cmd !! 5%nat = Some "--volume"
  /\ cmd !! 6%nat = Some (pretty (Z.max 0 (Z.min 100 (arg_volume a))))
  /\ cmd !! 7%nat = Some "--fps"
  /\ cmd !! 8%nat = Some (pretty (Z.max 10 (Z.min 144 (arg_fps a))))
  /\ playlist_manager (snd r) = playlist_manager w.
Proof.
  intros r cmd Hok.
  assert (snd r = _save_state
                    (with_engine w
                       {| current_wallpaper := Some wallpaper_id;
                          current_process := None;
                          last_settings := settings_of_args a |})) as Hr.
  { subst r cmd. revert Hok. unfold apply_wallpaper.
    destruct (negb (Text.truthy wallpaper_id)); [discriminate|].
    destruct (negb (valid_wallpaper env wallpaper_id)); [discriminate|].
    destruct (negb (binary_exists env)); [discriminate|].
    destruct (popen env _); try discriminate. reflexivity. }
  destruct (_save_state_frame
              (with_engine w
                 {| current_wallpaper := Some wallpaper_id;
                    current_process := None;
                    last_settings := settings_of_args a |}))
    as (Hm & He & _).
  assert (wallpaper_engine (snd r)
          = {| current_wallpaper := Some wallpaper_id; current_process := None;
               last_settings := settings_of_args a |}) as Heng
    by (rewrite Hr; exact He).
  assert (is_wallpaper_running (snd r) = true) as Hrun
    by (unfold is_wallpaper_running; rewrite Heng; reflexivity).
  split; [by rewrite Heng|]. split; [by rewrite Heng|]. split; [exact Hrun|].
  split; [unfold get_volume; rewrite Hrun, Heng; reflexivity|].
  split; [unfold get_fps; rewrite Hrun, Heng; reflexivity|].
  split; [reflexivity|]. split; [reflexivity|]. split; [reflexivity|].
  split; [reflexivity|]. rewrite Hr. exact Hm.
Qed.

Lemma apply_wallpaper_stores_arguments_witness :
  let r := apply_wallpaper sample_env "1234567890" loud_args blank_world in
  let cmd := launch_command (binary_path sample_env) "1234567890" loud_args in
  current_wallpaper (wallpaper_engine (snd r)) = Some "1234567890"
  /\ current_process (wallpaper_engine (snd r)) = None
  /\ is_wallpaper_running (snd r) = true
  /\ get_volume (snd r) = VInt 150
  /\ get_fps (snd r) = VInt 5
  /\ cmd !! 5%nat = Some "--volume"
  /\ cmd !! 6%nat = Some "100"
  /\ cmd !! 7%nat = Some "--fps"
  /\ cmd !! 8%nat = Some "10"
  /\ playlist_manager (snd r) = playlist_manager blank_world.
Proof.
  apply (apply_wallpaper_stores_arguments sample_env "1234567890" loud_args blank_world).
  reflexivity.
Defined.

End Apply.

Section LaunchAndDetect.

Lemma split_without_separator (c : ascii) (s : string) :
  Text.all_chars (fun a => negb (Ascii.eqb a c)) s = true ->
  Text.split c s = [s].
Proof.
  induction s as [|a s IH]; simpl; [reflexivity|].
  intros H. apply andb_true_iff in H as [Ha Hs].
  apply negb_true_iff in Ha. rewrite Ha, (IH Hs). reflexivity.
Qed.

Lemma root_of_folder_name (s : string) :
  no_slash s = true -> PosixPath.root s = "".
Proof.
  unfold no_slash, PosixPath.root. destruct s as [|a s]; [reflexivity|].
  cbn [Text.all_chars]. intros H. apply andb_true_iff in H as [Ha _].
  apply negb_true_iff, Ascii.eqb_neq in Ha.
  cbn [String.prefix].
  destruct (Ascii.ascii_dec "/" a) as [E|_]; [congruence|]. reflexivity.
Qed.

Lemma components_of_folder_name (s : string) :
  no_slash s = true -> s <> "" -> s <> "." ->
  PosixPath.components s = [s].
Proof.
  intros Hs Hne Hdot. unfold PosixPath.components.
  rewrite (split_without_separator _ _ Hs). simpl.
  apply String.eqb_neq in Hne, Hdot. rewrite Hne, Hdot. reflexivity.
Qed.

(** A plain folder name is its own identifier. *)
Lemma folder_name_is_its_id (s : string) :
  no_slash s = true -> s <> "" -> s <> "." -> s <> ".." ->
  _extract_folder_id_from_path s = Some s.
Proof.
  intros Hs Hne Hdot Hdots. unfold _extract_folder_id_from_path.
  unfold PosixPath.parts, PosixPath.name.
  rewrite (root_of_folder_name _ Hs), (components_of_folder_name _ Hs Hne Hdot). simpl.
  destruct (Text.contains "431960" (PosixPath.str s)).
  - unfold Text.truthy. apply String.eqb_neq in Hne, Hdot, Hdots.
    rewrite Hne, Hdot, Hdots. reflexivity.
  - unfold Text.truthy. apply String.eqb_neq in Hne, Hdot, Hdots.
    rewrite Hne, Hdot, Hdots. reflexivity.
Qed.

Lemma prefix_refl_app (n s : string) : String.prefix n (n ++ s) = true.
Proof.
  induction n as [|a n IH]; [by destruct s|].
  change (String.prefix (String a n) (String a (n ++ s)) = true).
  cbn [String.prefix].
  destruct (Ascii.ascii_dec a a); [exact IH|congruence].
Qed.

Lemma prefix_refl (n : string) : String.prefix n n = true.
Proof.
  induction n as [|a n IH]; [reflexivity|].
  cbn [String.prefix].
  destruct (Ascii.ascii_dec a a); [exact IH|congruence].
Qed.

Lemma contains_of_prefix (n s : string) :
  String.prefix n s = true -> Text.contains n s = true.
Proof. intros H. destruct s; cbn [Text.contains]; rewrite H; reflexivity. Qed.

Lemma contains_skip (n a s : string) :
  Text.contains n s = true -> Text.contains n (a ++ s) = true.
Proof.
  intros Hs. induction a as [|c a IH]; [exact Hs|].
  change (Text.contains n (String c (a ++ s)) = true).
  cbn [Text.contains]. rewrite IH. apply orb_true_r.
Qed.

Lemma contains_join_member (sep x : string) (l : list string) :
  x ∈ l -> Text.contains x (Text.join sep l) = true.
Proof.
  unfold Text.join. induction l as [|y l IH]; [by intros ?%elem_of_nil|].
  intros Hx. destruct l as [|z l].
  - apply list_elem_of_singleton in Hx as ->.
    apply contains_of_prefix, prefix_refl.
  - change (Text.contains x (y ++ sep ++ String.concat sep (z :: l)) = true).
    apply elem_of_cons in Hx as [->|Hx].
    + apply contains_of_prefix, prefix_refl_app.
    + apply contains_skip, contains_skip. by apply IH.
Qed.

Lemma launch_command_shape (binary wallpaper_id : string) (a : RenderArgs) :
  exists flags,
    launch_command binary wallpaper_id a
    = binary :: "--screen-root" :: arg_screen a :: "--bg" :: wallpaper_id :: flags.
Proof. eexists. reflexivity. Qed.

(** The engine's scan reads the identifier back from the command line
    [apply_wallpaper] builds. *)
Lemma launched_command_scans (child : Z) (pname binary wallpaper_id : string) (a : RenderArgs) :
  Text.contains "wallpaperengine" (Text.lower pname) = true ->
  binary <> "--bg" -> arg_screen a <> "--bg" ->
  engine_scan (process child pname (launch_command binary wallpaper_id a))
  = Ret (Some wallpaper_id).
Proof.
  intros Hname Hbin Hscreen.
  destruct (launch_command_shape binary wallpaper_id a) as [flags ->].
  unfold engine_scan, proc_name_of, process. simpl.
  rewrite Hname. simpl.
  rewrite bool_decide_eq_true_2.
  2: { do 3 apply list_elem_of_further. apply list_elem_of_here. }
  apply String.eqb_neq in Hbin, Hscreen. rewrite Hbin, Hscreen. reflexivity.
Qed.

(** The main window's verification accepts the identifier for the
    process [apply_wallpaper] starts. *)
Lemma launched_command_verifies
    (child : Z) (pname binary wallpaper_id : string) (a : RenderArgs) (w : World) :
  Text.contains "linux-wallpaperengine" pname = true ->
  processes w = [process child pname (launch_command binary wallpaper_id a)] ->
  _verify_wallpaper_process_running wallpaper_id w = true.
Proof.
  intros Hname Hprocs.
  rewrite verification_is_substring_test.
  2: { rewrite Hprocs. repeat constructor; discriminate. }
  rewrite Hprocs.
  destruct (launch_command_shape binary wallpaper_id a) as [flags Hcmd].
  assert (matches_renderer (process child pname (launch_command binary wallpaper_id a)) = true)
    as Hm.
  { unfold matches_renderer, is_renderer_process, proc_name_of, process. simpl.
    rewrite Hname. reflexivity. }
  assert (Text.contains wallpaper_id
            (cmdline_str (process child pname (launch_command binary wallpaper_id a))) = true)
    as Hc.
  { unfold cmdline_str, process. cbn [cmdline]. rewrite Hcmd.
    apply contains_join_member. do 4 apply list_elem_of_further. apply list_elem_of_here. }
  cbn [existsb]. rewrite Hm, Hc. reflexivity.
Qed.

(** X19. The application recognises the renderer it started.  After a
    successful [apply_wallpaper] of a plain folder name, a session that
    starts while that renderer is running detects the wallpaper from the
    command line at construction of the engine, the main window's
    verification accepts it, and [_detect_active_wallpaper] reports it
    from the engine without consulting the other probes. *)
Theorem launched_renderer_is_recognised
    (env : LaunchEnv) (wallpaper_id : string) (a : RenderArgs) (w : World)
    (child : Z) (pname : string) :
  let r := apply_wallpaper env wallpaper_id a w in
  let renderer := process child pname (launch_command (binary_path env) wallpaper_id a) in
  let next := WallpaperEngine__init__ (with_processes (snd r) [renderer]) in
  applied (fst r) = true ->
  no_slash wallpaper_id = true ->
  wallpaper_id <> "." ->
  wallpaper_id <> ".." ->
  binary_path env <> "--bg" ->
  arg_screen a <> "--bg" ->
  Text.contains "linux-wallpaperengine" pname = true ->
  Text.contains "wallpaperengine" (Text.lower pname) = true ->
  current_wallpaper (wallpaper_engine next) = Some wallpaper_id
  /\ _verify_wallpaper_process_running wallpaper_id next = true
  /\ _detect_active_wallpaper next = (Some wallpaper_id, next).
Proof.
  intros r renderer next Hok Hslash Hdot Hdots Hbin Hscreen Hlinux Hname.
  assert (Text.truthy wallpaper_id = true) as Htruthy.
  { subst r. revert Hok. unfold apply_wallpaper.
    destruct (Text.truthy wallpaper_id); [reflexivity|discriminate]. }
  assert (wallpaper_id <> "") as Hne.
  { intros ->. discriminate. }
  pose proof (detection_result (with_processes (snd r) [renderer]) [] [] renderer
                wallpaper_id wallpaper_id eq_refl (List.Forall_nil _)
                (launched_command_scans child pname _ _ a Hname Hbin Hscreen)
                Htruthy (folder_name_is_its_id _ Hslash Hne Hdot Hdots)) as Hnext.
  cbv zeta in Hnext. fold next in Hnext.
  set (loaded := _load_state (with_engine (with_processes (snd r) [renderer]) idle_engine))
    in Hnext.
  destruct (_save_state_frame
              (with_engine loaded
                 (set_current_wallpaper_ref (wallpaper_engine loaded) (Some wallpaper_id))))
    as (_ & He & _ & _ & _ & Hpr & _).
  destruct (_load_state_frame (with_engine (with_processes (snd r) [renderer]) idle_engine))
    as (_ & _ & _ & _ & _ & Hlp & _).
  fold loaded in Hlp. simpl in Hlp, Hpr.
  assert (current_wallpaper (wallpaper_engine next) = Some wallpaper_id) as Hcur
    by (rewrite Hnext, He; reflexivity).
  assert (_verify_wallpaper_process_running wallpaper_id next = true) as Hver.
  { apply (launched_command_verifies child pname (binary_path env) _ a); [exact Hlinux|].
    rewrite Hnext, Hpr, Hlp. reflexivity. }
  split; [exact Hcur|]. split; [exact Hver|].
  unfold _detect_active_wallpaper, verified_engine_wallpaper.
  rewrite Hcur, Htruthy, Hver. reflexivity.
Qed.

Lemma launched_renderer_is_recognised_witness :
  let r := apply_wallpaper sample_env "1234567890" loud_args blank_world in
  let renderer := process 4242 "linux-wallpaperengine"
                    (launch_command (binary_path sample_env) "1234567890" loud_args) in
  let next := WallpaperEngine__init__ (with_processes (snd r) [renderer]) in
  current_wallpaper (wallpaper_engine next) = Some "1234567890"
  /\ _verify_wallpaper_process_running "1234567890" next = true
  /\ _detect_active_wallpaper next = (Some "1234567890", next).
Proof.
  apply (launched_renderer_is_recognised sample_env "1234567890" loud_args blank_world
           4242 "linux-wallpaperengine");
    try reflexivity; discriminate.
Defined.

End LaunchAndDetect.

(** ** The playlist handlers of the main window *)

Section Handlers.

Lemma filter_all_true {A} (f : A -> bool) (l : list A) :
  Forall (fun x => f x = true) l -> List.filter f l = l.
Proof.
  induction 1 as [|x l Hx _ IH]; simpl; [reflexivity|]. by rewrite Hx, IH.
Qed.

Lemma init_reads_file (w1 w2 : World) :
  settings_file w1 = settings_file w2 ->
  fst (PlaylistManager__init__ w1) = fst (PlaylistManager__init__ w2)
  /\ playlist_manager (snd (PlaylistManager__init__ w1))
     = playlist_manager (snd (PlaylistManager__init__ w2)).
Proof.
  destruct w1 as [m1 e1 g1 t1 toast1 f1 wr1 st1 log1 ps1 sw1].
  destruct w2 as [m2 e2 g2 t2 toast2 f2 wr2 st2 log2 ps2 sw2].
  simpl. intros ->.
  unfold PlaylistManager__init__, load_settings. simpl.
  destruct f2 as [| | | |[data|]]; by split.
Qed.

Lemma stored_playlist_ext (w1 w2 : World) :
  settings_file w1 = settings_file w2 ->
  playlists (playlist_manager w1) = playlists (playlist_manager w2) ->
  current_playlist (playlist_manager w1) = current_playlist (playlist_manager w2) ->
  stored_playlist w2 -> stored_playlist w1.
Proof.
  intros Hf Hp Hc (H0 & H1 & H2). unfold stored_playlist.
  destruct (init_reads_file w1 w2 Hf) as [-> ->]. rewrite Hp, Hc. by repeat split.
Qed.

Lemma saved_is_stored (w : World) :
  settings_writable w = true -> stored_playlist (snd (save_settings w)).
Proof.
  intros Hw. unfold stored_playlist.
  rewrite saved_manager_constructs, saved_manager_restored by exact Hw.
  rewrite save_settings_manager. by repeat split.
Qed.

Lemma save_settings_writable (w : World) :
  settings_writable (snd (save_settings w)) = settings_writable w.
Proof. by destruct (save_settings_frame w) as (_ & _ & _ & _ & H & _). Qed.

Lemma save_settings_widget (w : World) :
  playlist_widget (snd (save_settings w)) = playlist_widget w.
Proof. by destruct (save_settings_frame w) as (_ & H & _). Qed.

(** What [_save_current_playlist] leaves behind. *)
Lemma _save_current_playlist_spec (w : World) :
  let w' := _save_current_playlist w in
  current_playlist (playlist_manager w') = current_playlist (playlist_manager w)
  /\ playlist_widget w' = playlist_widget w
  /\ settings_writable w' = settings_writable w
  /\ (playlists (playlist_manager w) !! "current" = None ->
      current_playlist (playlist_manager w) = [] -> w' = w)
  /\ saved_current w'
  /\ (settings_writable w = true ->
      (playlists (playlist_manager w) !! "current" = None ->
       current_playlist (playlist_manager w) = [] -> stored_playlist w) ->
      stored_playlist w').
Proof.
  unfold _save_current_playlist, saved_current.
  destruct (bool_decide (current_playlist (playlist_manager w) = [])) eqn:E; simpl.
  - apply bool_decide_eq_true in E.
    destruct (playlists (playlist_manager w) !! "current") as [saved|] eqn:Hcur.
    + unfold delete_playlist. rewrite Hcur. simpl.
      rewrite save_settings_manager, save_settings_widget, save_settings_writable. simpl.
      rewrite E. simpl.
      split; [reflexivity|]. split; [reflexivity|]. split; [reflexivity|].
      split; [discriminate|]. split; [apply lookup_delete_eq|].
      intros Hw _. by apply saved_is_stored.
    + rewrite E, Hcur. simpl.
      split; [reflexivity|]. split; [reflexivity|]. split; [reflexivity|].
      split; [reflexivity|]. split; [reflexivity|].
      intros _ Hstored. by apply Hstored.
  - apply bool_decide_eq_false in E.
    unfold create_playlist. simpl.
    rewrite (bool_decide_eq_false_2 _ E). simpl.
    rewrite save_settings_manager, save_settings_widget, save_settings_writable. simpl.
    rewrite (bool_decide_eq_false_2 _ E).
    split; [reflexivity|]. split; [reflexivity|]. split; [reflexivity|].
    split; [congruence|]. split; [apply lookup_insert_eq|].
    intros Hw _. by apply saved_is_stored.
Qed.

(** The invariant of the playlist panel. *)
Lemma edit_keeps_panel (e : playlist_edit) (w : World) :
  in_sync w -> saved_current w ->
  let w' := apply_edit w e in
  in_sync w' /\ saved_current w'
  /\ settings_writable w' = settings_writable w
  /\ (settings_writable w = true -> stored_playlist w -> stored_playlist w').
Proof.
  intros (Hitems & Hnd & Hall) Hsaved.
  assert (get_playlist_items (playlist_widget w) = current_playlist (playlist_manager w))
    as Hget.
  { unfold get_playlist_items. rewrite Hitems. by apply filter_all_true. }
  destruct e as [wallpaper_id|index|]; simpl.
  - (* add *)
    unfold _on_add_to_playlist_requested, add_wallpaper_to_playlist.
    destruct (Text.truthy wallpaper_id) eqn:Hid; simpl.
    2: { split; [by split|]. split; [exact Hsaved|]. split; [reflexivity|].
         intros _. apply stored_playlist_ext; reflexivity. }
    rewrite Hget.
    destruct (bool_decide (wallpaper_id ∈ current_playlist (playlist_manager w))) eqn:Hin;
      simpl.
    { split; [by split|]. split; [exact Hsaved|]. split; [reflexivity|].
      intros _. apply stored_playlist_ext; reflexivity. }
    unfold add_to_current_playlist. simpl. rewrite Hid, Hin. simpl.
    apply bool_decide_eq_false in Hin.
    match goal with |- context [_save_current_playlist ?x] =>
      destruct (_save_current_playlist_spec x) as (Hc & Hg & Hw & _ & Hs & Hst) end.
    simpl in Hc, Hg, Hw, Hst.
    split.
    { unfold in_sync. rewrite Hc, Hg. simpl. rewrite Hitems. split; [reflexivity|]. split.
      - apply NoDup_app. split; [exact Hnd|]. split; [|apply NoDup_singleton].
        intros y Hy Hx. apply list_elem_of_singleton in Hx as ->. done.
      - apply Forall_app. split; [exact Hall|]. by constructor. }
    split; [exact Hs|]. split; [exact Hw|].
    intros Hwr _. apply Hst; [exact Hwr|].
    intros _ Hnil. by destruct (current_playlist (playlist_manager w)).
  - (* remove *)
    unfold _on_remove_from_playlist.
    destruct (0 <=? index) eqn:H0.
    2: { split; [by split|]. split; [exact Hsaved|]. split; [reflexivity|].
         intros _ Hstored. exact Hstored. }
    unfold remove_wallpaper_from_playlist. rewrite H0. simpl.
    destruct (index <? Z.of_nat (length (item_data (playlist_widget w)))) eqn:Hlt; simpl.
    2: { split; [by split|]. split; [exact Hsaved|]. split; [reflexivity|].
         intros _. apply stored_playlist_ext; reflexivity. }
    apply Z.leb_le in H0. apply Z.ltb_lt in Hlt.
    destruct (item_data (playlist_widget w) !! Z.to_nat index) as [x|] eqn:Hx.
    2: { apply lookup_ge_None in Hx. lia. }
    assert (Text.truthy x = true) as Htx.
    { rewrite Hitems in Hx. rewrite Forall_forall in Hall. apply Hall.
      by eapply list_elem_of_lookup_2. }
    simpl. rewrite Htx.
    match goal with |- context [_save_current_playlist ?x] =>
      destruct (_save_current_playlist_spec x) as (Hc & Hg & Hw & _ & Hs & Hst) end.
    rewrite remove_playlist in Hc. simpl in Hc, Hg, Hw, Hst.
    rewrite <- Hitems in Hc at 1.
    replace ((0 <=? index) && (index <? Z.of_nat (length (item_data (playlist_widget w)))))
      with true in Hc
      by (symmetry; apply andb_true_iff; split; [apply Z.leb_le|apply Z.ltb_lt]; lia).
    assert (settings_writable
              (snd (remove_from_current_playlist index
                      (with_widget w
                         {| item_data := delete (Z.to_nat index) (item_data (playlist_widget w));
                            shown_wallpaper := shown_wallpaper (playlist_widget w);
                            shown_playing := shown_playing (playlist_widget w);
                            random_checked := random_checked (playlist_widget w) |})))
            = settings_writable w) as Hwr'.
    { unfold remove_from_current_playlist. simpl.
      destruct ((0 <=? index) && _); [|reflexivity]. reflexivity. }
    assert (playlist_widget
              (snd (remove_from_current_playlist index
                      (with_widget w
                         {| item_data := delete (Z.to_nat index) (item_data (playlist_widget w));
                            shown_wallpaper := shown_wallpaper (playlist_widget w);
                            shown_playing := shown_playing (playlist_widget w);
                            random_checked := random_checked (playlist_widget w) |})))
            = {| item_data := delete (Z.to_nat index) (item_data (playlist_widget w));
                 shown_wallpaper := shown_wallpaper (playlist_widget w);
                 shown_playing := shown_playing (playlist_widget w);
                 random_checked := random_checked (playlist_widget w) |}) as Hwg'.
    { unfold remove_from_current_playlist. simpl.
      destruct ((0 <=? index) && _); [|reflexivity]. reflexivity. }
    assert (playlists
              (playlist_manager
                 (snd (remove_from_current_playlist index
                         (with_widget w
                            {| item_data := delete (Z.to_nat index) (item_data (playlist_widget w));
                               shown_wallpaper := shown_wallpaper (playlist_widget w);
                               shown_playing := shown_playing (playlist_widget w);
                               random_checked := random_checked (playlist_widget w) |}))))
            = playlists (playlist_manager w)) as Hpl'.
    { unfold remove_from_current_playlist. simpl.
      destruct ((0 <=? index) && _); [|reflexivity]. simpl.
      destruct ((index <=? _) && _); [reflexivity|].
      destruct ((_ <=? _) && _); reflexivity. }
    rewrite Hwr' in Hw, Hst. rewrite Hwg' in Hg. rewrite Hpl' in Hst.
    split.
    { unfold in_sync. rewrite Hc, Hg. simpl. split; [by rewrite Hitems|]. split.
      - eapply sublist_NoDup; [exact Hnd|apply sublist_delete].
      - apply Forall_forall. intros y Hy. rewrite Forall_forall in Hall. apply Hall.
        eapply elem_of_sublist; [exact Hy|apply sublist_delete]. }
    split; [exact Hs|]. split; [exact Hw|].
    intros Hwr _. apply Hst; [exact Hwr|].
    intros Hnone _. exfalso. rewrite Hsaved in Hnone.
    rewrite bool_decide_eq_false_2 in Hnone; [discriminate|].
    intros Hnil. rewrite Hitems, Hnil in Hlt. simpl in Hlt. lia.
  - (* clear *)
    unfold _on_clear_playlist. simpl.
    match goal with |- context [_save_current_playlist ?x] =>
      destruct (_save_current_playlist_spec x) as (Hc & Hg & Hw & _ & Hs & Hst) end.
    simpl in Hc, Hg, Hw, Hst.
    split.
    { unfold in_sync. rewrite Hc, Hg. simpl. split; [reflexivity|]. split; constructor. }
    split; [exact Hs|]. split; [exact Hw|].
    intros Hwr Hstored. apply Hst; [exact Hwr|].
    intros Hnone _. rewrite Hsaved in Hnone.
    destruct (bool_decide (current_playlist (playlist_manager w) = [])) eqn:E;
      [|discriminate].
    apply bool_decide_eq_true in E.
    apply (stored_playlist_ext _ w); [reflexivity|reflexivity| |exact Hstored].
    simpl. by rewrite E.
Qed.

(** X20. The playlist panel and the playlist manager stay in step: after
    any sequence of the add, remove and clear handlers the list widget
    shows exactly the manager's current playlist, its entries are
    distinct and non-empty, and the playlist saved under the name
    [current] is that playlist (no such entry when it is empty). *)
Theorem playlist_edits_keep_panel_in_sync (edits : list playlist_edit) (w : World) :
  in_sync w ->
  saved_current w ->
  let w' := foldl apply_edit w edits in
  item_data (playlist_widget w') = current_playlist (playlist_manager w')
  /\ NoDup (current_playlist (playlist_manager w'))
  /\ Forall (fun x => Text.truthy x = true) (current_playlist (playlist_manager w'))
  /\ saved_current w'.
Proof.
  revert w. induction edits as [|e edits IH]; intros w Hsync Hsaved; simpl.
  - destruct Hsync as (H1 & H2 & H3). by repeat split.
  - destruct (edit_keeps_panel e w Hsync Hsaved) as (Hsync' & Hsaved' & _).
    by apply IH.
Qed.

Lemma playlist_edits_keep_panel_in_sync_witness :
  let edits := [EditAdd "A"; EditAdd "B"; EditAdd "A"; EditRemove 0; EditRemove 5;
                EditAdd "C"] in
  let w' := foldl apply_edit blank_world edits in
  current_playlist (playlist_manager w') = ["B"; "C"]
  /\ item_data (playlist_widget w') = current_playlist (playlist_manager w')
  /\ NoDup (current_playlist (playlist_manager w'))
  /\ Forall (fun x => Text.truthy x = true) (current_playlist (playlist_manager w'))
  /\ saved_current w'.
Proof.
  split; [vm_compute; reflexivity|].
  apply (playlist_edits_keep_panel_in_sync
           [EditAdd "A"; EditAdd "B"; EditAdd "A"; EditRemove 0; EditRemove 5; EditAdd "C"]
           blank_world).
  - split; [reflexivity|]. split; constructor.
  - reflexivity.
Defined.

Lemma add_all_fresh (l : list string) :
  forall g : PlaylistWidget,
    NoDup (item_data g ++ l) ->
    Forall (fun x => Text.truthy x = true) (item_data g ++ l) ->
    item_data (foldl (fun g wallpaper_id => snd (add_wallpaper_to_playlist wallpaper_id g))
                     g l)
    = (item_data g ++ l)%list.
Proof.
  induction l as [|x l IH]; intros g Hnd Hall; simpl; [by rewrite app_nil_r|].
  assert (Text.truthy x = true) as Hx.
  { rewrite Forall_forall in Hall. apply Hall, elem_of_app. right. apply list_elem_of_here. }
  assert (x ∉ item_data g) as Hnotin.
  { apply NoDup_app in Hnd as (_ & Hdisj & _). intros Hin.
    apply (Hdisj x Hin). apply list_elem_of_here. }
  assert (snd (add_wallpaper_to_playlist x g)
          = {| item_data := item_data g ++ [x];
               shown_wallpaper := shown_wallpaper g;
               shown_playing := shown_playing g;
               random_checked := random_checked g |}) as Hadd.
  { unfold add_wallpaper_to_playlist. rewrite Hx. simpl.
    rewrite bool_decide_eq_false_2; [reflexivity|].
    unfold get_playlist_items. intros Hin.
    apply list_elem_of_In, filter_In in Hin as [Hin _]. by apply list_elem_of_In in Hin. }
  rewrite Hadd, IH; simpl; rewrite <- ?app_assoc; simpl; done.
Qed.

(** X21. The playlist survives a restart: with a writable settings file,
    after any sequence of the add, remove and clear handlers, the next
    session (the manager constructed from the file, the panel filled by
    [_load_current_playlist]) shows the same playlist in the panel and
    holds it in the manager. *)
Theorem playlist_edits_survive_restart (edits : list playlist_edit) (w : World) :
  in_sync w ->
  saved_current w ->
  stored_playlist w ->
  settings_writable w = true ->
  let w' := foldl apply_edit w edits in
  exists next,
    next_session w' = Ret next
    /\ item_data (playlist_widget next) = item_data (playlist_widget w')
    /\ current_playlist (playlist_manager next) = current_playlist (playlist_manager w').
Proof.
  intros Hsync Hsaved Hstored Hwr w'.
  assert (in_sync w' /\ saved_current w' /\ stored_playlist w') as (Hsync' & Hsaved' & Hst').
  { subst w'. revert w Hsync Hsaved Hstored Hwr.
    induction edits as [|e edits IH]; intros w Hsync Hsaved Hstored Hwr; simpl; [done|].
    destruct (edit_keeps_panel e w Hsync Hsaved) as (H1 & H2 & H3 & H4).
    apply IH; [exact H1|exact H2|by apply H4|by rewrite H3]. }
  clearbody w'. clear w Hsync Hsaved Hstored Hwr edits.
  destruct Hsync' as (Hitems & Hnd & Hall). destruct Hst' as (Hok & Hpl & Hcur).
  unfold next_session.
  set (g0 := {| item_data := []; shown_wallpaper := None; shown_playing := false;
                random_checked := false |}).
  destruct (init_reads_file (with_widget w' g0) w' eq_refl) as [Hfst Hm0].
  assert (playlist_widget (snd (PlaylistManager__init__ (with_widget w' g0))) = g0) as Hg0.
  { unfold PlaylistManager__init__, load_settings. simpl.
    destruct (settings_file w') as [| | | |[data|]]; reflexivity. }
  destruct (PlaylistManager__init__ (with_widget w' g0)) as [r w0].
  cbn [fst snd] in Hfst, Hm0, Hg0. rewrite Hok in Hfst. subst r.
  exists (_load_current_playlist w0). split; [reflexivity|].
  unfold _load_current_playlist. rewrite Hm0, Hpl, Hsaved'.
  destruct (bool_decide (current_playlist (playlist_manager w') = [])) eqn:E.
  - apply bool_decide_eq_true in E. rewrite Hg0, Hm0, Hcur, Hitems, E. by split.
  - apply bool_decide_eq_false in E. rewrite (bool_decide_eq_false_2 _ E). simpl.
    split; [|reflexivity].
    rewrite add_all_fresh; rewrite Hg0; simpl; [by rewrite Hitems|exact Hnd|exact Hall].
Qed.

Lemma playlist_edits_survive_restart_witness :
  let edits := [EditAdd "A"; EditAdd "B"; EditRemove 0; EditAdd "C"] in
  let w' := foldl apply_edit blank_world edits in
  item_data (playlist_widget w') = ["B"; "C"]
  /\ exists next,
       next_session w' = Ret next
       /\ item_data (playlist_widget next) = item_data (playlist_widget w')
       /\ current_playlist (playlist_manager next)
          = current_playlist (playlist_manager w').
Proof.
  split; [vm_compute; reflexivity|].
  apply (playlist_edits_survive_restart
           [EditAdd "A"; EditAdd "B"; EditRemove 0; EditAdd "C"] blank_world).
  - split; [reflexivity|]. split; constructor.
  - reflexivity.
  - repeat split; reflexivity.
  - reflexivity.
Defined.

End Handlers.

Section Playback.

Context (env : LaunchEnv) (controls : RenderArgs) (media : string -> World -> bool * World).

Lemma apply_wallpaper_cases (wallpaper_id : string) (a : RenderArgs) (w w2 : World) :
  (applied (fst (apply_wallpaper env wallpaper_id a w)) = true ->
   apply_wallpaper env wallpaper_id a w2 = (Applied, launched wallpaper_id a w2))
  /\ (applied (fst (apply_wallpaper env wallpaper_id a w)) = false ->
      applied (fst (apply_wallpaper env wallpaper_id a w2)) = false
      /\ snd (apply_wallpaper env wallpaper_id a w2) = w2).
Proof.
  unfold apply_wallpaper, launched.
  destruct (negb (Text.truthy wallpaper_id)); [split; [discriminate|by split]|].
  destruct (negb (valid_wallpaper env wallpaper_id)); [split; [discriminate|by split]|].
  destruct (negb (binary_exists env)); [split; [discriminate|by split]|].
  destruct (popen env _); simpl; split; try discriminate; try reflexivity; by split.
Qed.

(** What the main window's [apply_wallpaper] does for an identifier of
    the renderer (not an imported medium). *)
Lemma window_apply_cases (x : string) (w w2 : World) :
  Text.startswith "custom_" x || Text.startswith "gif_" x = false ->
  (applied (fst (apply_wallpaper env x controls w)) = true ->
   window_apply_wallpaper env controls media x w2
   = (true,
      add_to_recent x
        (with_widget (launched x controls w2)
           (set_current_wallpaper (Some x) (playlist_widget (launched x controls w2))))))
  /\ (applied (fst (apply_wallpaper env x controls w)) = false ->
      window_apply_wallpaper env controls media x w2 = (false, w2)).
Proof.
  intros Hmedia. unfold window_apply_wallpaper. rewrite Hmedia.
  destruct (apply_wallpaper_cases x controls w w2) as [Hok Hfail].
  split.
  - intros H. rewrite (Hok H). reflexivity.
  - intros H. destruct (Hfail H) as [Hf Hw].
    destruct (apply_wallpaper env x controls w2) as [o w3]. simpl in *.
    rewrite Hf, Hw. reflexivity.
Qed.

Lemma add_to_recent_frame (x : string) (w : World) :
  let w' := add_to_recent x w in
  wallpaper_engine w' = wallpaper_engine w
  /\ playlist_widget w' = playlist_widget w
  /\ playlist_timer w' = playlist_timer w
  /\ settings_writable w' = settings_writable w
  /\ current_playlist (playlist_manager w') = current_playlist (playlist_manager w)
  /\ current_index (playlist_manager w') = current_index (playlist_manager w)
  /\ is_playing (playlist_manager w') = is_playing (playlist_manager w)
  /\ is_random (playlist_manager w') = is_random (playlist_manager w).
Proof.
  unfold add_to_recent. destruct (negb (Text.truthy x)); [by repeat split|].
  destruct (save_settings_frame
              (with_manager w
                 (set_recent_wallpapers (playlist_manager w)
                    (recent_with x (recent_wallpapers (playlist_manager w))))))
    as (He & Hg & Ht & _ & Hw & _).
  cbv zeta. rewrite save_settings_manager, He, Hg, Ht, Hw. by repeat split.
Qed.

Lemma launched_frame (x : string) (a : RenderArgs) (w : World) :
  playlist_manager (launched x a w) = playlist_manager w
  /\ wallpaper_engine (launched x a w)
     = {| current_wallpaper := Some x; current_process := None;
          last_settings := settings_of_args a |}
  /\ playlist_widget (launched x a w) = playlist_widget w
  /\ playlist_timer (launched x a w) = playlist_timer w
  /\ settings_writable (launched x a w) = settings_writable w.
Proof.
  unfold launched.
  destruct (_save_state_frame
              (with_engine w
                 {| current_wallpaper := Some x; current_process := None;
                    last_settings := settings_of_args a |}))
    as (Hm & He & Hg & Ht & Hw & _).
  by repeat split.
Qed.

(** X22. The timer tick in sequential mode, [_on_next_wallpaper], for an
    entry of the renderer: the cursor moves to the next entry, wrapping
    around; when the launch succeeds the engine and the panel show that
    entry and it becomes the newest recent wallpaper, the timer and the
    playing flag are untouched, and, the settings file being rewritten by
    the playlist manager last, a later [_load_state] finds no wallpaper
    in it; when the launch fails the cursor has moved all the same while
    engine, panel and recent list are as before. *)
Theorem next_wallpaper_applies_next_entry (draw : nat) (w : World) (x : string) :
  let m := playlist_manager w in
  let n := Z.of_nat (length (current_playlist m)) in
  let i := (current_index m + 1) mod n in
  let w' := _on_next_wallpaper env controls media draw w in
  item_data (playlist_widget w) <> [] ->
  is_random_mode (playlist_widget w) = false ->
  current_playlist m !! Z.to_nat i = Some x ->
  Text.truthy x = true ->
  Text.startswith "custom_" x || Text.startswith "gif_" x = false ->
  current_index (playlist_manager w') = i
  /\ is_playing (playlist_manager w') = is_playing m
  /\ playlist_timer w' = playlist_timer w
  /\ (applied (fst (apply_wallpaper env x controls w)) = true ->
      current_wallpaper (wallpaper_engine w') = Some x
      /\ shown_wallpaper (playlist_widget w') = Some x
      /\ last (recent_wallpapers (playlist_manager w')) = Some x
      /\ (settings_writable w = true ->
          current_wallpaper (wallpaper_engine (_load_state (with_engine w' idle_engine)))
          = None))
  /\ (applied (fst (apply_wallpaper env x controls w)) = false ->
      wallpaper_engine w' = wallpaper_engine w
      /\ playlist_widget w' = playlist_widget w
      /\ recent_wallpapers (playlist_manager w') = recent_wallpapers m).
Proof.
  intros m n i w' Hcount Hseq Hx Htruthy Hmedia.
  assert (current_playlist m <> []) as Hne.
  { intros E. rewrite E in Hx. by rewrite lookup_nil in Hx. }
  assert (0 < n) as Hn by (subst n; destruct (current_playlist m); [done|simpl; lia]).
  pose proof (Z.mod_pos_bound (current_index m + 1) n Hn) as Hi. fold i in Hi.
  pose proof (get_next_wallpaper_manager false draw w Hne) as Hm1.
  pose proof (advance_returns_current false draw w) as Hret.
  cbv zeta in Hm1. fold m n i in Hm1.
  assert (fst (get_next_wallpaper false draw w) = Some x) as Hfst.
  { rewrite Hret, Hm1. rewrite get_current_wallpaper_lookup by (simpl; lia). exact Hx. }
  assert (settings_writable (snd (get_next_wallpaper false draw w)) = settings_writable w
          /\ wallpaper_engine (snd (get_next_wallpaper false draw w)) = wallpaper_engine w
          /\ playlist_widget (snd (get_next_wallpaper false draw w)) = playlist_widget w
          /\ playlist_timer (snd (get_next_wallpaper false draw w)) = playlist_timer w)
    as (Hw1 & He1 & Hg1 & Ht1).
  { unfold get_next_wallpaper. fold m. rewrite (bool_decide_eq_false_2 _ Hne). simpl.
    destruct (save_settings_frame (with_manager w (set_current_index m ((current_index m + 1)
                 mod Z.of_nat (length (current_playlist m))))))
      as (He & Hg & Ht & _ & Hw & _).
    by repeat split. }
  assert (w' = apply_if_any env controls media (Some x) (snd (get_next_wallpaper false draw w)))
    as Hw'.
  { subst w'. unfold _on_next_wallpaper, get_playlist_count.
    replace (Z.of_nat (length (item_data (playlist_widget w))) =? 0) with false.
    2: { symmetry. apply Z.eqb_neq. destruct (item_data (playlist_widget w)); [done|simpl; lia]. }
    rewrite Hseq. destruct (get_next_wallpaper false draw w) as [r w1]. simpl in Hfst.
    by rewrite Hfst. }
  set (w1 := snd (get_next_wallpaper false draw w)) in *.
  unfold apply_if_any in Hw'. rewrite Htruthy in Hw'.
  destruct (window_apply_cases x w w1 Hmedia) as [Hok Hfail].
  destruct (applied (fst (apply_wallpaper env x controls w))) eqn:Happlied.
  - rewrite (Hok eq_refl) in Hw'. simpl in Hw'.
    destruct (launched_frame x controls w1) as (Hlm & Hle & Hlg & Hlt & Hlw).
    match type of Hw' with _ = add_to_recent x ?W =>
      destruct (add_to_recent_frame x W) as (Hae & Hag & Hat & Haw & Hap & Hai & Hay & Har) end.
    rewrite <- Hw' in Hae, Hag, Hat, Haw, Hap, Hai, Hay, Har. simpl in *.
    rewrite Hlm in Hai, Hay. rewrite Hm1 in Hai, Hay. simpl in Hai, Hay.
    split; [exact Hai|]. split; [exact Hay|]. split; [by rewrite Hat, Hlt|].
    split; [|discriminate]. intros _.
    split; [by rewrite Hae, Hle|]. split; [by rewrite Hag|].
    split.
    + rewrite Hw'. unfold add_to_recent. rewrite Htruthy. simpl.
      rewrite save_settings_manager. simpl. apply recent_with_last.
    + intros Hwr. rewrite Hw'. unfold add_to_recent. rewrite Htruthy. simpl.
      rewrite save_settings_written by (simpl; rewrite Hlw, Hw1; exact Hwr).
      reflexivity.
  - rewrite (Hfail eq_refl) in Hw'. simpl in Hw'. rewrite Hw'.
    rewrite Hm1. simpl.
    split; [reflexivity|]. split; [reflexivity|]. split; [exact Ht1|].
    split; [discriminate|]. intros _. split; [exact He1|]. split; [exact Hg1|]. reflexivity.
Qed.

Lemma saved_says_playing (w : World) :
  settings_writable w = true ->
  file_says_playing (snd (save_settings w)) (is_playing (playlist_manager w)).
Proof.
  intros Hw. rewrite save_settings_written by exact Hw. eexists. split; reflexivity.
Qed.

Lemma apply_if_any_keeps_flag (wallpaper_id : option string) (w : World) :
  (forall x, wallpaper_id = Some x ->
             Text.startswith "custom_" x || Text.startswith "gif_" x = false) ->
  settings_writable w = true ->
  file_says_playing w (is_playing (playlist_manager w)) ->
  let w' := apply_if_any env controls media wallpaper_id w in
  file_says_playing w' (is_playing (playlist_manager w))
  /\ is_playing (playlist_manager w') = is_playing (playlist_manager w)
  /\ is_random (playlist_manager w') = is_random (playlist_manager w)
  /\ timer_interval (playlist_manager w') = timer_interval (playlist_manager w).
Proof.
  intros Hmedia Hw Hfile. unfold apply_if_any.
  destruct wallpaper_id as [x|]; [|by repeat split].
  destruct (Text.truthy x) eqn:Htruthy; [|by repeat split].
  destruct (window_apply_cases x w w (Hmedia x eq_refl)) as [Hok Hfail].
  destruct (applied (fst (apply_wallpaper env x controls w))).
  - rewrite (Hok eq_refl). cbn [snd].
    destruct (launched_frame x controls w) as (Hlm & _ & _ & _ & Hlw).
    unfold add_to_recent. rewrite Htruthy. cbn [negb].
    match goal with |- context [save_settings ?W] =>
      pose proof (saved_says_playing W) as Hsaved end.
    cbn [settings_writable with_manager with_widget playlist_manager] in Hsaved.
    rewrite Hlw, Hlm in Hsaved. specialize (Hsaved Hw).
    cbv zeta. rewrite save_settings_manager.
    cbn [settings_writable with_manager with_widget playlist_manager].
    rewrite Hlm. split; [exact Hsaved|]. by repeat split.
  - rewrite (Hfail eq_refl). by repeat split.
Qed.

(** X23. The play button does not persist the playing flag.  Stopping
    clears the flag, the timer and the button state and writes nothing,
    so the next session reads the flag the file held before.  Starting
    (with entries of the renderer and a writable file) saves the new
    cursor while the flag is still clear and sets the flag afterwards:
    the session plays, with the timer armed at the interval in
    milliseconds, and the file says it does not. *)
Theorem toggle_does_not_persist_playing (draw : nat) (w : World) :
  let m := playlist_manager w in
  let w' := _on_toggle_playlist env controls media draw w in
  item_data (playlist_widget w) <> [] ->
  current_playlist m <> [] ->
  Forall (fun x => Text.startswith "custom_" x || Text.startswith "gif_" x = false)
    (current_playlist m) ->
  (is_playing m = true ->
   playlist_manager w' = set_is_playing m false
   /\ playlist_timer w' = None
   /\ shown_playing (playlist_widget w') = false
   /\ settings_file w' = settings_file w
   /\ fst (PlaylistManager__init__ w') = fst (PlaylistManager__init__ w)
   /\ playlist_manager (snd (PlaylistManager__init__ w'))
      = playlist_manager (snd (PlaylistManager__init__ w)))
  /\ (is_playing m = false ->
      settings_writable w = true ->
      is_playing (playlist_manager w') = true
      /\ is_random (playlist_manager w') = is_random_mode (playlist_widget w)
      /\ playlist_timer w' = Some (timer_interval m * 1000)
      /\ shown_playing (playlist_widget w') = true
      /\ fst (PlaylistManager__init__ w') = Ret tt
      /\ is_playing (playlist_manager (snd (PlaylistManager__init__ w'))) = false).
Proof.
  intros m w' Hcount Hne Hmedia.
  assert ((get_playlist_count (playlist_widget w) =? 0) = false) as Hc.
  { unfold get_playlist_count. apply Z.eqb_neq.
    destruct (item_data (playlist_widget w)); [done|simpl; lia]. }
  split.
  - intros Hplaying. subst w'. unfold _on_toggle_playlist. rewrite Hc. fold m.
    rewrite Hplaying. cbv zeta. simpl.
    split; [reflexivity|]. split; [reflexivity|]. split; [reflexivity|].
    split; [reflexivity|]. apply init_reads_file. reflexivity.
  - intros Hidle Hw.
    set (random := is_random_mode (playlist_widget w)).
    set (w1 := with_manager w (set_is_random m random)).
    assert (current_playlist (playlist_manager w1) <> []) as Hne1 by exact Hne.
    pose proof (get_next_wallpaper_manager random draw w1 Hne1) as Hm2.
    pose proof (advance_returns_current random draw w1) as Hret.
    assert (file_says_playing (snd (get_next_wallpaper random draw w1)) false
            /\ settings_writable (snd (get_next_wallpaper random draw w1)) = true)
      as [Hfile2 Hw2].
    { unfold get_next_wallpaper. rewrite (bool_decide_eq_false_2 _ Hne1). cbn [snd].
      split.
      - rewrite <- Hidle. match goal with |- file_says_playing (snd (save_settings ?W)) _ =>
          exact (saved_says_playing W Hw) end.
      - rewrite save_settings_writable. exact Hw. }
    assert (w' = let w2 := snd (get_next_wallpaper random draw w1) in
                 let w3 := apply_if_any env controls media
                             (fst (get_next_wallpaper random draw w1)) w2 in
                 let w4 := with_timer w3 (Some (timer_interval (playlist_manager w3) * 1000)) in
                 let w5 := with_manager w4 (set_is_playing (playlist_manager w4) true) in
                 with_widget w5 (set_playing_state true (playlist_widget w5))) as Hw'.
    { subst w'. unfold _on_toggle_playlist. rewrite Hc. fold m. rewrite Hidle.
      fold random. fold w1. destruct (get_next_wallpaper random draw w1). reflexivity. }
    set (w2 := snd (get_next_wallpaper random draw w1)) in *.
    assert (is_playing (playlist_manager w2) = false
            /\ is_random (playlist_manager w2) = random
            /\ timer_interval (playlist_manager w2) = timer_interval m) as (Hp2 & Hr2 & Ht2).
    { rewrite Hm2. simpl. by repeat split. }
    destruct (apply_if_any_keeps_flag (fst (get_next_wallpaper random draw w1)) w2)
      as (Hfile3 & Hp3 & Hr3 & Ht3).
    { intros x Hx. rewrite Hret in Hx. fold w2 in Hx.
      apply current_wallpaper_in_playlist in Hx. rewrite Hm2 in Hx. simpl in Hx.
      rewrite Forall_forall in Hmedia. by apply Hmedia. }
    { exact Hw2. }
    { rewrite Hp2. exact Hfile2. }
    rewrite Hp2 in Hfile3. destruct Hfile3 as (data & Hdata & Hflag).
    rewrite Hw'. cbv zeta. simpl. rewrite Ht3, Ht2, Hr3, Hr2.
    split; [reflexivity|]. split; [reflexivity|]. split; [reflexivity|].
    split; [reflexivity|].
    unfold PlaylistManager__init__, load_settings. simpl. rewrite Hdata. simpl.
    split; [reflexivity|]. by rewrite Hflag.
Qed.

End Playback.

Lemma next_wallpaper_applies_next_entry_witness :
  let w := with_widget
             (with_manager blank_world (manager_with ["11111111"; "22222222"] 1 true))
             {| item_data := ["11111111"; "22222222"]; shown_wallpaper := None;
                shown_playing := true; random_checked := false |} in
  let w' := _on_next_wallpaper sample_env loud_args (fun _ w0 => (false, w0)) 0 w in
  current_index (playlist_manager w') = 0
  /\ is_playing (playlist_manager w') = true
  /\ current_wallpaper (wallpaper_engine w') = Some "11111111"
  /\ shown_wallpaper (playlist_widget w') = Some "11111111"
  /\ last (recent_wallpapers (playlist_manager w')) = Some "11111111"
  /\ current_wallpaper (wallpaper_engine (_load_state (with_engine w' idle_engine))) = None.
Proof.
  pose proof (next_wallpaper_applies_next_entry sample_env loud_args
                (fun _ w0 => (false, w0)) 0
                (with_widget
                   (with_manager blank_world (manager_with ["11111111"; "22222222"] 1 true))
                   {| item_data := ["11111111"; "22222222"]; shown_wallpaper := None;
                      shown_playing := true; random_checked := false |})
                "11111111" ltac:(discriminate) eq_refl eq_refl eq_refl eq_refl)
    as (Hi & Hp & _ & Hok & _).
  destruct (Hok eq_refl) as (He & Hg & Hr & Hl).
  split; [exact Hi|]. split; [exact Hp|]. split; [exact He|]. split; [exact Hg|].
  split; [exact Hr|]. exact (Hl eq_refl).
Defined.

Lemma toggle_does_not_persist_playing_witness :
  let w := with_widget
             (with_manager blank_world (manager_with ["11111111"; "22222222"] 0 false))
             {| item_data := ["11111111"; "22222222"]; shown_wallpaper := None;
                shown_playing := false; random_checked := false |} in
  let w' := _on_toggle_playlist sample_env loud_args (fun _ w0 => (false, w0)) 0 w in
  is_playing (playlist_manager w') = true
  /\ is_random (playlist_manager w') = false
  /\ playlist_timer w' = Some 60000
  /\ shown_playing (playlist_widget w') = true
  /\ fst (PlaylistManager__init__ w') = Ret tt
  /\ is_playing (playlist_manager (snd (PlaylistManager__init__ w'))) = false.
Proof.
  pose proof (toggle_does_not_persist_playing sample_env loud_args
                (fun _ w0 => (false, w0)) 0
                (with_widget
                   (with_manager blank_world (manager_with ["11111111"; "22222222"] 0 false))
                   {| item_data := ["11111111"; "22222222"]; shown_wallpaper := None;
                      shown_playing := false; random_checked := false |})
                ltac:(discriminate) ltac:(discriminate)
                ltac:(repeat constructor)) as [_ Hstart].
  exact (Hstart eq_refl eq_refl).
Defined.

(** ** The refactored playlist flow against the playlist manager *)

Section Refactored.

Lemma flow_save_state (st : Flow.Store) :
  Flow.state (Flow._Save_Settings st) = Flow.state st
  /\ Flow.data (Flow._Save_Settings st) = Flow.data st.
Proof. unfold Flow._Save_Settings. destruct (Flow.writable st); by split. Qed.

(** X24. The refactored [Remove_From_Current_Playlist] and the playlist
    manager's [remove_from_current_playlist] agree: from the same
    playlist and cursor both leave the same playlist and the same cursor,
    for every index and every cursor, and the one returns the removed
    entry exactly when the other returns [True].  (So the manager's
    second branch, which resets the cursor to 0, never fires.) *)
Theorem refactored_remove_agrees (index : Z) (w : World) (st : Flow.Store) :
  let m := playlist_manager w in
  let r := Flow.Remove_From_Current_Playlist index st in
  let r' := remove_from_current_playlist index w in
  Flow.current_playlist (Flow.state st) = current_playlist m ->
  Flow.current_index (Flow.state st) = current_index m ->
  Flow.current_playlist (Flow.state (snd r)) = current_playlist (playlist_manager (snd r'))
  /\ Flow.current_index (Flow.state (snd r)) = current_index (playlist_manager (snd r'))
  /\ fst r = (if fst r' then current_playlist m !! Z.to_nat index else None)
  /\ (fst r' = true -> is_Some (fst r)).
Proof.
  intros m r r' Hl Hc. subst r r'.
  unfold Flow.Remove_From_Current_Playlist, remove_from_current_playlist. fold m.
  rewrite Hl.
  destruct ((0 <=? index) && (index <? Z.of_nat (length (current_playlist m)))) eqn:Hrange.
  2: { simpl. repeat split; [exact Hl|exact Hc|discriminate]. }
  apply andb_true_iff in Hrange as [H0 Hlt]. apply Z.leb_le in H0. apply Z.ltb_lt in Hlt.
  cbn [fst snd]. rewrite (proj1 (flow_save_state _)).
  cbn [Flow.state Flow.with_state Flow.set_playlist Flow.current_index Flow.current_playlist
       playlist_manager with_manager set_current_playlist current_index current_playlist].
  rewrite Hc.
  assert (length (delete (Z.to_nat index) (current_playlist m))
          = (length (current_playlist m) - 1)%nat) as Hlen.
  { rewrite length_delete; [lia|]. apply lookup_lt_is_Some. lia. }
  split; [|split; [|split; [reflexivity|]]].
  - destruct (index <=? current_index m); simpl;
      [destruct (0 <? current_index m); simpl|]; try reflexivity;
      destruct ((_ <=? _) && _); reflexivity.
  - destruct (index <=? current_index m) eqn:E1; simpl.
    + apply Z.leb_le in E1. destruct (0 <? current_index m) eqn:E2; simpl.
      * apply Z.ltb_lt in E2. lia.
      * apply Z.ltb_ge in E2. destruct ((_ <=? _) && _); simpl; lia.
    + apply Z.leb_gt in E1.
      replace (Z.of_nat (length (delete (Z.to_nat index) (current_playlist m)))
                 <=? current_index m) with false by (symmetry; apply Z.leb_gt; lia).
      simpl. exact Hc.
  - intros _. apply lookup_lt_is_Some. lia.
Qed.

Lemma refactored_remove_agrees_witness :
  let w := with_manager blank_world (manager_with ["A"; "B"; "C"] 2 false) in
  let st := Flow.with_state (flow_store ["A"; "B"; "C"])
              (Flow.set_index (Flow.state (flow_store ["A"; "B"; "C"])) 2) in
  let r := Flow.Remove_From_Current_Playlist 2 st in
  let r' := remove_from_current_playlist 2 w in
  Flow.current_playlist (Flow.state (snd r)) = current_playlist (playlist_manager (snd r'))
  /\ Flow.current_index (Flow.state (snd r)) = current_index (playlist_manager (snd r'))
  /\ fst r = (if fst r' then ["A"; "B"; "C"] !! Z.to_nat 2 else None)
  /\ (fst r' = true -> is_Some (fst r)).
Proof.
  apply (refactored_remove_agrees 2
           (with_manager blank_world (manager_with ["A"; "B"; "C"] 2 false))
           (Flow.with_state (flow_store ["A"; "B"; "C"])
              (Flow.set_index (Flow.state (flow_store ["A"; "B"; "C"])) 2)));
    reflexivity.
Defined.

Lemma remove_first_absent (x : string) (k : list string) :
  x ∉ k -> remove_first x k = k.
Proof.
  induction k as [|z k IHk]; intros Hk; simpl; [reflexivity|].
  apply not_elem_of_cons in Hk as [Hz Hk].
  rewrite (proj2 (String.eqb_neq z x)) by congruence. by rewrite IHk.
Qed.

Lemma remove_first_last (x : string) (k : list string) :
  x ∉ k -> remove_first x (k ++ [x]) = k.
Proof.
  induction k as [|z k IHk]; intros Hk; simpl.
  - by rewrite String.eqb_refl.
  - apply not_elem_of_cons in Hk as [Hz Hk].
    rewrite (proj2 (String.eqb_neq z x)) by congruence. by rewrite IHk.
Qed.

Lemma remove_first_app (x : string) (k r : list string) :
  x ∈ k -> remove_first x (k ++ r) = (remove_first x k ++ r)%list.
Proof.
  induction k as [|z k IHk]; intros Hk; simpl; [by apply elem_of_nil in Hk|].
  destruct (String.eqb z x) eqn:Ez; [reflexivity|].
  apply String.eqb_neq in Ez. apply elem_of_cons in Hk as [->|Hk]; [done|].
  by rewrite IHk.
Qed.

Lemma remove_first_reverse (x : string) (l : list string) :
  NoDup l -> remove_first x (reverse l) = reverse (remove_first x l).
Proof.
  induction 1 as [|y l Hy Hl IH]; [reflexivity|]. simpl.
  rewrite reverse_cons.
  destruct (String.eqb y x) eqn:E.
  - apply String.eqb_eq in E. subst y.
    apply remove_first_last. by rewrite elem_of_reverse.
  - apply String.eqb_neq in E. rewrite reverse_cons, <- IH.
    destruct (decide (x ∈ reverse l)) as [Hx|Hx].
    + by apply remove_first_app.
    + rewrite (remove_first_absent x (reverse l ++ [y])), (remove_first_absent x (reverse l));
        [reflexivity|exact Hx|].
      rewrite elem_of_app, list_elem_of_singleton.
      intros [?|?]; [done|congruence].
Qed.

Lemma flow_recent_mirror (x : string) (l : list string) :
  NoDup l -> flow_recent_with x (reverse l) = reverse (recent_with x l).
Proof.
  intros Hnd. unfold flow_recent_with, recent_with.
  assert (bool_decide (x ∈ reverse l) = bool_decide (x ∈ l)) as ->
    by (apply bool_decide_ext, elem_of_reverse).
  set (l' := if bool_decide (x ∈ l) then remove_first x l else l).
  assert ((if bool_decide (x ∈ l) then remove_first x (reverse l) else reverse l)
          = reverse l') as ->.
  { subst l'. destruct (bool_decide (x ∈ l)); [by apply remove_first_reverse|reflexivity]. }
  assert ((x :: reverse l') = reverse (l' ++ [x])) as ->
    by (by rewrite reverse_app).
  rewrite length_reverse.
  destruct (20 <? length (l' ++ [x]))%nat; [|reflexivity].
  unfold last_n. by rewrite take_reverse.
Qed.

(** X25. The refactored [Add_To_Recent] keeps the recent list in the
    opposite order: the newest entry is first, where the playlist manager
    keeps it last.  From lists without duplicates that mirror each other,
    adding the same non-empty identifier to both leaves lists that mirror
    each other, each of at most twenty entries. *)
Theorem refactored_recent_is_mirrored (x : string) (w : World) (st : Flow.Store) :
  let recent := recent_wallpapers (playlist_manager w) in
  let recent' := recent_wallpapers (playlist_manager (add_to_recent x w)) in
  let flow_recent' := Flow.recent_wallpapers (Flow.data (Add_To_Recent x st)) in
  Text.truthy x = true ->
  NoDup recent ->
  Flow.recent_wallpapers (Flow.data st) = reverse recent ->
  flow_recent' = reverse recent'
  /\ head flow_recent' = Some x
  /\ last recent' = Some x
  /\ (length flow_recent' <= 20)%nat.
Proof.
  intros recent recent' flow_recent' Hx Hnd Hmirror.
  assert (recent' = recent_with x recent) as Hr.
  { subst recent'. unfold add_to_recent. rewrite Hx. simpl.
    rewrite save_settings_manager. reflexivity. }
  assert (flow_recent' = flow_recent_with x (reverse recent)) as Hf.
  { subst flow_recent'. unfold Add_To_Recent.
    rewrite (proj2 (flow_save_state _)). simpl. by rewrite Hmirror. }
  rewrite Hf, Hr, flow_recent_mirror by exact Hnd.
  split; [reflexivity|].
  pose proof (recent_with_last x recent) as Hlast.
  apply last_Some in Hlast as [l' Hl']. rewrite Hl'.
  split; [by rewrite reverse_app|]. split; [apply last_snoc|].
  rewrite length_reverse, <- Hl'. apply recent_with_length.
Qed.

Lemma refactored_recent_is_mirrored_witness :
  let w := with_manager blank_world (set_recent_wallpapers fresh_manager ["A"; "B"; "C"]) in
  let st := flow_set_recent (flow_store []) ["C"; "B"; "A"] in
  let recent' := recent_wallpapers (playlist_manager (add_to_recent "B" w)) in
  let flow_recent' := Flow.recent_wallpapers (Flow.data (Add_To_Recent "B" st)) in
  recent' = ["A"; "C"; "B"]
  /\ flow_recent' = reverse recent'
  /\ head flow_recent' = Some "B"
  /\ last recent' = Some "B"
  /\ (length flow_recent' <= 20)%nat.
Proof.
  split; [vm_compute; reflexivity|].
  apply (refactored_recent_is_mirrored "B"
           (with_manager blank_world (set_recent_wallpapers fresh_manager ["A"; "B"; "C"]))
           (flow_set_recent (flow_store []) ["C"; "B"; "A"])).
  - reflexivity.
  - apply (bool_decide_unpack _). vm_compute. exact I.
  - reflexivity.
Defined.

(** X26. [Get_Next_Wallpaper] and [Get_Previous_Wallpaper] of the
    refactored flow never raise: in either mode and for every cursor and
    shuffle history they return, for a non-empty playlist, one of its
    entries, and [None] for an empty one; the playlist itself is
    unchanged. *)
Theorem refactored_advance_never_raises (_is_random : bool) (draw : nat) (st : Flow.Store) :
  let l := Flow.current_playlist (Flow.state st) in
  (exists r st',
      Flow.Get_Next_Wallpaper _is_random draw st = Ret (r, st')
      /\ Flow.current_playlist (Flow.state st') = l
      /\ match r with Some x => x ∈ l | None => l = [] end)
  /\ (exists r st',
         Get_Previous_Wallpaper st = Ret (r, st')
         /\ Flow.current_playlist (Flow.state st') = l
         /\ match r with Some x => x ∈ l | None => l = [] end).
Proof.
  intros l.
  destruct (decide (l = [])) as [Hempty|Hne].
  { split; eexists None, st.
    - unfold Flow.Get_Next_Wallpaper. fold l. by rewrite bool_decide_eq_true_2.
    - unfold Get_Previous_Wallpaper. fold l. by rewrite bool_decide_eq_true_2. }
  assert (0 < Z.of_nat (length l)) as Hn by (destruct l; [done|simpl; lia]).
  split.
  - unfold Flow.Get_Next_Wallpaper. fold l. rewrite (bool_decide_eq_false_2 _ Hne).
    destruct _is_random.
    + unfold Flow._Get_Random_Wallpaper. fold l.
      set (available := List.filter _ l).
      assert (exists seq history,
                 (if bool_decide (available = []) then (l, []) else
                    (available, Flow.shuffle_history (Flow.state st))) = (seq, history)
                 /\ seq <> [] /\ forall x, x ∈ seq -> x ∈ l) as (seq & history & -> & Hseq & Hsub).
      { destruct (bool_decide (available = [])) eqn:E.
        - eexists _, _. split; [reflexivity|]. by split.
        - apply bool_decide_eq_false in E. eexists _, _. split; [reflexivity|].
          split; [exact E|]. intros x Hx.
          apply list_elem_of_In, filter_In in Hx as [Hx _]. by apply list_elem_of_In. }
      destruct (choice_of_nonempty seq draw Hseq) as (x & Hchoice & Hin).
      rewrite Hchoice. simpl. eexists (Some x), _. split; [reflexivity|].
      split; [|by apply Hsub].
      rewrite (proj1 (flow_save_state _)). reflexivity.
    + unfold Flow._Get_Sequential_Wallpaper. fold l.
      rewrite (proj2 (Z.eqb_neq _ _)) by lia.
      pose proof (Z.mod_pos_bound (Flow.current_index (Flow.state st) + 1)
                    (Z.of_nat (length l)) Hn) as Hi.
      destruct (l !! Z.to_nat ((Flow.current_index (Flow.state st) + 1)
                                 mod Z.of_nat (length l))) as [x|] eqn:Hx.
      2: { apply lookup_ge_None in Hx. lia. }
      simpl. eexists (Some x), _. split; [reflexivity|].
      split; [|by eapply list_elem_of_lookup_2].
      rewrite (proj1 (flow_save_state _)). reflexivity.
  - unfold Get_Previous_Wallpaper. fold l. rewrite (bool_decide_eq_false_2 _ Hne).
    pose proof (Z.mod_pos_bound (Flow.current_index (Flow.state st) - 1)
                  (Z.of_nat (length l)) Hn) as Hi.
    destruct (l !! Z.to_nat ((Flow.current_index (Flow.state st) - 1)
                               mod Z.of_nat (length l))) as [x|] eqn:Hx.
    2: { apply lookup_ge_None in Hx. lia. }
    eexists (Some x), _. split; [reflexivity|].
    split; [|by eapply list_elem_of_lookup_2].
    rewrite (proj1 (flow_save_state _)). reflexivity.
Qed.

(** X27. In sequential mode the refactored flow and the playlist manager
    agree: from the same playlist and cursor, advance and retreat return
    the same entry and leave the same cursor. *)
Theorem refactored_sequential_agrees (draw : nat) (w : World) (st : Flow.Store) :
  let m := playlist_manager w in
  Flow.current_playlist (Flow.state st) = current_playlist m ->
  Flow.current_index (Flow.state st) = current_index m ->
  (exists st',
      Flow.Get_Next_Wallpaper false draw st = Ret (fst (get_next_wallpaper false draw w), st')
      /\ Flow.current_index (Flow.state st')
         = current_index (playlist_manager (snd (get_next_wallpaper false draw w))))
  /\ (exists st',
         Get_Previous_Wallpaper st = Ret (fst (get_previous_wallpaper w), st')
         /\ Flow.current_index (Flow.state st')
            = current_index (playlist_manager (snd (get_previous_wallpaper w)))).
Proof.
  intros m Hl Hc.
  destruct (decide (current_playlist m = [])) as [Hempty|Hne].
  { split; exists st.
    - unfold Flow.Get_Next_Wallpaper, get_next_wallpaper. fold m.
      rewrite Hl, !bool_decide_eq_true_2 by exact Hempty. by split.
    - unfold Get_Previous_Wallpaper, get_previous_wallpaper. fold m.
      rewrite Hl, !bool_decide_eq_true_2 by exact Hempty. by split. }
  assert (0 < Z.of_nat (length (current_playlist m))) as Hn
    by (destruct (current_playlist m); [done|simpl; lia]).
  split.
  - rewrite advance_returns_current, get_next_wallpaper_manager by exact Hne. fold m.
    pose proof (Z.mod_pos_bound (current_index m + 1) _ Hn) as Hi.
    rewrite get_current_wallpaper_lookup by (simpl; lia). simpl.
    unfold Flow.Get_Next_Wallpaper, Flow._Get_Sequential_Wallpaper.
    rewrite Hl, Hc, (bool_decide_eq_false_2 _ Hne).
    rewrite (proj2 (Z.eqb_neq _ _)) by lia.
    destruct (current_playlist m !! Z.to_nat ((current_index m + 1)
                mod Z.of_nat (length (current_playlist m)))) as [x|] eqn:Hx.
    2: { apply lookup_ge_None in Hx. lia. }
    simpl. eexists. split; [reflexivity|].
    rewrite (proj1 (flow_save_state _)). reflexivity.
  - rewrite retreat_returns_current, get_previous_wallpaper_manager by exact Hne. fold m.
    pose proof (Z.mod_pos_bound (current_index m - 1) _ Hn) as Hi.
    rewrite get_current_wallpaper_lookup by (simpl; lia). simpl.
    unfold Get_Previous_Wallpaper.
    rewrite Hl, Hc, (bool_decide_eq_false_2 _ Hne).
    destruct (current_playlist m !! Z.to_nat ((current_index m - 1)
                mod Z.of_nat (length (current_playlist m)))) as [x|] eqn:Hx.
    2: { apply lookup_ge_None in Hx. lia. }
    eexists. split; [reflexivity|].
    rewrite (proj1 (flow_save_state _)). reflexivity.
Qed.

Lemma refactored_sequential_agrees_witness :
  let w := with_manager blank_world (manager_with ["A"; "B"; "C"] 0 false) in
  let st := flow_store ["A"; "B"; "C"] in
  fst (get_previous_wallpaper w) = Some "C"
  /\ (exists st',
         Flow.Get_Next_Wallpaper false 0 st = Ret (fst (get_next_wallpaper false 0 w), st')
         /\ Flow.current_index (Flow.state st')
            = current_index (playlist_manager (snd (get_next_wallpaper false 0 w))))
  /\ (exists st',
         Get_Previous_Wallpaper st = Ret (fst (get_previous_wallpaper w), st')
         /\ Flow.current_index (Flow.state st')
            = current_index (playlist_manager (snd (get_previous_wallpaper w)))).
Proof.
  split; [reflexivity|].
  apply (refactored_sequential_agrees 0
           (with_manager blank_world (manager_with ["A"; "B"; "C"] 0 false))
           (flow_store ["A"; "B"; "C"])); reflexivity.
Defined.

(** X28. Startup of the refactored flow, [ManagePlaylist], for a settings
    file that is missing, cannot be reached or read, is not JSON, holds
    another JSON value than an object, or holds an object whose values
    have the types of the schema: the cursor afterwards is below the
    length of the playlist, or below 1 for an empty playlist, and the
    shuffle history and the last wallpaper are reset.  (An object with a
    value of another type, a string or [null] as ["current_index"] say,
    is no [settings_obj]: the loader accepts it and [Initialize_State]
    raises on it.) *)
Theorem manage_playlist_bounds_cursor (st : Flow.Store) :
  let s := Flow.state (ManagePlaylist st) in
  Flow.current_index s < Z.max 1 (Z.of_nat (length (Flow.current_playlist s)))
  /\ Flow.shuffle_history s = []
  /\ Flow.last_wallpaper s = None.
Proof.
  unfold ManagePlaylist, Flow.Initialize_State. simpl.
  set (s := Flow.state (Flow.Load_Settings st)).
  destruct (Z.of_nat (length (Flow.current_playlist s)) <=? Flow.current_index s) eqn:E;
    simpl.
  - split; [lia|by split].
  - apply Z.leb_gt in E. split; [lia|by split].
Qed.

End Refactored.

(** ** The performance monitor *)

Section Monitor.

Lemma foldl_max_spec (rest : list Z) :
  forall first : Z,
    foldl Z.max first rest ∈ first :: rest
    /\ forall q, q ∈ first :: rest -> q <= foldl Z.max first rest.
Proof.
  induction rest as [|y rest IH]; intros first; simpl.
  - split; [apply list_elem_of_here|]. intros q Hq.
    apply list_elem_of_singleton in Hq. lia.
  - destruct (IH (Z.max first y)) as [Hin Hmax]. split.
    + apply elem_of_cons in Hin as [Hin|Hin].
      * rewrite Hin. destruct (Z.max_spec first y) as [[_ ->]|[_ ->]].
        -- apply list_elem_of_further, list_elem_of_here.
        -- apply list_elem_of_here.
      * by do 2 apply list_elem_of_further.
    + intros q Hq.
      assert (Z.max first y <= foldl Z.max (Z.max first y) rest) as Hm
        by (apply Hmax, list_elem_of_here).
      apply elem_of_cons in Hq as [->|Hq]; [lia|].
      apply elem_of_cons in Hq as [->|Hq]; [lia|].
      by apply Hmax, list_elem_of_further.
Qed.

Lemma latest_pid_spec (found : list Z) (p : Z) :
  latest_pid found = Some p <-> p ∈ found /\ forall q, q ∈ found -> q <= p.
Proof.
  unfold latest_pid. destruct found as [|first rest].
  - split; [discriminate|]. intros [H _]. by apply elem_of_nil in H.
  - destruct (foldl_max_spec rest first) as [Hin Hmax]. split.
    + intros [= <-]. by split.
    + intros [Hp Hp']. f_equal. apply Z.le_antisymm; [by apply Hp'|by apply Hmax].
Qed.

Lemma monitor_matches_cases (p : ProcInfo) :
  (exists b, monitor_matches p = Ret b /\ name p <> None)
  \/ (monitor_matches p = Raise AttributeError /\ name p = None).
Proof.
  unfold monitor_matches, proc_name_of. destruct (name p); simpl; [left|right]; eauto.
Qed.

Lemma monitor_found_spec (ps : list ProcInfo) :
  forall found,
    monitor_found ps = Ret found ->
    forall z, z ∈ found <-> exists q, q ∈ ps /\ pid q = z /\ monitor_matches q = Ret true.
Proof.
  induction ps as [|p ps IH]; intros found Hfound z; simpl in Hfound.
  - injection Hfound as <-. split; [by intros ?%elem_of_nil|].
    intros (q & Hq & _). by apply elem_of_nil in Hq.
  - destruct (monitor_matches p) as [hit|] eqn:Hp; [|discriminate]. simpl in Hfound.
    destruct (monitor_found ps) as [found'|] eqn:Hps; [|discriminate]. simpl in Hfound.
    injection Hfound as <-. specialize (IH found' eq_refl z).
    split.
    + intros Hz. destruct hit.
      * apply elem_of_cons in Hz as [->|Hz].
        -- exists p. split; [apply list_elem_of_here|by split].
        -- apply IH in Hz as (q & Hq & Hpid & Hm). exists q.
           split; [by apply list_elem_of_further|by split].
      * apply IH in Hz as (q & Hq & Hpid & Hm). exists q.
        split; [by apply list_elem_of_further|by split].
    + intros (q & Hq & Hpid & Hm). apply elem_of_cons in Hq as [->|Hq].
      * rewrite Hp in Hm. injection Hm as ->. subst z. apply list_elem_of_here.
      * assert (z ∈ found') as Hz by (apply IH; eauto).
        destruct hit; [by apply list_elem_of_further|exact Hz].
Qed.

Lemma monitor_found_raises (ps : list ProcInfo) :
  (exists found, monitor_found ps = Ret found)
  \/ (monitor_found ps = Raise AttributeError /\ exists q, q ∈ ps /\ name q = None).
Proof.
  induction ps as [|p ps IH]; simpl; [left; eauto|].
  destruct (monitor_matches_cases p) as [(b & -> & _)|[-> Hn]]; simpl.
  - destruct IH as [[found ->]|[-> (q & Hq & Hname)]]; simpl; [left; eauto|].
    right. split; [reflexivity|]. exists q. split; [by apply list_elem_of_further|done].
  - right. split; [reflexivity|]. exists p. split; [apply list_elem_of_here|done].
Qed.

Lemma monitor_found_named (ps : list ProcInfo) (found : list Z) :
  monitor_found ps = Ret found -> Forall (fun q => name q <> None) ps.
Proof.
  revert found. induction ps as [|p ps IH]; intros found Hfound; [constructor|].
  simpl in Hfound.
  destruct (monitor_matches p) as [hit|] eqn:Hp; [|discriminate]. simpl in Hfound.
  destruct (monitor_found ps) as [found'|] eqn:Hps; [|discriminate].
  constructor; [|by eapply IH].
  destruct (monitor_matches_cases p) as [(b & _ & Hn)|[Hr _]]; [exact Hn|congruence].
Qed.

(** X29. The performance monitor measures the matching process with the
    highest PID, wherever it stands in the process table: the PID it
    selects belongs to a matching process and no matching process has a
    higher one, so the selection is the same for every order in which
    the table is enumerated. *)
Theorem monitor_measures_highest_pid (ps ps' : list ProcInfo) (p : Z) :
  _find_wallpaper_process ps = Some p ->
  (exists q, q ∈ ps /\ pid q = p /\ monitor_matches q = Ret true)
  /\ (forall q, q ∈ ps -> monitor_matches q = Ret true -> pid q <= p)
  /\ (ps ≡ₚ ps' -> _find_wallpaper_process ps' = Some p).
Proof.
  unfold _find_wallpaper_process. intros Hfind.
  destruct (monitor_found ps) as [found|] eqn:Hfound; [|discriminate].
  simpl in Hfind. apply latest_pid_spec in Hfind as [Hin Hmax].
  pose proof (monitor_found_spec ps found Hfound) as Hspec.
  split; [by apply Hspec|]. split.
  { intros q Hq Hm. apply Hmax, Hspec. eauto. }
  intros Hperm.
  destruct (monitor_found_raises ps') as [[found' Hfound']|[_ (q & Hq & Hname)]].
  - rewrite Hfound'. simpl. apply latest_pid_spec.
    pose proof (monitor_found_spec ps' found' Hfound') as Hspec'.
    split.
    + apply Hspec'. apply Hspec in Hin as (q & Hq & Hpid & Hm).
      exists q. split; [by rewrite <- Hperm|by split].
    + intros z Hz. apply Hmax, Hspec. apply Hspec' in Hz as (q & Hq & Hpid & Hm).
      exists q. split; [by rewrite Hperm|by split].
  - exfalso. rewrite <- Hperm in Hq.
    pose proof (monitor_found_named ps found Hfound) as Hnamed.
    rewrite Forall_forall in Hnamed. by apply (Hnamed q Hq).
Qed.

Lemma monitor_measures_highest_pid_witness :
  (exists q, q ∈ processes two_renderers /\ pid q = 200 /\ monitor_matches q = Ret true)
  /\ (forall q, q ∈ processes two_renderers -> monitor_matches q = Ret true -> pid q <= 200)
  /\ (processes two_renderers ≡ₚ reverse (processes two_renderers) ->
      _find_wallpaper_process (reverse (processes two_renderers)) = Some 200).
Proof.
  apply (monitor_measures_highest_pid (processes two_renderers)
           (reverse (processes two_renderers)) 200).
  vm_compute. reflexivity.
Defined.

End Monitor.

Section PlayMode.

Lemma restore_sets_mode (w : World) :
  current_playlist (playlist_manager w) <> [] ->
  random_checked (playlist_widget (restore_playlist_state w))
  = is_random (playlist_manager w).
Proof.
  intros Hne. unfold restore_playlist_state.
  rewrite (bool_decide_eq_false_2 _ Hne). cbn [negb].
  destruct ((_ <=? _) || _); cbv zeta;
    rewrite ?save_settings_manager, ?save_settings_widget;
    cbn [playlist_manager playlist_widget with_widget with_manager with_timer
         is_playing is_random set_current_index set_random_mode random_checked
         set_playing_state];
    rewrite ?save_settings_manager;
    cbn [playlist_manager with_manager is_playing is_random set_current_index];
    destruct (is_playing (playlist_manager w));
    try (destruct (get_current_wallpaper _) as [c|]; [destruct (Text.truthy c)|]);
    reflexivity.
Qed.

Lemma add_all_keeps_mode (l : list string) :
  forall g : PlaylistWidget,
    random_checked
      (foldl (fun g wallpaper_id => snd (add_wallpaper_to_playlist wallpaper_id g)) g l)
    = random_checked g.
Proof.
  induction l as [|x l IH]; intros g; simpl; [reflexivity|].
  rewrite IH. unfold add_wallpaper_to_playlist.
  destruct (negb (Text.truthy x)); [reflexivity|].
  destruct (bool_decide _); reflexivity.
Qed.

(** X30. The play mode survives a restart: with a writable settings file
    [_on_play_mode_changed] stores the mode, the manager of the next
    session reads it back, and for a non-empty playlist the restore at
    startup sets the radio button of the new panel to it. *)
Theorem play_mode_survives_restart (random : bool) (w : World) :
  let w1 := _on_play_mode_changed random w in
  settings_writable w = true ->
  current_playlist (playlist_manager w) <> [] ->
  is_random (playlist_manager w1) = random
  /\ exists next,
       next_session w1 = Ret next
       /\ is_random (playlist_manager next) = random
       /\ is_random_mode (playlist_widget (restore_playlist_state next)) = random.
Proof.
  intros w1 Hw Hne.
  assert (playlist_manager w1 = set_is_random (playlist_manager w) random) as Hm1.
  { subst w1. unfold _on_play_mode_changed. by rewrite save_settings_manager. }
  split; [by rewrite Hm1|].
  set (g0 := {| item_data := []; shown_wallpaper := None; shown_playing := false;
                random_checked := false |}).
  destruct (init_reads_file (with_widget w1 g0) w1 eq_refl) as [Hfst Hm0].
  assert (fst (PlaylistManager__init__ w1) = Ret tt) as Hok.
  { subst w1. unfold _on_play_mode_changed. by apply saved_manager_constructs. }
  assert (playlist_manager (snd (PlaylistManager__init__ w1))
          = set_recent_wallpapers (set_is_random (playlist_manager w) random)
              (last_n 20 (recent_wallpapers (playlist_manager w)))) as Hread.
  { subst w1. unfold _on_play_mode_changed.
    rewrite saved_manager_restored by exact Hw. reflexivity. }
  unfold next_session. fold g0.
  destruct (PlaylistManager__init__ (with_widget w1 g0)) as [r w0].
  cbn [fst snd] in Hfst, Hm0. rewrite Hok in Hfst. subst r.
  rewrite Hread in Hm0.
  exists (_load_current_playlist w0). split; [reflexivity|].
  assert (is_random (playlist_manager (_load_current_playlist w0)) = random
          /\ current_playlist (playlist_manager (_load_current_playlist w0)) <> [])
    as [Hr Hl].
  { unfold _load_current_playlist.
    destruct (playlists (playlist_manager w0) !! "current") as [saved|].
    - destruct (bool_decide (saved = [])) eqn:E; simpl.
      + rewrite Hm0. by split.
      + apply bool_decide_eq_false in E. rewrite Hm0. by split.
    - rewrite Hm0. by split. }
  split; [exact Hr|].
  unfold is_random_mode. rewrite restore_sets_mode by exact Hl. exact Hr.
Qed.

Lemma play_mode_survives_restart_witness :
  let w := with_manager blank_world (manager_with ["A"; "B"] 0 false) in
  let w1 := _on_play_mode_changed true w in
  is_random (playlist_manager w1) = true
  /\ exists next,
       next_session w1 = Ret next
       /\ is_random (playlist_manager next) = true
       /\ is_random_mode (playlist_widget (restore_playlist_state next)) = true.
Proof.
  apply (play_mode_survives_restart true
           (with_manager blank_world (manager_with ["A"; "B"] 0 false)));
    [reflexivity|discriminate].
Defined.

End PlayMode.
